(** * ipcalc: an IPv4 subnet calculator (app.py)

    A shallow embedding of [app.py] and of the part of Python's
    [ipaddress] module and string built-ins it calls, followed by the
    properties of the parser, the parent resolver, the host range and the
    paginated sibling list.

    Conventions.
    - Python integers are [Z]; a 32-bit address is a [Z] together with the
      range check the [IPv4Address] constructor performs.
    - A Python [str] is a [string] whose characters are the code points
      below 256.
    - A computation that may raise is a [result]: [Ok v], [ValueError]
      (which stands for [ValueError] and its subclasses
      [AddressValueError] and [NetmaskValueError], the only exceptions the
      program raises or catches), or [OutOfFuel] for a loop cut short by
      the fuel of the model. *)

From Stdlib Require Import ZArith List String Ascii Bool Lia.
From Stdlib Require Import Numbers.DecimalString.
Import ListNotations.

Local Open Scope string_scope.
Local Open Scope Z_scope.

(* ================================================================== *)
(** ** Results and exceptions *)
(* ================================================================== *)

Inductive result (A : Type) : Type :=
| Ok (a : A)
| ValueError
| OutOfFuel.

Arguments Ok {A} a.
Arguments ValueError {A}.
Arguments OutOfFuel {A}.

Definition bind {A B : Type} (c : result A) (k : A -> result B) : result B :=
  match c with
  | Ok a => k a
  | ValueError => ValueError
  | OutOfFuel => OutOfFuel
  end.

Notation "x <- c ;; k" := (bind c (fun x => k))
  (at level 61, c at next level, right associativity).
Notation "' pat <- c ;; k" := (bind c (fun x => match x with pat => k end))
  (at level 61, pat pattern, c at next level, right associativity).

(** [try: c except ValueError: h]. *)
Definition try_except {A : Type} (c : result A) (h : result A) : result A :=
  match c with
  | ValueError => h
  | r => r
  end.

Fixpoint mapM {A B : Type} (f : A -> result B) (l : list A) : result (list B) :=
  match l with
  | [] => Ok []
  | a :: l' => b <- f a ;; bs <- mapM f l' ;; Ok (b :: bs)
  end.

(* ================================================================== *)
(** ** Python built-ins on strings and integers *)
(* ================================================================== *)

Module Py.

(** [range(a, b)]. *)
Definition range (a b : Z) : list Z :=
  map (fun i => a + Z.of_nat i) (seq 0 (Z.to_nat (b - a))).

(** [c in s] for a one-character [c]. *)
Fixpoint contains (c : ascii) (s : string) : bool :=
  match s with
  | EmptyString => false
  | String a s' => Ascii.eqb a c || contains c s'
  end.

(** [s.split(c)] with an explicit one-character separator. *)
Fixpoint split_on (c : ascii) (s : string) : list string :=
  match s with
  | EmptyString => [EmptyString]
  | String a s' =>
      if Ascii.eqb a c then EmptyString :: split_on c s'
      else match split_on c s' with
           | h :: t => String a h :: t
           | [] => [String a EmptyString]
           end
  end.

(** [str.isspace] on one code point below 256: TAB..CR, FS..US, space,
    NEL and NBSP. *)
Definition isspace (a : ascii) : bool :=
  let n := N_of_ascii a in
  ((9 <=? n) && (n <=? 13) || (28 <=? n) && (n <=? 32)
   || (n =? 133) || (n =? 160))%N.

Fixpoint lstrip (s : string) : string :=
  match s with
  | EmptyString => EmptyString
  | String a s' => if isspace a then lstrip s' else s
  end.

Fixpoint rstrip (s : string) : string :=
  match s with
  | EmptyString => EmptyString
  | String a s' =>
      match rstrip s' with
      | EmptyString => if isspace a then EmptyString else String a EmptyString
      | r => String a r
      end
  end.

(** [s.strip()]. *)
Definition strip (s : string) : string := rstrip (lstrip s).

(** [s.split()]: the maximal runs of non-whitespace characters. [cur] is
    the token being read. *)
Fixpoint split_ws (s : string) (cur : string) : list string :=
  match s with
  | EmptyString => match cur with EmptyString => [] | _ => [cur] end
  | String a s' =>
      if isspace a
      then match cur with
           | EmptyString => split_ws s' EmptyString
           | _ => cur :: split_ws s' EmptyString
           end
      else split_ws s' (cur ++ String a EmptyString)
  end.

Definition split (s : string) : list string := split_ws s EmptyString.

Definition is_ascii_digit (a : ascii) : bool :=
  let n := N_of_ascii a in ((48 <=? n) && (n <=? 57))%N.

Fixpoint all_chars (p : ascii -> bool) (s : string) : bool :=
  match s with
  | EmptyString => true
  | String a s' => p a && all_chars p s'
  end.

(** [s.isascii() and s.isdigit()]: non-empty, ASCII decimal digits only. *)
Definition isascii_isdigit (s : string) : bool :=
  match s with
  | EmptyString => false
  | _ => all_chars is_ascii_digit s
  end.

Definition digit_value (a : ascii) : Z := Z.of_N (N_of_ascii a) - 48.

(** The value of a string of decimal digits, most significant first. *)
Fixpoint decimal_value (s : string) (acc : Z) : Z :=
  match s with
  | EmptyString => acc
  | String a s' => decimal_value s' (10 * acc + digit_value a)
  end.

(** CPython refuses to convert more than this many digits
    ([sys.int_info.default_max_str_digits]). *)
Definition max_str_digits : nat := 4300.

(** [int(s, 10)] on a string already known to hold ASCII digits only. *)
Definition int_of_digits (s : string) : result Z :=
  if (max_str_digits <? String.length s)%nat then ValueError
  else Ok (decimal_value s 0).

(** The white space [int()] skips around a literal: the C locale's
    [isspace] on the code points below 127, and the Unicode spaces above
    (NEL and NBSP, which the conversion first turns into blanks). *)
Definition int_isspace (a : ascii) : bool :=
  let n := N_of_ascii a in
  ((9 <=? n) && (n <=? 13) || (n =? 32) || (n =? 133) || (n =? 160))%N.

Fixpoint int_lstrip (s : string) : string :=
  match s with
  | EmptyString => EmptyString
  | String a s' => if int_isspace a then int_lstrip s' else s
  end.

Fixpoint int_rstrip (s : string) : string :=
  match s with
  | EmptyString => EmptyString
  | String a s' =>
      match int_rstrip s' with
      | EmptyString => if int_isspace a then EmptyString else String a EmptyString
      | r => String a r
      end
  end.

(** The digits of an integer literal: decimal digits with single
    underscores between them. [prev_digit] tells whether the previous
    character was a digit; the result is the digits without the
    underscores, or [None] for a malformed literal. *)
Fixpoint literal_digits (s : string) (prev_digit : bool) : option string :=
  match s with
  | EmptyString => if prev_digit then Some EmptyString else None
  | String a s' =>
      if is_ascii_digit a then
        match literal_digits s' true with
        | Some d => Some (String a d)
        | None => None
        end
      else if Ascii.eqb a "_" then
        if prev_digit then literal_digits s' false else None
      else None
  end.

(** [int(s)] for a [str] argument: optional surrounding white space, an
    optional sign, then a decimal literal. *)
Definition int (s : string) : result Z :=
  let body := int_rstrip (int_lstrip s) in
  let '(negative, digits) :=
    match body with
    | String "-" r => (true, r)
    | String "+" r => (false, r)
    | _ => (false, body)
    end in
  match literal_digits digits false with
  | None => ValueError
  | Some d =>
      if (max_str_digits <? String.length d)%nat then ValueError
      else let v := decimal_value d 0 in Ok (if negative then - v else v)
  end.

(** [str(n)] for an integer. *)
Definition str (n : Z) : string := NilZero.string_of_int (Z.to_int n).

(** [sep.join(l)]. *)
Definition join (sep : string) (l : list string) : string := String.concat sep l.

Definition pad3 (n : Z) : string :=
  (if n <? 10 then "00" else if n <? 100 then "0" else "") ++ str n.

Fixpoint group_thousands (fuel : nat) (n : Z) : string :=
  match fuel with
  | O => str n
  | S fuel' =>
      if n <? 1000 then str n
      else group_thousands fuel' (n / 1000) ++ "," ++ pad3 (n mod 1000)
  end.

(** [f"{n:,}"]: decimal with a comma between groups of three digits. *)
Definition format_comma (n : Z) : string :=
  if n <? 0 then "-" ++ group_thousands (Z.to_nat (Z.log2 (- n))) (- n)
  else group_thousands (Z.to_nat (Z.log2 n)) n.

Definition bit_char (b : bool) : string := if b then "1" else "0".

(** [f"{b:08b}"] for a byte [b]. *)
Definition format_08b (b : Z) : string :=
  String.concat "" (map (fun i => bit_char (Z.testbit b i)) [7; 6; 5; 4; 3; 2; 1; 0]).

(** [n.bit_length()]. *)
Definition bit_length (n : Z) : Z :=
  let a := Z.abs n in if a =? 0 then 0 else Z.log2 a + 1.

End Py.

(* ================================================================== *)
(** ** The [ipaddress] module: IPv4 addresses and networks *)
(* ================================================================== *)

Module ipaddress.

Definition IPV4LENGTH : Z := 32.
Definition _max_prefixlen : Z := IPV4LENGTH.
Definition _ALL_ONES : Z := 2 ^ IPV4LENGTH - 1.

(** [IPv4Address(address)] for an [int] argument: the range check of
    [_check_int_address]. An address object is represented by its [_ip]. *)
Definition IPv4Address_of_int (address : Z) : result Z :=
  if address <? 0 then ValueError
  else if address >? _ALL_ONES then ValueError
  else Ok address.

Definition _parse_octet (octet_str : string) : result Z :=
  match octet_str with
  | EmptyString => ValueError
  | String first _ =>
      if negb (Py.isascii_isdigit octet_str) then ValueError
      else if (3 <? String.length octet_str)%nat then ValueError
      else if negb (String.eqb octet_str "0") && Ascii.eqb first "0" then ValueError
      else
        octet_int <- Py.int_of_digits octet_str ;;
        if octet_int >? 255 then ValueError else Ok octet_int
  end.

(** [int.from_bytes(octets, 'big')]. *)
Definition from_bytes_big (octets : list Z) : Z :=
  fold_left (fun acc b => acc * 256 + b) octets 0.

(** [ip_int.to_bytes(4, 'big')], also [IPv4Address.packed]. *)
Definition to_bytes4 (ip_int : Z) : list Z :=
  [ Z.shiftr ip_int 24 mod 256; Z.shiftr ip_int 16 mod 256;
    Z.shiftr ip_int 8 mod 256; ip_int mod 256 ].

Definition packed (ip : Z) : list Z := to_bytes4 ip.

Definition _ip_int_from_string (ip_str : string) : result Z :=
  match ip_str with
  | EmptyString => ValueError
  | _ =>
      let octets := Py.split_on "." ip_str in
      if negb (List.length octets =? 4)%nat then ValueError
      else
        bytes <- mapM _parse_octet octets ;;
        Ok (from_bytes_big bytes)
  end.

(** [IPv4Address(address)] for a [str] argument. *)
Definition IPv4Address_of_str (address : string) : result Z :=
  if Py.contains "/" address then ValueError
  else _ip_int_from_string address.

(** [str(address)], also [address.exploded]. *)
Definition _string_from_ip_int (ip_int : Z) : string :=
  Py.join "." (map Py.str (to_bytes4 ip_int)).

Definition address_str (ip : Z) : string := _string_from_ip_int ip.

Definition _split_optional_netmask (address : string) : result (list string) :=
  let addr := Py.split_on "/" address in
  if (2 <? List.length addr)%nat then ValueError else Ok addr.

(** The argument of a network constructor, after [_split_addr_prefix]:
    an address and a mask, each a string or an integer. *)
Definition _split_addr_prefix (address : string) : result (string * option string) :=
  parts <- _split_optional_netmask address ;;
  match parts with
  | [a; m] => Ok (a, Some m)
  | [a] => Ok (a, None)
  | _ => ValueError
  end.

Definition _count_righthand_zero_bits (number bits : Z) : Z :=
  if number =? 0 then bits
  else Z.min bits (Py.bit_length (Z.land (Z.lnot number) (number - 1))).

Definition _ip_int_from_prefix (prefixlen : Z) : Z :=
  Z.lxor _ALL_ONES (Z.shiftr _ALL_ONES prefixlen).

Definition _prefix_from_ip_int (ip_int : Z) : result Z :=
  let trailing_zeroes := _count_righthand_zero_bits ip_int _max_prefixlen in
  let prefixlen := _max_prefixlen - trailing_zeroes in
  let leading_ones := Z.shiftr ip_int trailing_zeroes in
  let all_ones := Z.shiftl 1 prefixlen - 1 in
  if negb (leading_ones =? all_ones) then ValueError
  else Ok prefixlen.

Definition _prefix_from_prefix_string (prefixlen_str : string) : result Z :=
  if negb (Py.isascii_isdigit prefixlen_str) then ValueError
  else
    prefixlen <- Py.int_of_digits prefixlen_str ;;
    if negb ((0 <=? prefixlen) && (prefixlen <=? _max_prefixlen)) then ValueError
    else Ok prefixlen.

Definition _prefix_from_ip_string (ip_str : string) : result Z :=
  ip_int <- _ip_int_from_string ip_str ;;
  try_except (_prefix_from_ip_int ip_int)
    (let ip_int := Z.lxor ip_int _ALL_ONES in
     _prefix_from_ip_int ip_int).

(** [_make_netmask(arg)]: the pair (netmask, prefix length). The cache of
    the library only memoises this function. *)
Definition _make_netmask_of_int (arg : Z) : result (Z * Z) :=
  let prefixlen := arg in
  if negb ((0 <=? prefixlen) && (prefixlen <=? _max_prefixlen)) then ValueError
  else
    netmask <- IPv4Address_of_int (_ip_int_from_prefix prefixlen) ;;
    Ok (netmask, prefixlen).

Definition _make_netmask_of_str (arg : string) : result (Z * Z) :=
  prefixlen <- try_except (_prefix_from_prefix_string arg)
                          (_prefix_from_ip_string arg) ;;
  netmask <- IPv4Address_of_int (_ip_int_from_prefix prefixlen) ;;
  Ok (netmask, prefixlen).

(** An [IPv4Network] object: the attributes its constructor sets. *)
Record IPv4Network : Type := mkNetwork {
  network_address : Z;
  netmask : Z;
  prefixlen : Z
}.

(** The end of [IPv4Network.__init__], once address and mask are known. *)
Definition network_init (addr : Z) (mask : Z * Z) (strict : bool) : result IPv4Network :=
  let '(netmask, prefixlen) := mask in
  let packed := addr in
  if negb (Z.land packed netmask =? packed) then
    if strict then ValueError
    else
      a <- IPv4Address_of_int (Z.land packed netmask) ;;
      Ok (mkNetwork a netmask prefixlen)
  else Ok (mkNetwork addr netmask prefixlen).

(** [IPv4Network(address, strict)] for a [str] argument. Without a slash
    the mask is the integer [_max_prefixlen]. *)
Definition IPv4Network_of_str (address : string) (strict : bool) : result IPv4Network :=
  '(addr, mask) <- _split_addr_prefix address ;;
  a <- IPv4Address_of_str addr ;;
  m <- match mask with
       | Some mask_str => _make_netmask_of_str mask_str
       | None => _make_netmask_of_int _max_prefixlen
       end ;;
  network_init a m strict.

(** [IPv4Network((address, prefixlen))] for a pair of integers; [strict]
    is left at its default, [True]. *)
Definition IPv4Network_of_pair (address : Z * Z) (strict : bool) : result IPv4Network :=
  let '(addr, mask) := address in
  a <- IPv4Address_of_int addr ;;
  m <- _make_netmask_of_int mask ;;
  network_init a m strict.

Definition hostmask (net : IPv4Network) : Z := Z.lxor (netmask net) _ALL_ONES.

Definition broadcast_address (net : IPv4Network) : Z :=
  Z.lor (network_address net) (hostmask net).

Definition num_addresses (net : IPv4Network) : Z :=
  broadcast_address net - network_address net + 1.

(** [IPv4Network.__eq__]. *)
Definition network_eqb (a b : IPv4Network) : bool :=
  (network_address a =? network_address b) && (netmask a =? netmask b).

(** [address in net] for an address. *)
Definition network_contains (net : IPv4Network) (ip : Z) : bool :=
  Z.land ip (netmask net) =? network_address net.

(** [net.supernet()] with the default [prefixlen_diff=1]. *)
Definition supernet (net : IPv4Network) : result IPv4Network :=
  if prefixlen net =? 0 then Ok net
  else
    let prefixlen_diff := 1 in
    let new_prefixlen := prefixlen net - prefixlen_diff in
    if new_prefixlen <? 0 then ValueError
    else IPv4Network_of_pair
           (Z.land (network_address net) (Z.shiftl (netmask net) prefixlen_diff),
            new_prefixlen) true.

(** The networks of [_IPv4Constants], as (address, prefix length). *)
Definition constant_network (a b c d p : Z) : IPv4Network :=
  mkNetwork (from_bytes_big [a; b; c; d]) (_ip_int_from_prefix p) p.

Definition _private_networks : list IPv4Network :=
  [ constant_network 0 0 0 0 8;
    constant_network 10 0 0 0 8;
    constant_network 127 0 0 0 8;
    constant_network 169 254 0 0 16;
    constant_network 172 16 0 0 12;
    constant_network 192 0 0 0 24;
    constant_network 192 0 0 170 31;
    constant_network 192 0 2 0 24;
    constant_network 192 168 0 0 16;
    constant_network 198 18 0 0 15;
    constant_network 198 51 100 0 24;
    constant_network 203 0 113 0 24;
    constant_network 240 0 0 0 4;
    constant_network 255 255 255 255 32 ].

Definition _private_networks_exceptions : list IPv4Network :=
  [ constant_network 192 0 0 9 32;
    constant_network 192 0 0 10 32 ].

(** [net.is_private]. *)
Definition is_private (net : IPv4Network) : bool :=
  existsb (fun priv_network =>
             network_contains priv_network (network_address net)
             && network_contains priv_network (broadcast_address net))
          _private_networks
  && forallb (fun network =>
                negb (network_contains network (network_address net))
                && negb (network_contains network (broadcast_address net)))
             _private_networks_exceptions.

End ipaddress.

Import ipaddress.

(* ================================================================== *)
(** ** app.py *)
(* ================================================================== *)

Definition ITEMS_PER_PAGE : Z := 20.
Definition PAGES_BEFORE_AFTER : Z := 10.

(** [parse_input(input_str)]. The result is [Ok None] where the function
    returns [None]. *)
Definition parse_input (input_str : string) : result (option IPv4Network) :=
  match input_str with
  | EmptyString => Ok None
  | _ =>
      let input_str := Py.strip input_str in
      try_except
        (if Py.contains "/" input_str then
           net <- IPv4Network_of_str input_str false ;; Ok (Some net)
         else
           let parts := Py.split input_str in
           match parts with
           | [part0; part1] =>
               let ip_part := Py.strip part0 in
               let mask_part := Py.strip part1 in
               try_except
                 (net <- IPv4Network_of_str (ip_part ++ "/" ++ mask_part) false ;;
                  Ok (Some net))
                 (try_except
                    (wildcard <- IPv4Address_of_str mask_part ;;
                     let subnet_int := 0xFFFFFFFF - wildcard in
                     subnet_mask <- IPv4Address_of_int subnet_int ;;
                     net <- IPv4Network_of_str
                              (ip_part ++ "/" ++ address_str subnet_mask) false ;;
                     Ok (Some net))
                    (Ok None))
           | _ =>
               net <- IPv4Network_of_str (input_str ++ "/32") false ;; Ok (Some net)
           end)
        (Ok None)
  end.

(** The [while] loop of [_get_supernet_to_prefix]; each iteration uses one
    unit of fuel, and a [ValueError] of [supernet] leaves the loop. *)
Fixpoint supernet_loop (fuel : nat) (current : IPv4Network) (target_prefix : Z)
  : result IPv4Network :=
  if prefixlen current >? target_prefix then
    match fuel with
    | O => OutOfFuel
    | S fuel' =>
        match supernet current with
        | Ok next => supernet_loop fuel' next target_prefix
        | ValueError => Ok current
        | OutOfFuel => OutOfFuel
        end
    end
  else Ok current.

(** [_get_supernet_to_prefix(net, target_prefix)]. Every iteration that
    does not leave the loop lowers the prefix length by one, so the
    difference of the two prefix lengths is fuel enough. *)
Definition _get_supernet_to_prefix (net : IPv4Network) (target_prefix : Z)
  : result IPv4Network :=
  supernet_loop (Z.to_nat (prefixlen net - target_prefix)) net target_prefix.

(** [get_parent_network(net)]. *)
Definition get_parent_network (net : IPv4Network) : result IPv4Network :=
  let first := nth 0 (packed (network_address net)) 0 in
  if prefixlen net >? 24 then _get_supernet_to_prefix net 24
  else if prefixlen net >? 16 then _get_supernet_to_prefix net 16
  else if prefixlen net >? 8 then _get_supernet_to_prefix net 8
  else IPv4Network_of_str (Py.str first ++ ".0.0.0/8") true.

(** [get_host_range(net)]; the sum and the difference build address
    objects, hence the range checks. *)
Definition get_host_range (net : IPv4Network) : result (Z * Z) :=
  if num_addresses net >? 2 then
    lo <- IPv4Address_of_int (network_address net + 1) ;;
    hi <- IPv4Address_of_int (broadcast_address net - 1) ;;
    Ok (lo, hi)
  else Ok (network_address net, network_address net).

(** [wildcard_network(net)]. *)
Definition wildcard_network (net : IPv4Network) : string :=
  let octets := Py.split_on "." (address_str (network_address net)) in
  let mask_octets := Py.split_on "." (address_str (netmask net)) in
  Py.join "." (map (fun '(oct, mask) => if String.eqb mask "255" then oct else "*")
                   (combine octets mask_octets)).

(** One element of [all_nets]. *)
Module Entry.
Record t : Type := mk {
  network : string;
  range : string;
  broadcast : string;
  is_current : bool;
  index : Z;
  page : Z
}.
End Entry.

(** The dictionary [format_ipcalc] returns. *)
Module Info.
Record t : Type := mk {
  network : string;
  host_min : string;
  host_max : string;
  broadcast : string;
  hosts_usable : string;
  netmask : string;
  wildcard : string;
  binary_mask : string;
  ip_class : string;
  cidr_full : string;
  ip_type : string;
  binary_id : string;
  in_addr : string;
  all_nets : list Entry.t;
  parent_desc : string;
  show_subnet_list : bool;
  vertical : string;
  items_per_page : Z;
  total_pages : Z;
  current_page : Z;
  total_subnets : Z;
  window_start_page : Z;
  window_end_page : Z;
  current_index : Z
}.
End Info.

(** The local variables of [format_ipcalc] that the subnet list sets. *)
Module Listing.
Record t : Type := mk {
  show_subnet_list : bool;
  all_nets : list Entry.t;
  current_index : Z;
  current_page : Z;
  start_page : Z;
  end_page : Z;
  total_subnets : Z;
  total_pages : Z
}.
End Listing.

(** The text of a host range, [f"{lo} - {hi}"]. *)
Definition range_str (lo hi : Z) : string :=
  address_str lo ++ " - " ++ address_str hi.

(** [center_page], lines 183-190: the requested page when it is a
    non-empty string that [int] accepts, the page of the subject
    otherwise. *)
Definition center_page (requested_page : option string)
                       (total_pages current_index : Z) : result Z :=
  match requested_page with
  | Some (String _ _ as requested) =>
      try_except
        (n <- Py.int requested ;; Ok (Z.max 1 (Z.min n total_pages)))
        (Ok (current_index / ITEMS_PER_PAGE + 1))
  | _ => Ok (current_index / ITEMS_PER_PAGE + 1)
  end.

(** The body of the [for] loop, lines 203-216. *)
Definition subnet_entry (net parent : IPv4Network) (subnet_size idx : Z)
  : result Entry.t :=
  let network_int := network_address parent + idx * subnet_size in
  subnet_addr <- IPv4Address_of_int network_int ;;
  subnet <- IPv4Network_of_str
              (address_str subnet_addr ++ "/" ++ Py.str (prefixlen net)) false ;;
  '(sub_min, sub_max) <- get_host_range subnet ;;
  let subnet_page := idx / ITEMS_PER_PAGE + 1 in
  Ok (Entry.mk (address_str (network_address subnet))
               (range_str sub_min sub_max)
               (address_str (broadcast_address subnet))
               (network_eqb subnet net)
               idx
               subnet_page).

(** Lines 160-230 of [format_ipcalc]: the subnet list and its page
    window. Of the statements under [try], only the loop can raise
    [ValueError] ([center_page] handles its own), so the handler of line
    217 finds every variable but [all_nets] already assigned. The
    exponents are not negative for the prefix lengths a network can
    have. *)
Definition subnet_listing (net parent : IPv4Network)
    (requested_page : option string) (host_min host_max : Z) : result Listing.t :=
  let show_subnet_list := prefixlen parent <? prefixlen net in
  st <- (if show_subnet_list then
           let prefix_diff := prefixlen net - prefixlen parent in
           let total_subnets := if prefix_diff >? 0 then 2 ^ prefix_diff else 0 in
           let total_pages :=
             Z.max 1 ((total_subnets + ITEMS_PER_PAGE - 1) / ITEMS_PER_PAGE) in
           let subnet_size := 2 ^ (32 - prefixlen net) in
           let current_index :=
             (network_address net - network_address parent) / subnet_size in
           center <- center_page requested_page total_pages current_index ;;
           let start_page := Z.max 1 (center - PAGES_BEFORE_AFTER) in
           let end_page := Z.min total_pages (center + PAGES_BEFORE_AFTER) in
           let current_page := center in
           let start_index := (start_page - 1) * ITEMS_PER_PAGE in
           let end_index := Z.min total_subnets (end_page * ITEMS_PER_PAGE) in
           try_except
             (all_nets <- mapM (subnet_entry net parent subnet_size)
                               (Py.range start_index end_index) ;;
              Ok (Listing.mk true all_nets current_index current_page
                             start_page end_page total_subnets total_pages))
             (Ok (Listing.mk false [] current_index current_page
                             start_page end_page total_subnets total_pages))
         else Ok (Listing.mk false [] 0 1 1 1 0 1)) ;;
  if negb (Listing.show_subnet_list st) then
    Ok (Listing.mk false
          [Entry.mk (address_str (network_address net))
                    (range_str host_min host_max)
                    (address_str (broadcast_address net))
                    true 0 1]
          (Listing.current_index st) (Listing.current_page st)
          (Listing.start_page st) (Listing.end_page st)
          (Listing.total_subnets st) (Listing.total_pages st))
  else Ok st.

(** [str(net)]. *)
Definition network_str (net : IPv4Network) : string :=
  address_str (network_address net) ++ "/" ++ Py.str (prefixlen net).

(** [parent_desc], lines 233-244. *)
Definition describe (count : Z) (net shown : IPv4Network) : string :=
  if count >? 1 then
    "All " ++ Py.format_comma count ++ " Possible /" ++ Py.str (prefixlen net)
      ++ " Networks in " ++ wildcard_network shown
  else "Network: " ++ network_str net.

Definition newline : string := String (ascii_of_nat 10) EmptyString.

(** [format_ipcalc(net, requested_page)]. *)
Definition format_ipcalc (net : option IPv4Network) (requested_page : option string)
  : result (option Info.t) :=
  match net with
  | None => Ok None
  | Some net =>
      let hosts_total := num_addresses net in
      let hosts_usable := Z.max 0 (hosts_total - 2) in
      '(host_min, host_max) <- get_host_range net ;;
      wildcard <- IPv4Address_of_int (Z.lxor (netmask net) 0xFFFFFFFF) ;;
      let binary_mask := Py.join "." (map Py.format_08b (packed (netmask net))) in
      let first_octet := nth 0 (packed (network_address net)) 0 in
      let ip_class :=
        if first_octet <=? 127 then "A"
        else if first_octet <=? 191 then "B"
        else if first_octet <=? 223 then "C"
        else if first_octet <=? 239 then "D" else "E" in
      let ip_type := if is_private net then "Private" else "Public" in
      let binary_id :=
        Py.join "." (map Py.format_08b (packed (network_address net))) in
      let rev_octets :=
        Py.join "." (map Py.str (rev (packed (network_address net)))) in
      let in_addr := rev_octets ++ ".in-addr.arpa" in
      parent <- get_parent_network net ;;
      st <- subnet_listing net parent requested_page host_min host_max ;;
      let show_subnet_list := Listing.show_subnet_list st in
      let all_nets := Listing.all_nets st in
      let parent_desc :=
        if show_subnet_list then describe (Listing.total_subnets st) net parent
        else describe (Z.of_nat (List.length all_nets)) net net in
      let vertical :=
        "Network Address: " ++ address_str (network_address net) ++ newline
        ++ "Binary ID: " ++ binary_id ++ newline
        ++ "Subnet Mask: " ++ address_str (netmask net) ++ newline
        ++ "Binary Subnet Mask: " ++ binary_mask ++ newline
        ++ "Wildcard Mask: " ++ address_str wildcard ++ newline
        ++ "Broadcast Address: " ++ address_str (broadcast_address net) ++ newline
        ++ "CIDR Notation: " ++ network_str net ++ newline
        ++ "Usable Host IP Range: " ++ range_str host_min host_max ++ newline
        ++ "Number of Usable Hosts: " ++ Py.format_comma hosts_usable ++ newline
        ++ "IP Class: " ++ ip_class ++ newline
        ++ "IP Type: " ++ ip_type ++ newline
        ++ "in-addr.arpa: " ++ in_addr in
      let cidr_full := network_str net in
      Ok (Some (Info.mk
        (address_str (network_address net))
        (address_str host_min)
        (address_str host_max)
        (address_str (broadcast_address net))
        (Py.format_comma hosts_usable)
        (address_str (netmask net))
        (address_str wildcard)
        binary_mask
        ip_class
        cidr_full
        ip_type
        binary_id
        in_addr
        all_nets
        parent_desc
        show_subnet_list
        vertical
        ITEMS_PER_PAGE
        (Listing.total_pages st)
        (Listing.current_page st)
        (if show_subnet_list then Listing.total_subnets st
         else Z.of_nat (List.length all_nets))
        (if show_subnet_list then Listing.start_page st else 1)
        (if show_subnet_list then Listing.end_page st else 1)
        (if show_subnet_list then Listing.current_index st else 0)))
  end.

(** The POST branch of [index]: the [result] and [error] handed to the
    template for the form fields [cidr] and [page]. *)
Definition index_post (cidr page : string) : result (option Info.t * option string) :=
  net <- parse_input cidr ;;
  match net with
  | Some _ =>
      r <- format_ipcalc net (Some page) ;;
      Ok (r, None)
  | None => Ok (None, Some "Invalid IP address or subnet mask.")
  end.

(* ================================================================== *)
(** ** Vocabulary of the statements *)
(* ================================================================== *)

(** The networks the constructors of [IPv4Network] can build: a prefix
    length in [0,32], the netmask of that prefix length, a 32-bit base
    address with no host bit set. *)
Definition wf_network (net : IPv4Network) : Prop :=
  0 <= prefixlen net <= 32
  /\ netmask net = _ip_int_from_prefix (prefixlen net)
  /\ 0 <= network_address net <= _ALL_ONES
  /\ Z.land (network_address net) (netmask net) = network_address net.

(** The network of prefix length [p] that holds the address [a]. *)
Definition network_of (a p : Z) : IPv4Network :=
  mkNetwork (Z.land a (_ip_int_from_prefix p)) (_ip_int_from_prefix p) p.

(** [inner] lies wholly within [outer]. *)
Definition within (inner outer : IPv4Network) : Prop :=
  network_address outer <= network_address inner
  /\ broadcast_address inner <= broadcast_address outer.

(** [None] for a computation that raised. *)
Definition to_option {A : Type} (r : result A) : result (option A) :=
  try_except (a <- r ;; Ok (Some a)) (Ok None).

(** The host range as the specification words it. *)
Definition host_range_spec (net : IPv4Network) : Z * Z :=
  if num_addresses net >? 2
  then (network_address net + 1, broadcast_address net - 1)
  else (network_address net, network_address net).

(** The sibling of [net] with index [i] inside [parent], and its entry in
    the list, as the specification words them. *)
Definition sibling (net parent : IPv4Network) (i : Z) : IPv4Network :=
  mkNetwork (network_address parent + i * 2 ^ (32 - prefixlen net))
            (netmask net) (prefixlen net).

Definition sibling_entry (net parent : IPv4Network) (i : Z) : Entry.t :=
  let s := sibling net parent i in
  Entry.mk (address_str (network_address s))
           (range_str (fst (host_range_spec s)) (snd (host_range_spec s)))
           (address_str (broadcast_address s))
           ((network_address s =? network_address net)
            && (prefixlen s =? prefixlen net))
           i
           (i / 20 + 1).

(** The entry shown for a network that has no sibling list. *)
Definition own_entry (net : IPv4Network) : Entry.t :=
  Entry.mk (address_str (network_address net))
           (range_str (fst (host_range_spec net)) (snd (host_range_spec net)))
           (address_str (broadcast_address net))
           true 0 1.

(** The prefix length [get_parent_network] widens a prefix length to. *)
Definition parent_prefix (p : Z) : Z :=
  if p >? 24 then 24 else if p >? 16 then 16 else 8.

(** Boolean tests that a computation returned a given value. *)
Definition returns_network (r : result IPv4Network) (n : IPv4Network) : bool :=
  match r with
  | Ok m => (network_address m =? network_address n)
            && (netmask m =? netmask n) && (prefixlen m =? prefixlen n)
  | _ => false
  end.

Definition returns_Z (r : result Z) (n : Z) : bool :=
  match r with
  | Ok m => m =? n
  | _ => false
  end.

Definition returns_mask (r : result (Z * Z)) (n : Z * Z) : bool :=
  match r with
  | Ok m => (fst m =? fst n) && (snd m =? snd n)
  | _ => false
  end.

Definition not_space (a : ascii) : bool := negb (Py.isspace a).

(** The decimal text of a byte: no dot, no slash, no white space, and
    [_parse_octet] reads it back. *)
Definition octet_text_ok (o : Z) : bool :=
  negb (Py.contains "." (Py.str o)) && negb (Py.contains "/" (Py.str o))
  && Py.all_chars not_space (Py.str o)
  && returns_Z (_parse_octet (Py.str o)) o
  && match Py.str o with EmptyString => false | _ => true end.

(** The decimal text of a prefix length is read back as a netmask. *)
Definition prefix_text_ok (p : Z) : bool :=
  returns_mask (_make_netmask_of_str (Py.str p)) (_ip_int_from_prefix p, p).

(** The sibling list as the specification words it, for a parent
    strictly wider than [net] and a page [center] to centre the window
    on: 20 entries a page, 10 pages on either side. *)
Definition total_subnets_spec (net parent : IPv4Network) : Z :=
  2 ^ (prefixlen net - prefixlen parent).

Definition total_pages_spec (net parent : IPv4Network) : Z :=
  (total_subnets_spec net parent + 19) / 20.

Definition current_index_spec (net parent : IPv4Network) : Z :=
  (network_address net - network_address parent) / 2 ^ (32 - prefixlen net).

Definition window_start_spec (center : Z) : Z := Z.max 1 (center - 10).

Definition window_end_spec (net parent : IPv4Network) (center : Z) : Z :=
  Z.min (total_pages_spec net parent) (center + 10).

Definition window_indices (net parent : IPv4Network) (center : Z) : list Z :=
  Py.range ((window_start_spec center - 1) * 20)
           (Z.min (total_subnets_spec net parent)
                  (window_end_spec net parent center * 20)).

Definition window_spec (net parent : IPv4Network) (center : Z) : Listing.t :=
  Listing.mk true
    (map (sibling_entry net parent) (window_indices net parent center))
    (current_index_spec net parent)
    center
    (window_start_spec center)
    (window_end_spec net parent center)
    (total_subnets_spec net parent)
    (total_pages_spec net parent).

(** The list of a network with no wider parent: the network alone. *)
Definition single_spec (net : IPv4Network) : Listing.t :=
  Listing.mk false [own_entry net] 0 1 1 1 0 1.

(** [clamp lo hi n]: [n] brought into [lo, hi]. *)
Definition clamp (lo hi n : Z) : Z := Z.max lo (Z.min n hi).

(** Sample networks: 192.168.1.0/24, 192.168.0.0/16, 10.10.10.0/30,
    10.0.0.0/8 and 0.0.0.0/4. *)
Definition net_192_168_1_0_24 : IPv4Network := mkNetwork 3232235776 4294967040 24.
Definition net_192_168_0_0_16 : IPv4Network := mkNetwork 3232235520 4294901760 16.
Definition net_10_10_10_0_30 : IPv4Network := mkNetwork 168430080 4294967292 30.
Definition net_10_0_0_0_8 : IPv4Network := mkNetwork 167772160 4278190080 8.
Definition net_0_0_0_0_4 : IPv4Network := mkNetwork 0 4026531840 4.
Definition net_0_0_0_0_8 : IPv4Network := mkNetwork 0 4278190080 8.

(** The dotted text of the hostmask of a prefix length is read back as
    the netmask of that prefix length. *)
Definition hostmask_text_ok (p : Z) : bool :=
  returns_mask (_make_netmask_of_str (address_str (2 ^ (32 - p) - 1)))
               (_ip_int_from_prefix p, p).

(** The prefix length a dotted mask of value [w] stands for: as a netmask
    first, as a hostmask otherwise ([_prefix_from_ip_string], once the
    text is read). *)
Definition prefix_of_mask_value (w : Z) : result Z :=
  try_except (_prefix_from_ip_int w) (_prefix_from_ip_int (Z.lxor w _ALL_ONES)).

Definition not_char (c a : ascii) : bool := negb (Ascii.eqb a c).

(** Well-formedness of a network given by its three numbers. *)
Ltac solve_wf :=
  unfold wf_network; cbn [network_address netmask prefixlen];
  unfold _ALL_ONES, IPV4LENGTH;
  repeat split; first [lia | vm_compute; reflexivity].

(** A character an address text can hold: a decimal digit or a dot. *)
Definition digit_or_dot (a : ascii) : bool :=
  Py.is_ascii_digit a || Ascii.eqb a ".".

(** The dotted text of the netmask of a prefix length is read back as
    that netmask. *)
Definition netmask_text_ok (p : Z) : bool :=
  returns_mask (_make_netmask_of_str (address_str (_ip_int_from_prefix p)))
               (_ip_int_from_prefix p, p).

(** Which bytes of the netmask of a prefix length print as [255]: those
    the prefix covers whole. *)
Definition mask_octets_ok (p : Z) : bool :=
  match map (fun m => String.eqb m "255")
            (map Py.str (to_bytes4 (_ip_int_from_prefix p))) with
  | [c0; c1; c2; c3] =>
      Bool.eqb c0 (8 <=? p) && Bool.eqb c1 (16 <=? p)
      && Bool.eqb c2 (24 <=? p) && Bool.eqb c3 (32 <=? p)
  | _ => false
  end.

(** A text without its dots. *)
Fixpoint without_dots (s : string) : string :=
  match s with
  | EmptyString => EmptyString
  | String a s' => if Ascii.eqb a "." then without_dots s' else String a (without_dots s')
  end.

(** [n] times the character [c]. *)
Fixpoint repeat_char (c : ascii) (n : nat) : string :=
  match n with
  | O => EmptyString
  | S n' => String c (repeat_char c n')
  end.

(** The value of a text of binary digits, most significant first. *)
Fixpoint bits_value (s : string) (acc : Z) : Z :=
  match s with
  | EmptyString => acc
  | String a s' => bits_value s' (2 * acc + (if Ascii.eqb a "1" then 1 else 0))
  end.

(** The binary text of the netmask of a prefix length: that many ones,
    then zeroes. *)
Definition binary_mask_ok (p : Z) : bool :=
  String.eqb
    (without_dots (Py.join "." (map Py.format_08b
                                    (packed (_ip_int_from_prefix p)))))
    (repeat_char "1" (Z.to_nat p) ++ repeat_char "0" (Z.to_nat (32 - p))).

(** The binary text of a byte reads back as the byte, and holds eight
    characters, none of them a dot. *)
Definition byte_bits_ok (b : Z) : bool :=
  (bits_value (Py.format_08b b) 0 =? b)
  && (String.length (Py.format_08b b) =? 8)%nat
  && negb (Py.contains "." (Py.format_08b b)).

(** The three blocks of private addresses of RFC 1918, entries of
    [_private_networks]. *)
Definition rfc1918 : list IPv4Network :=
  [ constant_network 10 0 0 0 8;
    constant_network 172 16 0 0 12;
    constant_network 192 168 0 0 16 ].

(** The class letter of an address, by its value. *)
Definition class_of_address (a : Z) : string :=
  if a <? 128 * 2 ^ 24 then "A"
  else if a <? 192 * 2 ^ 24 then "B"
  else if a <? 224 * 2 ^ 24 then "C"
  else if a <? 240 * 2 ^ 24 then "D" else "E".

(** [n] is the quotient of [a] by [b], rounded up. *)
Definition is_ceil_div (a b n : Z) : Prop := (n - 1) * b < a <= n * b.

(* ================================================================== *)
(** ** Checked examples *)
(* ================================================================== *)

Example ex_split : Py.split "  10.0.0.1   24 " = ["10.0.0.1"; "24"].
Proof. reflexivity. Qed.

Example ex_int : Py.int " -1_000 " = Ok (-1000).
Proof. reflexivity. Qed.

Example ex_int_malformed : Py.int "1__0" = ValueError /\ Py.int "abc" = ValueError.
Proof. split; reflexivity. Qed.

Example ex_comma : Py.format_comma 16777214 = "16,777,214".
Proof. reflexivity. Qed.

Example ex_leading_zero : IPv4Address_of_str "10.01.0.1" = ValueError.
Proof. reflexivity. Qed.

Example ex_parent_docstring :
  (n <- IPv4Network_of_str "172.16.1.1/15" false ;; get_parent_network n)
  = Ok (network_of (172 * 2 ^ 24) 8).
Proof. reflexivity. Qed.

(* ================================================================== *)
(** ** Finite checks *)
(* ================================================================== *)

Lemma range_In (a b x : Z) : a <= x < b -> In x (Py.range a b).
Proof.
  intros Hx. unfold Py.range. apply in_map_iff.
  exists (Z.to_nat (x - a)). split; [lia | apply in_seq; lia].
Qed.

Lemma In_range (a b x : Z) : In x (Py.range a b) -> a <= x < b.
Proof.
  unfold Py.range. intros Hin. apply in_map_iff in Hin.
  destruct Hin as [i [<- Hi]]. apply in_seq in Hi. lia.
Qed.

Lemma range_length (a b : Z) : List.length (Py.range a b) = Z.to_nat (b - a).
Proof. unfold Py.range. now rewrite length_map, length_seq. Qed.

(** A boolean property checked on every element of a range holds on the
    range. *)
Lemma range_forallb (P : Z -> bool) (a b : Z) :
  forallb P (Py.range a b) = true -> forall x, a <= x < b -> P x = true.
Proof.
  intros Hall x Hx. rewrite forallb_forall in Hall. apply Hall, range_In, Hx.
Qed.

(* ================================================================== *)
(** ** Netmasks *)
(* ================================================================== *)

Lemma mask_ldiff (p : Z) :
  0 <= p <= 32 ->
  _ip_int_from_prefix p = Z.ldiff (Z.ones 32) (Z.ones (32 - p)).
Proof.
  intros Hp. apply Z.eqb_eq.
  apply (range_forallb
           (fun p => _ip_int_from_prefix p =? Z.ldiff (Z.ones 32) (Z.ones (32 - p)))
           0 33); [vm_compute; reflexivity | lia].
Qed.

Lemma mask_value (p : Z) :
  0 <= p <= 32 -> _ip_int_from_prefix p = 2 ^ 32 - 2 ^ (32 - p).
Proof.
  intros Hp. apply Z.eqb_eq.
  apply (range_forallb (fun p => _ip_int_from_prefix p =? 2 ^ 32 - 2 ^ (32 - p))
                       0 33); [vm_compute; reflexivity | lia].
Qed.

Lemma mask_range (p : Z) :
  0 <= p <= 32 -> 0 <= _ip_int_from_prefix p <= _ALL_ONES.
Proof.
  intros Hp.
  assert (H : ((0 <=? _ip_int_from_prefix p)
               && (_ip_int_from_prefix p <=? _ALL_ONES))%bool = true).
  { apply (range_forallb
             (fun p => ((0 <=? _ip_int_from_prefix p)
                        && (_ip_int_from_prefix p <=? _ALL_ONES))%bool) 0 33);
      [vm_compute; reflexivity | lia]. }
  apply andb_true_iff in H. destruct H as [H1 H2]. lia.
Qed.

Lemma hostmask_value (p : Z) :
  0 <= p <= 32 -> Z.lxor (_ip_int_from_prefix p) _ALL_ONES = 2 ^ (32 - p) - 1.
Proof.
  intros Hp. apply Z.eqb_eq.
  apply (range_forallb
           (fun p => Z.lxor (_ip_int_from_prefix p) _ALL_ONES =? 2 ^ (32 - p) - 1)
           0 33); [vm_compute; reflexivity | lia].
Qed.

(** Masking a 32-bit address clears its low [32 - p] bits. *)
Lemma land_mask (a p : Z) :
  0 <= a <= _ALL_ONES -> 0 <= p <= 32 ->
  Z.land a (_ip_int_from_prefix p) = 2 ^ (32 - p) * (a / 2 ^ (32 - p)).
Proof.
  intros Ha Hp. rewrite mask_ldiff by exact Hp.
  rewrite Z.ldiff_land, Z.land_assoc, Z.land_ones by lia.
  rewrite Z.mod_small by (unfold _ALL_ONES, IPV4LENGTH in Ha; lia).
  rewrite <- Z.ldiff_land, Z.ldiff_ones_r by lia.
  rewrite Z.shiftl_mul_pow2, Z.shiftr_div_pow2 by lia. lia.
Qed.

Lemma land_mask_mod (a p : Z) :
  0 <= a <= _ALL_ONES -> 0 <= p <= 32 ->
  Z.land a (_ip_int_from_prefix p) = a - a mod 2 ^ (32 - p).
Proof.
  intros Ha Hp. rewrite land_mask by assumption.
  pose proof (Z.div_mod a (2 ^ (32 - p))) as H.
  assert (0 < 2 ^ (32 - p)) by (apply Z.pow_pos_nonneg; lia). lia.
Qed.

Lemma land_mask_range (a p : Z) :
  0 <= a <= _ALL_ONES -> 0 <= p <= 32 ->
  0 <= Z.land a (_ip_int_from_prefix p) <= a.
Proof.
  intros Ha Hp. rewrite land_mask_mod by assumption.
  assert (0 < 2 ^ (32 - p)) by (apply Z.pow_pos_nonneg; lia).
  pose proof (Z.mod_pos_bound a (2 ^ (32 - p))).
  pose proof (Z.mod_le a (2 ^ (32 - p))). lia.
Qed.

Lemma land_mask_idem (a p : Z) :
  0 <= a <= _ALL_ONES -> 0 <= p <= 32 ->
  Z.land (Z.land a (_ip_int_from_prefix p)) (_ip_int_from_prefix p)
  = Z.land a (_ip_int_from_prefix p).
Proof. intros. now rewrite <- Z.land_assoc, Z.land_diag. Qed.

(* ================================================================== *)
(** ** Well-formed networks *)
(* ================================================================== *)

Lemma pow2_pos (k : Z) : 0 <= k -> 0 < 2 ^ k.
Proof. intros. apply Z.pow_pos_nonneg; lia. Qed.

(** [2 ^ 32] splits at every prefix length. *)
Lemma pow2_split (p : Z) : 0 <= p <= 32 -> 2 ^ 32 = 2 ^ p * 2 ^ (32 - p).
Proof. intros Hp. rewrite <- Z.pow_add_r by lia. f_equal. lia. Qed.

Lemma wf_aligned (net : IPv4Network) :
  wf_network net -> network_address net mod 2 ^ (32 - prefixlen net) = 0.
Proof.
  intros (Hp & Hm & Ha & Hal). rewrite Hm, land_mask_mod in Hal by assumption. lia.
Qed.

Lemma wf_hostmask (net : IPv4Network) :
  wf_network net -> hostmask net = 2 ^ (32 - prefixlen net) - 1.
Proof.
  intros (Hp & Hm & _). unfold hostmask. rewrite Hm. now apply hostmask_value.
Qed.

Lemma wf_broadcast (net : IPv4Network) :
  wf_network net ->
  broadcast_address net = network_address net + 2 ^ (32 - prefixlen net) - 1.
Proof.
  intros Hwf. pose proof (wf_aligned net Hwf) as Hal.
  pose proof (wf_hostmask net Hwf) as Hh. destruct Hwf as (Hp & Hm & Ha & _).
  unfold broadcast_address.
  pose proof (Z.add_lor_land (network_address net) (hostmask net)) as Hadd.
  assert (Hz : Z.land (network_address net) (hostmask net) = 0).
  { rewrite Hh. change (2 ^ (32 - prefixlen net) - 1)
      with (Z.pred (2 ^ (32 - prefixlen net))).
    rewrite <- Z.ones_equiv, Z.land_ones by lia. exact Hal. }
  lia.
Qed.

Lemma wf_num_addresses (net : IPv4Network) :
  wf_network net -> num_addresses net = 2 ^ (32 - prefixlen net).
Proof. intros Hwf. unfold num_addresses. rewrite wf_broadcast by assumption. lia. Qed.

(** The last address of a well-formed network is a 32-bit address. *)
Lemma wf_broadcast_range (net : IPv4Network) :
  wf_network net ->
  network_address net <= broadcast_address net <= _ALL_ONES.
Proof.
  intros Hwf. rewrite wf_broadcast by assumption.
  pose proof (wf_aligned net Hwf) as Hal. destruct Hwf as (Hp & _ & Ha & _).
  pose proof (pow2_pos (32 - prefixlen net) ltac:(lia)) as Hpos.
  pose proof (pow2_split (prefixlen net) Hp) as Hsplit.
  pose proof (pow2_pos (prefixlen net) ltac:(lia)) as Hpos'.
  apply Z.mod_divide in Hal; [| lia]. destruct Hal as [m Hm].
  unfold _ALL_ONES, IPV4LENGTH in *.
  set (S := 2 ^ (32 - prefixlen net)) in *. set (P := 2 ^ prefixlen net) in *.
  assert (m < P) by nia.
  assert ((m + 1) * S <= P * S) by (apply Z.mul_le_mono_nonneg_r; lia).
  lia.
Qed.

Lemma network_of_wf (a p : Z) :
  0 <= a <= _ALL_ONES -> 0 <= p <= 32 -> wf_network (network_of a p).
Proof.
  intros Ha Hp. unfold wf_network, network_of. cbn [network_address netmask prefixlen].
  pose proof (land_mask_range a p Ha Hp).
  repeat split; try lia. now apply land_mask_idem.
Qed.

(** A well-formed network is the network of its own base address. *)
Lemma wf_network_of (net : IPv4Network) :
  wf_network net -> net = network_of (network_address net) (prefixlen net).
Proof.
  intros (Hp & Hm & Ha & Hal). destruct net as [a m p].
  cbn [network_address netmask prefixlen] in *. subst m.
  unfold network_of. now rewrite Hal.
Qed.

(** Two prefix lengths, the narrower mask absorbs the wider one. *)
Lemma land_mask_mask (a p q : Z) :
  0 <= a <= _ALL_ONES -> 0 <= q <= p -> p <= 32 ->
  Z.land (Z.land a (_ip_int_from_prefix p)) (_ip_int_from_prefix q)
  = Z.land a (_ip_int_from_prefix q).
Proof.
  intros Ha Hq Hp.
  pose proof (land_mask_range a p Ha ltac:(lia)) as Hr.
  rewrite (land_mask (Z.land a (_ip_int_from_prefix p)) q) by lia.
  rewrite (land_mask a q), (land_mask a p) by lia.
  f_equal.
  assert (Hsplit : 2 ^ (32 - q) = 2 ^ (32 - p) * 2 ^ (p - q)).
  { rewrite <- Z.pow_add_r by lia. f_equal. lia. }
  pose proof (pow2_pos (32 - p) ltac:(lia)).
  pose proof (pow2_pos (p - q) ltac:(lia)).
  rewrite Hsplit.
  rewrite Z.div_mul_cancel_l by lia.
  rewrite <- Z.div_div by lia. reflexivity.
Qed.

(** The network of a shorter prefix contains the network of a longer one
    around the same address. *)
Lemma network_of_within (a p q : Z) :
  0 <= a <= _ALL_ONES -> 0 <= q <= p -> p <= 32 ->
  within (network_of a p) (network_of a q).
Proof.
  intros Ha Hq Hp. unfold within.
  rewrite !wf_broadcast by (apply network_of_wf; lia).
  unfold network_of; cbn [network_address netmask prefixlen].
  rewrite !land_mask by lia.
  assert (Hsplit : 2 ^ (32 - q) = 2 ^ (32 - p) * 2 ^ (p - q)).
  { rewrite <- Z.pow_add_r by lia. f_equal. lia. }
  pose proof (pow2_pos (32 - p) ltac:(lia)) as HS.
  pose proof (pow2_pos (p - q) ltac:(lia)) as HT.
  rewrite Hsplit. rewrite <- Z.div_div by lia.
  set (S := 2 ^ (32 - p)) in *. set (T := 2 ^ (p - q)) in *.
  set (m := a / S).
  pose proof (Z.div_mod m T ltac:(lia)) as Hdm.
  pose proof (Z.mod_pos_bound m T ltac:(lia)) as Hmb.
  split; nia.
Qed.

Lemma returns_network_true r n : returns_network r n = true -> r = Ok n.
Proof.
  destruct r as [m | |]; cbn [returns_network]; try discriminate.
  intros H. apply andb_true_iff in H. destruct H as [H H3].
  apply andb_true_iff in H. destruct H as [H1 H2].
  apply Z.eqb_eq in H1, H2, H3. destruct m, n. cbn in *. now subst.
Qed.

Lemma returns_Z_true r n : returns_Z r n = true -> r = Ok n.
Proof.
  destruct r as [m | |]; cbn [returns_Z]; try discriminate.
  intros H. apply Z.eqb_eq in H. now subst.
Qed.

Lemma returns_mask_true r n : returns_mask r n = true -> r = Ok n.
Proof.
  destruct r as [m | |]; cbn [returns_mask]; try discriminate.
  intros H. apply andb_true_iff in H. destruct H as [H1 H2].
  apply Z.eqb_eq in H1, H2. destruct m, n. cbn in *. now subst.
Qed.

Lemma IPv4Address_of_int_ok (a : Z) :
  0 <= a <= _ALL_ONES -> IPv4Address_of_int a = Ok a.
Proof.
  intros Ha. unfold IPv4Address_of_int.
  destruct (Z.ltb_spec a 0); [lia |].
  destruct (Z.gtb_spec a _ALL_ONES); [lia | reflexivity].
Qed.

Lemma make_netmask_of_int_ok (p : Z) :
  0 <= p <= 32 -> _make_netmask_of_int p = Ok (_ip_int_from_prefix p, p).
Proof.
  intros Hp. unfold _make_netmask_of_int, _max_prefixlen, IPV4LENGTH.
  destruct (Z.leb_spec 0 p); [| lia]. destruct (Z.leb_spec p 32); [| lia].
  cbn [andb negb]. now rewrite IPv4Address_of_int_ok by (apply mask_range; lia).
Qed.

(** Whatever [strict] is, an aligned address and a mask give the network. *)
Lemma network_init_aligned (a p : Z) (strict : bool) :
  Z.land a (_ip_int_from_prefix p) = a ->
  network_init a (_ip_int_from_prefix p, p) strict
  = Ok (mkNetwork a (_ip_int_from_prefix p) p).
Proof.
  intros Hal. unfold network_init. rewrite Hal, Z.eqb_refl. reflexivity.
Qed.

(** Without [strict], the host bits are cleared. *)
Lemma network_init_lax (a p : Z) :
  0 <= a <= _ALL_ONES -> 0 <= p <= 32 ->
  network_init a (_ip_int_from_prefix p, p) false = Ok (network_of a p).
Proof.
  intros Ha Hp. unfold network_init, network_of.
  destruct (Z.eqb_spec (Z.land a (_ip_int_from_prefix p)) a) as [E | E];
    cbn [negb].
  - now rewrite E.
  - rewrite IPv4Address_of_int_ok; [reflexivity |].
    pose proof (land_mask_range a p Ha Hp). lia.
Qed.

(** ** [supernet] and the widening loop *)

Lemma land_shifted_mask (a p : Z) :
  0 <= a <= _ALL_ONES -> 1 <= p <= 32 ->
  Z.land a (Z.shiftl (_ip_int_from_prefix p) 1)
  = Z.land a (_ip_int_from_prefix (p - 1)).
Proof.
  intros Ha Hp.
  assert (Ha' : a = Z.land a (Z.ones 32)).
  { rewrite Z.land_ones, Z.mod_small; unfold _ALL_ONES, IPV4LENGTH in Ha; lia. }
  assert (E : Z.land (Z.ones 32) (Z.shiftl (_ip_int_from_prefix p) 1)
              = Z.land (Z.ones 32) (_ip_int_from_prefix (p - 1))).
  { apply Z.eqb_eq.
    apply (range_forallb
             (fun p => Z.land (Z.ones 32) (Z.shiftl (_ip_int_from_prefix p) 1)
                       =? Z.land (Z.ones 32) (_ip_int_from_prefix (p - 1)))
             1 33); [vm_compute; reflexivity | lia]. }
  rewrite Ha', <- !Z.land_assoc. now rewrite E.
Qed.

Lemma supernet_wf (a p : Z) :
  0 <= a <= _ALL_ONES -> 1 <= p <= 32 ->
  supernet (network_of a p) = Ok (network_of a (p - 1)).
Proof.
  intros Ha Hp. unfold supernet.
  cbn [network_of network_address netmask prefixlen].
  destruct (Z.eqb_spec p 0); [lia |].
  destruct (Z.ltb_spec (p - 1) 0); [lia |].
  pose proof (land_mask_range a p Ha ltac:(lia)) as Hr.
  rewrite land_shifted_mask by lia.
  rewrite land_mask_mask by lia.
  pose proof (land_mask_range a (p - 1) Ha ltac:(lia)) as Hr'.
  unfold IPv4Network_of_pair.
  rewrite IPv4Address_of_int_ok by lia.
  rewrite make_netmask_of_int_ok by lia.
  cbn [bind]. rewrite network_init_aligned; [reflexivity |].
  apply land_mask_idem; lia.
Qed.

Lemma supernet_loop_unfold fuel current target_prefix :
  supernet_loop fuel current target_prefix
  = if prefixlen current >? target_prefix then
      match fuel with
      | O => OutOfFuel
      | S fuel' =>
          match supernet current with
          | Ok next => supernet_loop fuel' next target_prefix
          | ValueError => Ok current
          | OutOfFuel => OutOfFuel
          end
      end
    else Ok current.
Proof. destruct fuel; reflexivity. Qed.

(** With fuel for every step down to the target, the loop returns the
    network of the target prefix length: it neither runs out of fuel nor
    leaves early. *)
Lemma supernet_loop_widens (fuel : nat) :
  forall a p q,
    0 <= a <= _ALL_ONES -> 0 <= q <= p -> p <= 32 ->
    (Z.to_nat (p - q) <= fuel)%nat ->
    supernet_loop fuel (network_of a p) q = Ok (network_of a q).
Proof.
  induction fuel as [| fuel IH]; intros a p q Ha Hq Hp Hfuel;
    rewrite supernet_loop_unfold; cbn [network_of prefixlen].
  - destruct (Z.gtb_spec p q); [lia |]. now replace q with p by lia.
  - destruct (Z.gtb_spec p q) as [Hgt | Hle].
    + rewrite supernet_wf by lia. apply IH; lia.
    + now replace q with p by lia.
Qed.

Lemma get_supernet_to_prefix_wf (net : IPv4Network) (q : Z) :
  wf_network net -> 0 <= q <= prefixlen net ->
  _get_supernet_to_prefix net q = Ok (network_of (network_address net) q).
Proof.
  intros Hwf Hq. unfold _get_supernet_to_prefix.
  rewrite (wf_network_of net Hwf) at 2.
  destruct Hwf as (Hp & _ & Ha & _).
  apply supernet_loop_widens; lia.
Qed.

(** The first byte of an address, [packed[0]]. *)
Lemma first_octet_value (a : Z) :
  0 <= a <= _ALL_ONES -> nth 0 (packed a) 0 = a / 2 ^ 24 /\ 0 <= a / 2 ^ 24 < 256.
Proof.
  intros Ha. unfold packed, to_bytes4. cbn [nth].
  rewrite Z.shiftr_div_pow2 by lia.
  unfold _ALL_ONES, IPV4LENGTH in Ha.
  assert (0 <= a / 2 ^ 24 < 256).
  { split; [apply Z.div_pos; lia | apply Z.div_lt_upper_bound; lia]. }
  rewrite Z.mod_small by lia. auto.
Qed.

Lemma class_a_network (f : Z) :
  0 <= f < 256 ->
  IPv4Network_of_str (Py.str f ++ ".0.0.0/8") true
  = Ok (mkNetwork (2 ^ 24 * f) (_ip_int_from_prefix 8) 8).
Proof.
  intros Hf. apply returns_network_true.
  apply (range_forallb
           (fun f => returns_network
                       (IPv4Network_of_str (Py.str f ++ ".0.0.0/8") true)
                       (mkNetwork (2 ^ 24 * f) (_ip_int_from_prefix 8) 8))
           0 256); [vm_compute; reflexivity | lia].
Qed.

(** [get_parent_network] always returns, and returns the network of the
    class boundary around the base address. *)
Lemma get_parent_network_wf (net : IPv4Network) :
  wf_network net ->
  get_parent_network net
  = Ok (network_of (network_address net) (parent_prefix (prefixlen net))).
Proof.
  intros Hwf. unfold get_parent_network, parent_prefix.
  pose proof Hwf as (Hp & _ & Ha & _).
  destruct (Z.gtb_spec (prefixlen net) 24);
    [apply get_supernet_to_prefix_wf; [assumption | lia] |].
  destruct (Z.gtb_spec (prefixlen net) 16);
    [apply get_supernet_to_prefix_wf; [assumption | lia] |].
  destruct (Z.gtb_spec (prefixlen net) 8);
    [apply get_supernet_to_prefix_wf; [assumption | lia] |].
  destruct (first_octet_value (network_address net) Ha) as [-> Hf].
  rewrite class_a_network by exact Hf.
  unfold network_of. rewrite land_mask by lia. reflexivity.
Qed.

(* ================================================================== *)
(** ** Strings: splitting and the text of an address *)
(* ================================================================== *)

Lemma contains_app c s1 s2 :
  Py.contains c (s1 ++ s2) = Py.contains c s1 || Py.contains c s2.
Proof.
  induction s1 as [| a s1 IH]; cbn [append Py.contains]; [reflexivity |].
  now rewrite IH, orb_assoc.
Qed.

Lemma split_on_absent c s : Py.contains c s = false -> Py.split_on c s = [s].
Proof.
  induction s as [| a s IH]; cbn [Py.contains Py.split_on]; [reflexivity |].
  intros H. apply orb_false_iff in H. destruct H as [Ha Hs].
  now rewrite Ha, IH.
Qed.

Lemma split_on_app c s1 s2 :
  Py.contains c s1 = false ->
  Py.split_on c (s1 ++ String c s2) = s1 :: Py.split_on c s2.
Proof.
  induction s1 as [| a s1 IH]; cbn [append Py.contains Py.split_on].
  - intros _. now rewrite Ascii.eqb_refl.
  - intros H. apply orb_false_iff in H. destruct H as [Ha Hs].
    now rewrite Ha, IH.
Qed.

Lemma split_on_present c s :
  Py.contains c s = true -> (2 <= List.length (Py.split_on c s))%nat.
Proof.
  induction s as [| a s IH]; cbn [Py.contains Py.split_on]; [discriminate |].
  destruct (Ascii.eqb a c); cbn [orb].
  - intros _. destruct s; cbn [Py.split_on List.length]; [lia |].
    destruct (Ascii.eqb _ c); [cbn; lia |].
    destruct (Py.split_on c s); cbn; lia.
  - intros H. specialize (IH H).
    destruct (Py.split_on c s); cbn [List.length] in *; lia.
Qed.

Lemma all_chars_app f s1 s2 :
  Py.all_chars f (s1 ++ s2) = Py.all_chars f s1 && Py.all_chars f s2.
Proof.
  induction s1 as [| a s1 IH]; cbn [append Py.all_chars]; [reflexivity |].
  now rewrite IH, andb_assoc.
Qed.

(** A string with a character that fails [f] does not satisfy [f]
    everywhere. *)
Lemma all_chars_contains f c s :
  f c = false -> Py.contains c s = true -> Py.all_chars f s = false.
Proof.
  intros Hf. induction s as [| a s IH]; cbn [Py.contains Py.all_chars];
    [discriminate |].
  destruct (Ascii.eqb_spec a c) as [-> | _]; cbn [orb].
  - intros _. now rewrite Hf.
  - intros H. rewrite (IH H). apply andb_false_r.
Qed.

Lemma octet_text (o : Z) :
  0 <= o < 256 ->
  Py.contains "." (Py.str o) = false /\ Py.contains "/" (Py.str o) = false
  /\ Py.all_chars not_space (Py.str o) = true
  /\ _parse_octet (Py.str o) = Ok o
  /\ Py.str o <> EmptyString.
Proof.
  intros Ho.
  assert (H : octet_text_ok o = true)
    by (apply (range_forallb octet_text_ok 0 256);
        [vm_compute; reflexivity | lia]).
  unfold octet_text_ok in H.
  repeat (apply andb_true_iff in H; destruct H as [H ?]).
  apply negb_true_iff in H, H3.
  repeat split; auto using returns_Z_true.
  intros E. rewrite E in *. discriminate.
Qed.

Lemma to_bytes4_range (a : Z) : Forall (fun o => 0 <= o < 256) (to_bytes4 a).
Proof.
  unfold to_bytes4. repeat constructor; apply Z.mod_pos_bound; lia.
Qed.

Lemma from_to_bytes (a : Z) :
  0 <= a <= _ALL_ONES -> from_bytes_big (to_bytes4 a) = a.
Proof.
  intros Ha. unfold from_bytes_big, to_bytes4, _ALL_ONES, IPV4LENGTH in *.
  cbn [fold_left]. rewrite !Z.shiftr_div_pow2 by lia.
  change (2 ^ 24) with 16777216. change (2 ^ 16) with 65536.
  change (2 ^ 8) with 256. change (2 ^ 32 - 1) with 4294967295 in Ha.
  Z.div_mod_to_equations. lia.
Qed.

(** The text of four octets is read back as the four octets. *)
Lemma dotted_quad_parse (s1 s2 s3 s4 : string) (o1 o2 o3 o4 : Z) :
  Py.contains "." s1 = false -> Py.contains "." s2 = false ->
  Py.contains "." s3 = false -> Py.contains "." s4 = false ->
  _parse_octet s1 = Ok o1 -> _parse_octet s2 = Ok o2 ->
  _parse_octet s3 = Ok o3 -> _parse_octet s4 = Ok o4 ->
  _ip_int_from_string (Py.join "." [s1; s2; s3; s4])
  = Ok (from_bytes_big [o1; o2; o3; o4]).
Proof.
  intros H1 H2 H3 H4 P1 P2 P3 P4.
  unfold Py.join. cbn [String.concat].
  change (s1 ++ "." ++ s2 ++ "." ++ s3 ++ "." ++ s4)
    with (s1 ++ String "." (s2 ++ String "." (s3 ++ String "." s4))).
  unfold _ip_int_from_string.
  rewrite !split_on_app, split_on_absent by assumption.
  cbn [List.length Nat.eqb negb mapM]. rewrite P1, P2, P3, P4. cbn [bind].
  destruct s1; cbn [append]; reflexivity.
Qed.

Lemma address_str_contains (c : ascii) (a : Z) :
  (forall o, 0 <= o < 256 -> Py.contains c (Py.str o) = false) ->
  Py.contains c "." = false ->
  Py.contains c (address_str a) = false.
Proof.
  intros Hoct Hdot.
  unfold address_str, _string_from_ip_int, Py.join.
  pose proof (to_bytes4_range a) as Hr. unfold to_bytes4 in *.
  cbn [map String.concat].
  inversion_clear Hr as [| ? ? R1 Hr1]. inversion_clear Hr1 as [| ? ? R2 Hr2].
  inversion_clear Hr2 as [| ? ? R3 Hr3]. inversion_clear Hr3 as [| ? ? R4 _].
  rewrite !contains_app, Hdot, !Hoct by assumption. reflexivity.
Qed.

Lemma address_str_no_slash (a : Z) : Py.contains "/" (address_str a) = false.
Proof.
  apply address_str_contains; [| reflexivity].
  intros o Ho. apply (octet_text o Ho).
Qed.

Lemma address_str_has_dot (a : Z) : Py.contains "." (address_str a) = true.
Proof.
  unfold address_str, _string_from_ip_int, Py.join, to_bytes4.
  cbn [map String.concat]. rewrite contains_app.
  apply orb_true_iff. right. reflexivity.
Qed.

(** Printing an address and reading it back. *)
Lemma ip_int_from_string_address_str (a : Z) :
  0 <= a <= _ALL_ONES -> _ip_int_from_string (address_str a) = Ok a.
Proof.
  intros Ha. rewrite <- (from_to_bytes a Ha) at 2.
  unfold address_str, _string_from_ip_int.
  pose proof (to_bytes4_range a) as Hr. unfold to_bytes4 in *.
  cbn [map].
  inversion_clear Hr as [| ? ? R1 Hr1]. inversion_clear Hr1 as [| ? ? R2 Hr2].
  inversion_clear Hr2 as [| ? ? R3 Hr3]. inversion_clear Hr3 as [| ? ? R4 _].
  apply dotted_quad_parse;
    first [apply (octet_text _ R1) | apply (octet_text _ R2)
          | apply (octet_text _ R3) | apply (octet_text _ R4)].
Qed.

Lemma IPv4Address_of_str_address_str (a : Z) :
  0 <= a <= _ALL_ONES -> IPv4Address_of_str (address_str a) = Ok a.
Proof.
  intros Ha. unfold IPv4Address_of_str.
  now rewrite address_str_no_slash, ip_int_from_string_address_str.
Qed.

(* ================================================================== *)
(** ** Networks built from text *)
(* ================================================================== *)

(** The constructor on [ip/mask] when neither part holds a slash. *)
Lemma IPv4Network_of_str_slash (ip mask : string) (strict : bool) :
  Py.contains "/" ip = false -> Py.contains "/" mask = false ->
  IPv4Network_of_str (ip ++ "/" ++ mask) strict
  = (a <- IPv4Address_of_str ip ;;
     m <- _make_netmask_of_str mask ;;
     network_init a m strict).
Proof.
  intros Hip Hmask. unfold IPv4Network_of_str, _split_addr_prefix,
    _split_optional_netmask.
  change (ip ++ "/" ++ mask) with (ip ++ String "/" mask).
  rewrite split_on_app, split_on_absent by assumption. reflexivity.
Qed.

Lemma make_netmask_of_prefix_text (p : Z) :
  0 <= p <= 32 -> _make_netmask_of_str (Py.str p) = Ok (_ip_int_from_prefix p, p).
Proof.
  intros Hp. apply returns_mask_true.
  apply (range_forallb prefix_text_ok 0 33); [vm_compute; reflexivity | lia].
Qed.

(** [IPv4Network(f"{a}/{p}", strict=False)]. *)
Lemma IPv4Network_of_str_cidr (a p : Z) :
  0 <= a <= _ALL_ONES -> 0 <= p <= 32 ->
  IPv4Network_of_str (address_str a ++ "/" ++ Py.str p) false = Ok (network_of a p).
Proof.
  intros Ha Hp.
  rewrite IPv4Network_of_str_slash;
    [| apply address_str_no_slash | apply (octet_text p); lia].
  rewrite IPv4Address_of_str_address_str, make_netmask_of_prefix_text by assumption.
  cbn [bind]. now apply network_init_lax.
Qed.

(* ================================================================== *)
(** ** Host range *)
(* ================================================================== *)

(** On a well-formed network [get_host_range] does not raise and returns
    the range of the specification. *)
Lemma get_host_range_wf (net : IPv4Network) :
  wf_network net -> get_host_range net = Ok (host_range_spec net).
Proof.
  intros Hwf. unfold get_host_range, host_range_spec.
  pose proof (wf_broadcast_range net Hwf) as Hb.
  destruct Hwf as (_ & _ & Ha & _).
  destruct (Z.gtb_spec (num_addresses net) 2) as [Hgt | Hle]; [| reflexivity].
  unfold num_addresses in Hgt.
  rewrite !IPv4Address_of_int_ok by lia. reflexivity.
Qed.

(* ================================================================== *)
(** ** Siblings *)
(* ================================================================== *)

Lemma mapM_ok {A B : Type} (f : A -> result B) (g : A -> B) (l : list A) :
  (forall x, In x l -> f x = Ok (g x)) -> mapM f l = Ok (map g l).
Proof.
  induction l as [| a l IH]; intros H; cbn [mapM map]; [reflexivity |].
  rewrite H by (left; reflexivity). cbn [bind].
  rewrite IH by (intros x Hx; apply H; right; exact Hx). reflexivity.
Qed.

(** Every sibling index below the count gives a well-formed network of
    the subject's prefix length, inside the parent. *)
Lemma sibling_wf (net parent : IPv4Network) (i : Z) :
  wf_network net -> wf_network parent ->
  prefixlen parent <= prefixlen net ->
  0 <= i < 2 ^ (prefixlen net - prefixlen parent) ->
  wf_network (sibling net parent i) /\ within (sibling net parent i) parent.
Proof.
  intros Hn Hpa Hlt Hi.
  pose proof (wf_aligned parent Hpa) as Hal.
  pose proof (wf_broadcast_range parent Hpa) as Hbr.
  rewrite (wf_broadcast parent Hpa) in Hbr.
  pose proof Hn as (Hp & Hm & Ha & _). pose proof Hpa as (Hq & _ & Hpa0 & _).
  set (p := prefixlen net) in *. set (q := prefixlen parent) in *.
  assert (Hsplit : 2 ^ (32 - q) = 2 ^ (32 - p) * 2 ^ (p - q)).
  { rewrite <- Z.pow_add_r by lia. f_equal. lia. }
  pose proof (pow2_pos (32 - p) ltac:(lia)) as HS.
  pose proof (pow2_pos (p - q) ltac:(lia)) as HT.
  rewrite Hsplit in Hal, Hbr.
  set (S := 2 ^ (32 - p)) in *. set (T := 2 ^ (p - q)) in *.
  apply Z.mod_divide in Hal; [| lia]. destruct Hal as [m Hm'].
  set (b := network_address parent + i * S).
  assert (Hb : 0 <= b /\ b + S <= network_address parent + S * T) by (unfold b; nia).
  assert (Hbmod : b mod S = 0).
  { unfold b. rewrite Hm'. replace (m * (S * T) + i * S) with ((m * T + i) * S) by ring.
    apply Z.mod_mul. lia. }
  assert (Hwf : wf_network (sibling net parent i)).
  { unfold wf_network, sibling. cbn [network_address netmask prefixlen].
    fold p S b. repeat split; try lia.
    rewrite Hm. fold p. rewrite land_mask_mod by lia. fold S. lia. }
  split; [exact Hwf |].
  unfold within. rewrite (wf_broadcast _ Hwf), (wf_broadcast parent Hpa).
  unfold sibling. cbn [network_address netmask prefixlen]. fold p q S b.
  rewrite Hsplit. fold S T. lia.
Qed.

Lemma sibling_network_of (net parent : IPv4Network) (i : Z) :
  wf_network net -> wf_network (sibling net parent i) ->
  network_of (network_address parent + i * 2 ^ (32 - prefixlen net)) (prefixlen net)
  = sibling net parent i.
Proof.
  intros (_ & Hm & _) (_ & _ & _ & Hal). unfold network_of, sibling in *.
  cbn [network_address netmask prefixlen] in Hal.
  rewrite <- Hm. now rewrite Hal.
Qed.

(** The loop body builds the entry of the specification for every index
    below the sibling count, and does not raise. *)
Lemma subnet_entry_wf (net parent : IPv4Network) (i : Z) :
  wf_network net -> wf_network parent ->
  prefixlen parent <= prefixlen net ->
  0 <= i < 2 ^ (prefixlen net - prefixlen parent) ->
  subnet_entry net parent (2 ^ (32 - prefixlen net)) i
  = Ok (sibling_entry net parent i).
Proof.
  intros Hn Hpa Hlt Hi.
  destruct (sibling_wf net parent i Hn Hpa Hlt Hi) as [Hs _].
  pose proof Hs as (_ & _ & Hb & _).
  pose proof Hn as (Hp & Hm & _).
  pose proof (sibling_network_of net parent i Hn Hs) as E.
  unfold sibling in Hb. cbn [network_address] in Hb.
  unfold subnet_entry.
  rewrite IPv4Address_of_int_ok by exact Hb. cbn [bind].
  rewrite IPv4Network_of_str_cidr by assumption. cbn [bind].
  rewrite E, get_host_range_wf by assumption. cbn [bind].
  unfold sibling_entry, ITEMS_PER_PAGE.
  destruct (host_range_spec (sibling net parent i)) as [lo hi]. cbn [fst snd].
  f_equal. unfold network_eqb, sibling.
  cbn [network_address netmask prefixlen]. now rewrite !Z.eqb_refl.
Qed.

(* ================================================================== *)
(** ** The page window *)
(* ================================================================== *)

Lemma int_never_out_of_fuel (s : string) : Py.int s <> OutOfFuel.
Proof.
  unfold Py.int.
  destruct (match Py.int_rstrip (Py.int_lstrip s) with
            | String "-" r => (true, r)
            | String "+" r => (false, r)
            | _ => (false, Py.int_rstrip (Py.int_lstrip s))
            end) as [negative digits].
  destruct (Py.literal_digits digits false) as [d |]; [| discriminate].
  destruct (Py.max_str_digits <? String.length d)%nat; discriminate.
Qed.

(** [center_page] never raises: it returns the clamped request when
    [int] accepts a non-empty request, and the subject's page otherwise. *)
Lemma center_page_cases (requested_page : option string) (total_pages current_index : Z) :
  match requested_page with
  | Some (String _ _ as s) =>
      match Py.int s with
      | Ok n => center_page requested_page total_pages current_index
                = Ok (clamp 1 total_pages n)
      | _ => center_page requested_page total_pages current_index
             = Ok (current_index / 20 + 1)
      end
  | _ => center_page requested_page total_pages current_index
         = Ok (current_index / 20 + 1)
  end.
Proof.
  destruct requested_page as [[| c s] |]; cbn [center_page]; try reflexivity.
  pose proof (int_never_out_of_fuel (String c s)) as Hfuel.
  destruct (Py.int (String c s)); cbn [bind try_except];
    [reflexivity | reflexivity | congruence].
Qed.

Lemma center_page_returns (requested_page : option string) (total_pages current_index : Z) :
  exists center, center_page requested_page total_pages current_index = Ok center.
Proof.
  pose proof (center_page_cases requested_page total_pages current_index) as H.
  destruct requested_page as [[| c s] |]; try (eexists; exact H).
  destruct (Py.int (String c s)); eexists; exact H.
Qed.

Lemma total_subnets_ge_2 (net parent : IPv4Network) :
  prefixlen parent < prefixlen net -> 2 <= total_subnets_spec net parent.
Proof.
  intros Hlt. unfold total_subnets_spec.
  replace (prefixlen net - prefixlen parent)
    with (1 + (prefixlen net - prefixlen parent - 1)) by lia.
  rewrite Z.pow_add_r by lia.
  pose proof (pow2_pos (prefixlen net - prefixlen parent - 1) ltac:(lia)). lia.
Qed.

Lemma total_pages_ceil (net parent : IPv4Network) :
  is_ceil_div (total_subnets_spec net parent) 20 (total_pages_spec net parent).
Proof.
  unfold is_ceil_div, total_pages_spec.
  generalize (total_subnets_spec net parent). intros n.
  Z.div_mod_to_equations. lia.
Qed.

Lemma window_indices_bounds (net parent : IPv4Network) (center i : Z) :
  In i (window_indices net parent center) ->
  0 <= i < total_subnets_spec net parent.
Proof.
  unfold window_indices, window_start_spec. intros Hin.
  apply In_range in Hin. lia.
Qed.

(** The window never holds more than 21 pages of 20 entries. *)
Lemma window_indices_length (net parent : IPv4Network) (center : Z) :
  (List.length (window_indices net parent center) <= 420)%nat.
Proof.
  unfold window_indices, window_start_spec, window_end_spec.
  rewrite range_length. lia.
Qed.

(** The subnet list of a network with a strictly wider parent. *)
Lemma subnet_listing_wide net parent requested_page host_min host_max center :
  wf_network net -> wf_network parent ->
  prefixlen parent < prefixlen net ->
  center_page requested_page (total_pages_spec net parent)
                             (current_index_spec net parent) = Ok center ->
  subnet_listing net parent requested_page host_min host_max
  = Ok (window_spec net parent center).
Proof.
  intros Hn Hpa Hlt Hc. unfold subnet_listing.
  destruct (Z.ltb_spec (prefixlen parent) (prefixlen net)); [| lia].
  destruct (Z.gtb_spec (prefixlen net - prefixlen parent) 0); [| lia].
  pose proof (total_subnets_ge_2 net parent Hlt) as Hge.
  pose proof (total_pages_ceil net parent) as Hceil. unfold is_ceil_div in Hceil.
  fold (total_subnets_spec net parent).
  unfold ITEMS_PER_PAGE, PAGES_BEFORE_AFTER.
  replace (total_subnets_spec net parent + 20 - 1)
    with (total_subnets_spec net parent + 19) by lia.
  fold (total_pages_spec net parent).
  rewrite (Z.max_r 1 (total_pages_spec net parent)) by lia.
  fold (current_index_spec net parent).
  rewrite Hc. cbn [bind].
  fold (window_start_spec center). fold (window_end_spec net parent center).
  fold (window_indices net parent center).
  rewrite (mapM_ok _ (sibling_entry net parent)).
  - reflexivity.
  - intros i Hi. apply window_indices_bounds in Hi.
    apply subnet_entry_wf; try assumption; lia.
Qed.

(** The subnet list of a network whose parent is not wider. *)
Lemma subnet_listing_single net parent requested_page :
  prefixlen net <= prefixlen parent ->
  subnet_listing net parent requested_page
                 (fst (host_range_spec net)) (snd (host_range_spec net))
  = Ok (single_spec net).
Proof.
  intros Hle. unfold subnet_listing.
  destruct (Z.ltb_spec (prefixlen parent) (prefixlen net)); [lia |].
  reflexivity.
Qed.

(* ================================================================== *)
(** ** [format_ipcalc] on a well-formed network *)
(* ================================================================== *)

Lemma wildcard_range (net : IPv4Network) :
  wf_network net -> 0 <= Z.lxor (netmask net) 0xFFFFFFFF <= _ALL_ONES.
Proof.
  intros Hwf. pose proof (wf_hostmask net Hwf) as Hh.
  change (Z.lxor (netmask net) 0xFFFFFFFF) with (hostmask net). rewrite Hh.
  destruct Hwf as (Hp & _).
  pose proof (pow2_pos (32 - prefixlen net) ltac:(lia)).
  assert (2 ^ (32 - prefixlen net) <= 2 ^ 32) by (apply Z.pow_le_mono_r; lia).
  unfold _ALL_ONES, IPV4LENGTH. lia.
Qed.

(** The parent of a well-formed network, as [get_parent_network] returns
    it. *)
Lemma parent_wf (net : IPv4Network) :
  wf_network net ->
  wf_network (network_of (network_address net) (parent_prefix (prefixlen net))).
Proof.
  intros (_ & _ & Ha & _). apply network_of_wf; [exact Ha |].
  unfold parent_prefix.
  destruct (prefixlen net >? 24); [lia |]. destruct (prefixlen net >? 16); lia.
Qed.

(** [format_ipcalc] never raises on a well-formed network; the fields of
    its result that describe the subnet list are those of the listing
    [st] computed for the parent [get_parent_network] returns. *)
Lemma format_ipcalc_wf (net : IPv4Network) (requested_page : option string)
                       (st : Listing.t) :
  wf_network net ->
  subnet_listing net
    (network_of (network_address net) (parent_prefix (prefixlen net)))
    requested_page (fst (host_range_spec net)) (snd (host_range_spec net)) = Ok st ->
  exists info,
    format_ipcalc (Some net) requested_page = Ok (Some info)
    /\ Info.all_nets info = Listing.all_nets st
    /\ Info.show_subnet_list info = Listing.show_subnet_list st
    /\ Info.total_pages info = Listing.total_pages st
    /\ Info.current_page info = Listing.current_page st
    /\ Info.total_subnets info
       = (if Listing.show_subnet_list st then Listing.total_subnets st
          else Z.of_nat (List.length (Listing.all_nets st)))
    /\ Info.window_start_page info
       = (if Listing.show_subnet_list st then Listing.start_page st else 1)
    /\ Info.window_end_page info
       = (if Listing.show_subnet_list st then Listing.end_page st else 1)
    /\ Info.current_index info
       = (if Listing.show_subnet_list st then Listing.current_index st else 0)
    /\ Info.items_per_page info = 20
    /\ Info.hosts_usable info = Py.format_comma (Z.max 0 (num_addresses net - 2))
    /\ Info.host_min info = address_str (fst (host_range_spec net))
    /\ Info.host_max info = address_str (snd (host_range_spec net)).
Proof.
  intros Hwf Hst. unfold format_ipcalc.
  rewrite get_host_range_wf by exact Hwf.
  destruct (host_range_spec net) as [lo hi] eqn:Ehr. cbn [fst snd] in Hst.
  cbn [bind].
  rewrite IPv4Address_of_int_ok by (apply wildcard_range; exact Hwf).
  cbn [bind].
  rewrite get_parent_network_wf by exact Hwf. cbn [bind].
  rewrite Hst. cbn [bind].
  eexists. split; [reflexivity |].
  cbn [Info.all_nets Info.show_subnet_list Info.total_pages Info.current_page
       Info.total_subnets Info.window_start_page Info.window_end_page
       Info.current_index Info.items_per_page Info.hosts_usable
       Info.host_min Info.host_max fst snd].
  repeat split; reflexivity.
Qed.

(** The same, with the listing made explicit: a window of siblings when
    the prefix length is above 8, the network alone otherwise. *)
Lemma format_ipcalc_listing (net : IPv4Network) (requested_page : option string) :
  wf_network net ->
  let parent := network_of (network_address net) (parent_prefix (prefixlen net)) in
  exists center,
    center_page requested_page (total_pages_spec net parent)
                               (current_index_spec net parent) = Ok center
    /\ subnet_listing net parent requested_page
         (fst (host_range_spec net)) (snd (host_range_spec net))
       = Ok (if prefixlen parent <? prefixlen net
             then window_spec net parent center else single_spec net).
Proof.
  intros Hwf parent.
  destruct (center_page_returns requested_page (total_pages_spec net parent)
              (current_index_spec net parent)) as [center Hc].
  exists center. split; [exact Hc |].
  destruct (Z.ltb_spec (prefixlen parent) (prefixlen net)) as [Hlt | Hle].
  - apply subnet_listing_wide; try assumption. apply parent_wf, Hwf.
  - apply subnet_listing_single, Hle.
Qed.

Lemma parent_prefix_cases (p : Z) :
  (parent_prefix p < p <-> 8 < p) /\ (p <= 16 -> parent_prefix p = 8).
Proof.
  unfold parent_prefix.
  destruct (Z.gtb_spec p 24); [lia |]. destruct (Z.gtb_spec p 16); lia.
Qed.

(* ================================================================== *)
(** ** The parent resolver *)
(* ================================================================== *)

Lemma wf_within_parent (net : IPv4Network) (q : Z) :
  wf_network net -> 0 <= q <= prefixlen net ->
  within net (network_of (network_address net) q).
Proof.
  intros Hwf Hq. rewrite (wf_network_of net Hwf) at 1.
  destruct Hwf as (Hp & _ & Ha & _). apply network_of_within; lia.
Qed.

(** C1. For every well-formed network, [get_parent_network] returns a
    well-formed network: above /24 the /24 around the base address, above
    /16 the /16, above /8 the /8, each of them containing the network;
    and at /8 or wider the network [first.0.0.0/8] of the first byte of
    the base address, whatever the width of the network itself. *)
Theorem C1_get_parent_network_rule (net : IPv4Network) :
  wf_network net ->
  exists parent,
    get_parent_network net = Ok parent
    /\ wf_network parent
    /\ (24 < prefixlen net ->
        prefixlen parent = 24
        /\ network_address parent
           = Z.land (network_address net) (_ip_int_from_prefix 24)
        /\ within net parent)
    /\ (16 < prefixlen net <= 24 ->
        prefixlen parent = 16
        /\ network_address parent
           = Z.land (network_address net) (_ip_int_from_prefix 16)
        /\ within net parent)
    /\ (8 < prefixlen net <= 16 ->
        prefixlen parent = 8
        /\ network_address parent
           = Z.land (network_address net) (_ip_int_from_prefix 8)
        /\ within net parent)
    /\ (prefixlen net <= 8 ->
        parent = mkNetwork (nth 0 (packed (network_address net)) 0 * 2 ^ 24)
                           (_ip_int_from_prefix 8) 8).
Proof.
  intros Hwf. eexists. split; [apply get_parent_network_wf, Hwf |].
  split; [apply parent_wf, Hwf |].
  pose proof Hwf as (Hp & _ & Ha & _).
  assert (H24 : 24 < prefixlen net -> parent_prefix (prefixlen net) = 24).
  { unfold parent_prefix. destruct (Z.gtb_spec (prefixlen net) 24); lia. }
  assert (H16 : 16 < prefixlen net <= 24 -> parent_prefix (prefixlen net) = 16).
  { unfold parent_prefix. destruct (Z.gtb_spec (prefixlen net) 24); [lia |].
    destruct (Z.gtb_spec (prefixlen net) 16); lia. }
  assert (H8 : prefixlen net <= 16 -> parent_prefix (prefixlen net) = 8).
  { unfold parent_prefix. destruct (Z.gtb_spec (prefixlen net) 24); [lia |].
    destruct (Z.gtb_spec (prefixlen net) 16); lia. }
  split; [| split; [| split]]; intros H.
  - rewrite H24 by lia. split; [reflexivity | split; [reflexivity |]].
    apply wf_within_parent; [assumption | lia].
  - rewrite H16 by lia. split; [reflexivity | split; [reflexivity |]].
    apply wf_within_parent; [assumption | lia].
  - rewrite H8 by lia. split; [reflexivity | split; [reflexivity |]].
    apply wf_within_parent; [assumption | lia].
  - rewrite H8 by lia.
    destruct (first_octet_value (network_address net) Ha) as [-> _].
    unfold network_of. rewrite land_mask by lia.
    change (32 - 8) with 24. f_equal. apply Z.mul_comm.
Qed.

Lemma C1_witness :
  wf_network net_10_10_10_0_30
  /\ exists parent, get_parent_network net_10_10_10_0_30 = Ok parent
                    /\ prefixlen parent = 24.
Proof.
  assert (Hwf : wf_network net_10_10_10_0_30) by (unfold net_10_10_10_0_30; solve_wf).
  split; [exact Hwf |].
  destruct (C1_get_parent_network_rule net_10_10_10_0_30 Hwf)
    as (parent & Hparent & _ & H24 & _).
  exists parent. split; [exact Hparent |].
  apply H24. cbn [net_10_10_10_0_30 prefixlen]. lia.
Defined.

(** C2, as the claim states it, fails: the parent of 192.168.1.0/24 is
    192.168.0.0/16, not the network itself. *)
Lemma C2_counterexample :
  wf_network net_192_168_1_0_24
  /\ prefixlen net_192_168_1_0_24 = 24
  /\ get_parent_network net_192_168_1_0_24 = Ok net_192_168_0_0_16
  /\ get_parent_network net_192_168_1_0_24 <> Ok net_192_168_1_0_24.
Proof.
  assert (E : get_parent_network net_192_168_1_0_24 = Ok net_192_168_0_0_16)
    by (vm_compute; reflexivity).
  split; [unfold net_192_168_1_0_24; solve_wf |].
  split; [reflexivity |]. split; [exact E |].
  rewrite E. intros H. inversion H.
Qed.

(** C2, amended. A network of prefix length 8 is its own parent; a
    network of prefix length 16 is widened to the /8 around it and a
    network of prefix length 24 to the /16 around it, neither of which is
    the network itself. *)
Theorem C2_parent_at_boundary (net : IPv4Network) :
  wf_network net ->
  (prefixlen net = 8 -> get_parent_network net = Ok net)
  /\ (prefixlen net = 16 ->
      get_parent_network net = Ok (network_of (network_address net) 8)
      /\ get_parent_network net <> Ok net)
  /\ (prefixlen net = 24 ->
      get_parent_network net = Ok (network_of (network_address net) 16)
      /\ get_parent_network net <> Ok net).
Proof.
  intros Hwf. rewrite (get_parent_network_wf net Hwf).
  split; [| split]; intros E; rewrite E.
  - change (parent_prefix 8) with 8. rewrite <- E. now rewrite <- wf_network_of.
  - change (parent_prefix 16) with 8. split; [reflexivity |].
    intros H. inversion H as [H']. apply (f_equal prefixlen) in H'.
    cbn [network_of prefixlen] in H'. lia.
  - change (parent_prefix 24) with 16. split; [reflexivity |].
    intros H. inversion H as [H']. apply (f_equal prefixlen) in H'.
    cbn [network_of prefixlen] in H'. lia.
Qed.

Lemma C2_witness :
  wf_network net_10_0_0_0_8
  /\ get_parent_network net_10_0_0_0_8 = Ok net_10_0_0_0_8.
Proof.
  assert (Hwf : wf_network net_10_0_0_0_8) by (unfold net_10_0_0_0_8; solve_wf).
  split; [exact Hwf |].
  destruct (C2_parent_at_boundary net_10_0_0_0_8 Hwf) as [H8 _].
  apply H8. reflexivity.
Defined.

(* ================================================================== *)
(** ** The usable hosts *)
(* ================================================================== *)

Lemma num_addresses_small (net : IPv4Network) :
  wf_network net ->
  (num_addresses net > 2 <-> prefixlen net <= 30).
Proof.
  intros Hwf. rewrite (wf_num_addresses net Hwf). destruct Hwf as (Hp & _).
  split; intros H.
  - destruct (Z.le_gt_cases (prefixlen net) 30) as [| Hgt]; [assumption |].
    assert (2 ^ (32 - prefixlen net) <= 2 ^ 1) by (apply Z.pow_le_mono_r; lia).
    change (2 ^ 1) with 2 in *. lia.
  - assert (2 ^ 2 <= 2 ^ (32 - prefixlen net)) by (apply Z.pow_le_mono_r; lia).
    change (2 ^ 2) with 4 in *. lia.
Qed.

(** C7. On every well-formed network: with more than two addresses the
    host range runs from the address after the base to the address before
    the broadcast; otherwise the prefix length is 31 or 32 and both ends
    are the base address; and up to prefix length 30 the number of usable
    hosts that [format_ipcalc] reports is the number of addresses less
    two. *)
Theorem C7_host_range_and_count (net : IPv4Network) (requested_page : option string) :
  wf_network net ->
  (num_addresses net > 2 ->
   get_host_range net
   = Ok (network_address net + 1, broadcast_address net - 1))
  /\ (num_addresses net <= 2 ->
      (prefixlen net = 31 \/ prefixlen net = 32)
      /\ get_host_range net = Ok (network_address net, network_address net))
  /\ (prefixlen net = 31 \/ prefixlen net = 32 ->
      get_host_range net = Ok (network_address net, network_address net))
  /\ (prefixlen net <= 30 ->
      Z.max 0 (num_addresses net - 2) = num_addresses net - 2
      /\ exists info,
           format_ipcalc (Some net) requested_page = Ok (Some info)
           /\ Info.hosts_usable info = Py.format_comma (num_addresses net - 2)).
Proof.
  intros Hwf. pose proof (num_addresses_small net Hwf) as Hsmall.
  pose proof Hwf as (Hp & _).
  rewrite (get_host_range_wf net Hwf). unfold host_range_spec.
  repeat split.
  - intros H. destruct (Z.gtb_spec (num_addresses net) 2); [reflexivity | lia].
  - lia.
  - destruct (Z.gtb_spec (num_addresses net) 2); [lia | reflexivity].
  - intros H. destruct (Z.gtb_spec (num_addresses net) 2); [lia | reflexivity].
  - lia.
  - destruct (format_ipcalc_listing net requested_page Hwf) as (center & _ & Hst).
    destruct (format_ipcalc_wf net requested_page _ Hwf Hst)
      as (info & Hinfo & _ & _ & _ & _ & _ & _ & _ & _ & _ & Hhosts & _).
    exists info. split; [exact Hinfo |].
    rewrite Hhosts. f_equal. lia.
Qed.

Lemma C7_witness :
  wf_network net_192_168_1_0_24
  /\ get_host_range net_192_168_1_0_24 = Ok (3232235777, 3232236030).
Proof.
  assert (Hwf : wf_network net_192_168_1_0_24)
    by (unfold net_192_168_1_0_24; solve_wf).
  split; [exact Hwf |].
  destruct (C7_host_range_and_count net_192_168_1_0_24 None Hwf) as [Hrange _].
  apply Hrange. vm_compute. reflexivity.
Defined.

(* ================================================================== *)
(** ** The paginated sibling list *)
(* ================================================================== *)

(** What [format_ipcalc] reports about the subnet list, in the two cases
    of the comparison of the prefix lengths. *)
Lemma format_ipcalc_fields (net : IPv4Network) (requested_page : option string) :
  wf_network net ->
  let parent := network_of (network_address net) (parent_prefix (prefixlen net)) in
  exists info center,
    format_ipcalc (Some net) requested_page = Ok (Some info)
    /\ center_page requested_page (total_pages_spec net parent)
                                  (current_index_spec net parent) = Ok center
    /\ Info.items_per_page info = 20
    /\ (prefixlen parent < prefixlen net ->
        Info.all_nets info
        = map (sibling_entry net parent) (window_indices net parent center)
        /\ Info.total_pages info = total_pages_spec net parent
        /\ Info.current_page info = center
        /\ Info.total_subnets info = total_subnets_spec net parent
        /\ Info.window_start_page info = window_start_spec center
        /\ Info.window_end_page info = window_end_spec net parent center
        /\ Info.current_index info = current_index_spec net parent)
    /\ (prefixlen net <= prefixlen parent ->
        Info.all_nets info = [own_entry net]
        /\ Info.total_pages info = 1
        /\ Info.current_page info = 1
        /\ Info.total_subnets info = 1
        /\ Info.window_start_page info = 1
        /\ Info.window_end_page info = 1
        /\ Info.current_index info = 0).
Proof.
  intros Hwf parent.
  destruct (format_ipcalc_listing net requested_page Hwf) as (center & Hc & Hst).
  fold parent in Hc, Hst.
  destruct (format_ipcalc_wf net requested_page _ Hwf Hst)
    as (info & Hinfo & Hall & Hshow & Htp & Hcp & Hts & Hws & Hwe & Hci & Hipp & _).
  exists info, center. split; [exact Hinfo |]. split; [exact Hc |].
  split; [exact Hipp |].
  rewrite Hall, Htp, Hcp, Hts, Hws, Hwe, Hci.
  destruct (Z.ltb_spec (prefixlen parent) (prefixlen net)) as [Hlt | Hle].
  - split; [intros _ | intros H; exfalso; lia].
    cbn [window_spec Listing.all_nets Listing.show_subnet_list Listing.total_pages
         Listing.current_page Listing.total_subnets Listing.start_page
         Listing.end_page Listing.current_index].
    repeat split; reflexivity.
  - split; [intros H; exfalso; lia | intros _].
    cbn [single_spec Listing.all_nets Listing.show_subnet_list Listing.total_pages
         Listing.current_page Listing.total_subnets Listing.start_page
         Listing.end_page Listing.current_index List.length].
    repeat split; reflexivity.
Qed.

(** C3. For every well-formed network and every requested page,
    [format_ipcalc] returns. When the parent is not wider than the
    network, the list holds the network alone, marked current, and both
    the number of subnets and the number of pages are 1. Otherwise the
    number of subnets is 2 to the difference of the prefix lengths, and
    the number of pages is that number divided by the page size 20,
    rounded up. *)
Theorem C3_pagination_totals (net : IPv4Network) (requested_page : option string) :
  wf_network net ->
  exists parent info,
    get_parent_network net = Ok parent
    /\ format_ipcalc (Some net) requested_page = Ok (Some info)
    /\ (prefixlen parent >= prefixlen net ->
        Info.all_nets info = [own_entry net]
        /\ Entry.is_current (own_entry net) = true
        /\ Entry.network (own_entry net) = address_str (network_address net)
        /\ Info.total_subnets info = 1
        /\ Info.total_pages info = 1)
    /\ (prefixlen parent < prefixlen net ->
        Info.total_subnets info = 2 ^ (prefixlen net - prefixlen parent)
        /\ Info.items_per_page info = 20
        /\ is_ceil_div (Info.total_subnets info) 20 (Info.total_pages info)).
Proof.
  intros Hwf.
  destruct (format_ipcalc_fields net requested_page Hwf)
    as (info & center & Hinfo & _ & Hipp & Hwide & Hsingle).
  eexists. exists info.
  split; [apply get_parent_network_wf, Hwf |]. split; [exact Hinfo |].
  split.
  - intros H. destruct Hsingle as (Hall & Htp & _ & Hts & _); [lia |].
    repeat split; assumption.
  - intros H. destruct (Hwide H) as (_ & Htp & _ & Hts & _).
    rewrite Hts, Htp. split; [reflexivity |]. split; [exact Hipp |].
    apply total_pages_ceil.
Qed.

Lemma C3_witness :
  wf_network net_10_10_10_0_30
  /\ exists info,
       format_ipcalc (Some net_10_10_10_0_30) None = Ok (Some info)
       /\ Info.total_subnets info = 64.
Proof.
  assert (Hwf : wf_network net_10_10_10_0_30) by (unfold net_10_10_10_0_30; solve_wf).
  split; [exact Hwf |].
  destruct (C3_pagination_totals net_10_10_10_0_30 None Hwf)
    as (parent & info & Hparent & Hinfo & _ & Hwide).
  exists info. split; [exact Hinfo |].
  assert (E : parent = network_of 168430080 24).
  { assert (E' : get_parent_network net_10_10_10_0_30 = Ok (network_of 168430080 24))
      by (vm_compute; reflexivity).
    rewrite E' in Hparent. now inversion Hparent. }
  subst parent. destruct Hwide as [Hts _]; [cbn; lia |]. exact Hts.
Defined.

(** The fields of a sibling's entry, for an index below the count. *)
Lemma sibling_entry_fields (net parent : IPv4Network) (i : Z) :
  wf_network net -> wf_network parent ->
  prefixlen parent <= prefixlen net ->
  0 <= i < 2 ^ (prefixlen net - prefixlen parent) ->
  let size := 2 ^ (32 - prefixlen net) in
  let base := network_address parent + i * size in
  let e := sibling_entry net parent i in
  Entry.index e = i
  /\ Entry.page e = i / 20 + 1
  /\ Entry.network e = address_str base
  /\ Entry.broadcast e = address_str (base + size - 1)
  /\ Entry.range e = (if size >? 2 then range_str (base + 1) (base + size - 2)
                      else range_str base base)
  /\ (Entry.is_current e = true
      <-> base = network_address net
          /\ prefixlen (sibling net parent i) = prefixlen net).
Proof.
  intros Hn Hpa Hle Hi size base e.
  destruct (sibling_wf net parent i Hn Hpa Hle Hi) as [Hs _].
  pose proof (wf_broadcast _ Hs) as Hb. pose proof (wf_num_addresses _ Hs) as Hnum.
  unfold e, sibling_entry.
  cbn [Entry.index Entry.page Entry.network Entry.broadcast Entry.range
       Entry.is_current].
  unfold host_range_spec. rewrite Hnum, Hb.
  cbn [sibling network_address prefixlen]. fold size. fold base.
  repeat split; try reflexivity.
  - destruct (size >? 2); cbn [fst snd]; [f_equal; lia | reflexivity].
  - apply andb_true_iff in H. destruct H as [H _]. now apply Z.eqb_eq in H.
  - intros [H _]. apply andb_true_iff. split; apply Z.eqb_eq; [exact H | reflexivity].
Qed.

(** C4. When the parent is strictly wider than the network, the window
    runs from page [max 1 (center - 10)] to page
    [min total_pages (center + 10)], the list holds exactly the siblings
    of index [(start - 1) * 20] up to, not including,
    [min total_subnets (end * 20)], in that order, and the entry of index
    [i] has base [parent + i * size], the broadcast and the host range of
    that network, page [i / 20 + 1], and is marked current exactly when
    its network has the base and the prefix length of the subject. *)
Theorem C4_window_entries (net : IPv4Network) (requested_page : option string) :
  wf_network net ->
  exists parent info,
    get_parent_network net = Ok parent
    /\ format_ipcalc (Some net) requested_page = Ok (Some info)
    /\ (prefixlen parent < prefixlen net ->
        let center := Info.current_page info in
        let first_page := Z.max 1 (center - 10) in
        let last_page := Z.min (Info.total_pages info) (center + 10) in
        let indices :=
          Py.range ((first_page - 1) * 20)
                   (Z.min (Info.total_subnets info) (last_page * 20)) in
        let size := 2 ^ (32 - prefixlen net) in
        Info.window_start_page info = first_page
        /\ Info.window_end_page info = last_page
        /\ Info.all_nets info = map (sibling_entry net parent) indices
        /\ forall i, In i indices ->
             let base := network_address parent + i * size in
             let e := sibling_entry net parent i in
             Entry.index e = i
             /\ Entry.page e = i / 20 + 1
             /\ Entry.network e = address_str base
             /\ Entry.broadcast e = address_str (base + size - 1)
             /\ Entry.range e
                = (if size >? 2 then range_str (base + 1) (base + size - 2)
                   else range_str base base)
             /\ (Entry.is_current e = true
                 <-> base = network_address net
                     /\ prefixlen (sibling net parent i) = prefixlen net)).
Proof.
  intros Hwf.
  destruct (format_ipcalc_fields net requested_page Hwf)
    as (info & center & Hinfo & _ & _ & Hwide & _).
  eexists. exists info.
  split; [apply get_parent_network_wf, Hwf |]. split; [exact Hinfo |].
  intros Hlt. destruct (Hwide Hlt) as (Hall & Htp & Hcp & Hts & Hws & Hwe & _).
  cbv zeta. rewrite Hall, Htp, Hcp, Hts, Hws, Hwe.
  split; [reflexivity |]. split; [reflexivity |]. split; [reflexivity |].
  intros i Hi.
  apply (sibling_entry_fields net _ i Hwf (parent_wf net Hwf)); [lia |].
  apply (window_indices_bounds net _ center i Hi).
Qed.

Lemma C4_witness :
  wf_network net_10_10_10_0_30
  /\ exists info,
       format_ipcalc (Some net_10_10_10_0_30) None = Ok (Some info)
       /\ Info.window_start_page info = Z.max 1 (Info.current_page info - 10).
Proof.
  assert (Hwf : wf_network net_10_10_10_0_30) by (unfold net_10_10_10_0_30; solve_wf).
  split; [exact Hwf |].
  destruct (C4_window_entries net_10_10_10_0_30 None Hwf)
    as (parent & info & Hparent & Hinfo & Hwide).
  exists info. split; [exact Hinfo |].
  assert (E : parent = network_of 168430080 24).
  { assert (E' : get_parent_network net_10_10_10_0_30 = Ok (network_of 168430080 24))
      by (vm_compute; reflexivity).
    rewrite E' in Hparent. now inversion Hparent. }
  subst parent. destruct Hwide as [Hws _]; [cbn; lia |]. exact Hws.
Defined.

(** C5. When the parent is strictly wider than the network: a requested
    page that is a non-empty string [int] accepts, whatever its value,
    centres the window on that value brought into [1, total_pages]; an
    absent, empty or malformed request centres it on the page of the
    subject's own index, [current_index / 20 + 1]; and in every case
    [format_ipcalc] returns a result. *)
Theorem C5_center_page (net : IPv4Network) (requested_page : option string) :
  wf_network net ->
  exists parent info,
    get_parent_network net = Ok parent
    /\ format_ipcalc (Some net) requested_page = Ok (Some info)
    /\ (prefixlen parent < prefixlen net ->
        let center := Info.current_page info in
        let total_pages := Info.total_pages info in
        let own_page := Info.current_index info / 20 + 1 in
        Info.current_index info
        = (network_address net - network_address parent) / 2 ^ (32 - prefixlen net)
        /\ match requested_page with
           | Some (String _ _ as requested) =>
               match Py.int requested with
               | Ok n =>
                   1 <= center <= total_pages
                   /\ (n < 1 -> center = 1)
                   /\ (total_pages < n -> center = total_pages)
                   /\ (1 <= n <= total_pages -> center = n)
               | _ => center = own_page
               end
           | _ => center = own_page
           end).
Proof.
  intros Hwf.
  destruct (format_ipcalc_fields net requested_page Hwf)
    as (info & center & Hinfo & Hc & _ & Hwide & _).
  eexists. exists info.
  split; [apply get_parent_network_wf, Hwf |]. split; [exact Hinfo |].
  intros Hlt. destruct (Hwide Hlt) as (_ & Htp & Hcp & _ & _ & _ & Hci).
  cbv zeta. rewrite Htp, Hcp, Hci. split; [reflexivity |].
  pose proof (total_subnets_ge_2 net _ Hlt) as Hge.
  pose proof (total_pages_ceil net
                (network_of (network_address net) (parent_prefix (prefixlen net))))
    as Hceil.
  unfold is_ceil_div in Hceil.
  pose proof (center_page_cases requested_page
                (total_pages_spec net
                   (network_of (network_address net) (parent_prefix (prefixlen net))))
                (current_index_spec net
                   (network_of (network_address net) (parent_prefix (prefixlen net)))))
    as Hcases.
  destruct requested_page as [[| c s] |];
    try (rewrite Hc in Hcases; now inversion Hcases).
  destruct (Py.int (String c s)) as [n | |];
    rewrite Hc in Hcases; inversion Hcases as [E]; try reflexivity.
  unfold clamp. lia.
Qed.

Lemma C5_witness :
  wf_network net_10_10_10_0_30
  /\ exists info,
       format_ipcalc (Some net_10_10_10_0_30) (Some "-3") = Ok (Some info)
       /\ Info.current_page info = 1.
Proof.
  assert (Hwf : wf_network net_10_10_10_0_30) by (unfold net_10_10_10_0_30; solve_wf).
  split; [exact Hwf |].
  destruct (C5_center_page net_10_10_10_0_30 (Some "-3") Hwf)
    as (parent & info & Hparent & Hinfo & Hwide).
  exists info. split; [exact Hinfo |].
  assert (E : parent = network_of 168430080 24).
  { assert (E' : get_parent_network net_10_10_10_0_30 = Ok (network_of 168430080 24))
      by (vm_compute; reflexivity).
    rewrite E' in Hparent. now inversion Hparent. }
  subst parent. destruct Hwide as [_ Hcenter]; [cbn; lia |].
  change (Py.int "-3") with (@Ok Z (-3)) in Hcenter.
  destruct Hcenter as (_ & Hlow & _). apply Hlow. lia.
Defined.

(** C9, as the claim states it, fails: the list of 0.0.0.0/4 holds the
    network itself, whose broadcast 15.255.255.255 lies beyond the
    broadcast 0.255.255.255 of its parent 0.0.0.0/8. *)
Lemma C9_counterexample :
  wf_network net_0_0_0_0_4
  /\ get_parent_network net_0_0_0_0_4 = Ok net_0_0_0_0_8
  /\ (exists info,
        format_ipcalc (Some net_0_0_0_0_4) None = Ok (Some info)
        /\ Info.all_nets info
           = [Entry.mk "0.0.0.0" "0.0.0.1 - 15.255.255.254" "15.255.255.255"
                       true 0 1])
  /\ broadcast_address net_0_0_0_0_4 = 268435455
  /\ broadcast_address net_0_0_0_0_8 = 16777215
  /\ ~ within net_0_0_0_0_4 net_0_0_0_0_8.
Proof.
  split; [unfold net_0_0_0_0_4; solve_wf |].
  split; [vm_compute; reflexivity |].
  split; [eexists; split; vm_compute; reflexivity |].
  split; [vm_compute; reflexivity |].
  split; [vm_compute; reflexivity |].
  unfold within. intros [_ H]. vm_compute in H. apply H. reflexivity.
Qed.

(** C9, amended. For every well-formed network the list never holds more
    than 420 entries, and every entry is that of a well-formed network
    with the subject's prefix length; when the subject's prefix length is
    at least 8, that network lies wholly within the parent. *)
Theorem C9_window_invariant (net : IPv4Network) (requested_page : option string) :
  wf_network net ->
  exists parent info,
    get_parent_network net = Ok parent
    /\ format_ipcalc (Some net) requested_page = Ok (Some info)
    /\ (List.length (Info.all_nets info) <= 420)%nat
    /\ forall e, In e (Info.all_nets info) ->
         exists subnet,
           wf_network subnet
           /\ Entry.network e = address_str (network_address subnet)
           /\ Entry.broadcast e = address_str (broadcast_address subnet)
           /\ prefixlen subnet = prefixlen net
           /\ (8 <= prefixlen net -> within subnet parent).
Proof.
  intros Hwf.
  destruct (format_ipcalc_fields net requested_page Hwf)
    as (info & center & Hinfo & _ & _ & Hwide & Hsingle).
  pose proof (parent_wf net Hwf) as Hpwf.
  pose proof (parent_prefix_cases (prefixlen net)) as [Hpp Hvals].
  set (parent := network_of (network_address net) (parent_prefix (prefixlen net))) in *.
  exists parent, info.
  split; [apply get_parent_network_wf, Hwf |]. split; [exact Hinfo |].
  destruct (Z.lt_ge_cases (prefixlen parent) (prefixlen net)) as [Hlt | Hge].
  - destruct (Hwide Hlt) as (Hall & _). rewrite Hall. split.
    + rewrite length_map. apply window_indices_length.
    + intros e He. apply in_map_iff in He. destruct He as (i & <- & Hi).
      apply window_indices_bounds in Hi. unfold total_subnets_spec in Hi.
      destruct (sibling_wf net parent i Hwf Hpwf (Z.lt_le_incl _ _ Hlt) Hi)
        as [Hs Hin].
      exists (sibling net parent i).
      split; [exact Hs |]. split; [reflexivity |]. split; [reflexivity |].
      split; [reflexivity |]. intros _. exact Hin.
  - destruct (Hsingle Hge) as (Hall & _). rewrite Hall. split; [cbn; lia |].
    intros e [<- | []]. exists net.
    split; [exact Hwf |]. split; [reflexivity |]. split; [reflexivity |].
    split; [reflexivity |]. intros H8.
    unfold parent in Hge |- *. cbn [network_of prefixlen] in Hge.
    apply wf_within_parent; [exact Hwf |]. lia.
Qed.

Lemma C9_witness :
  wf_network net_192_168_1_0_24
  /\ exists info,
       format_ipcalc (Some net_192_168_1_0_24) None = Ok (Some info)
       /\ (List.length (Info.all_nets info) <= 420)%nat.
Proof.
  assert (Hwf : wf_network net_192_168_1_0_24)
    by (unfold net_192_168_1_0_24; solve_wf).
  split; [exact Hwf |].
  destruct (C9_window_invariant net_192_168_1_0_24 None Hwf)
    as (parent & info & _ & Hinfo & Hlen & _).
  exists info. split; assumption.
Defined.

(* ================================================================== *)
(** ** Strings: tokens and stripping *)
(* ================================================================== *)

Lemma append_empty_r (s : string) : s ++ "" = s.
Proof. induction s as [| a s IH]; cbn [append]; [reflexivity | now rewrite IH]. Qed.

Lemma append_assoc (s1 s2 s3 : string) : (s1 ++ s2) ++ s3 = s1 ++ (s2 ++ s3).
Proof. induction s1 as [| a s1 IH]; cbn [append]; [reflexivity | now rewrite IH]. Qed.

Lemma contains_not_char c s :
  Py.contains c s = false <-> Py.all_chars (not_char c) s = true.
Proof.
  induction s as [| a s IH]; cbn [Py.contains Py.all_chars]; [tauto |].
  unfold not_char at 1. rewrite orb_false_iff, andb_true_iff, negb_true_iff. tauto.
Qed.

(** Every token of [split] is made of characters of the text. *)
Lemma split_ws_all_chars f s :
  forall cur,
    Py.all_chars f s = true -> Py.all_chars f cur = true ->
    Forall (fun t => Py.all_chars f t = true) (Py.split_ws s cur).
Proof.
  induction s as [| a s IH]; intros cur Hs Hcur; cbn [Py.split_ws].
  - destruct cur; [constructor | constructor; [exact Hcur | constructor]].
  - cbn [Py.all_chars] in Hs. apply andb_true_iff in Hs. destruct Hs as [Ha Hs].
    destruct (Py.isspace a).
    + destruct cur; [now apply IH |].
      constructor; [exact Hcur | now apply IH].
    + apply IH; [exact Hs |]. rewrite all_chars_app, Hcur.
      cbn [Py.all_chars]. now rewrite Ha.
Qed.

(** No token of [split] holds white space. *)
Lemma split_ws_no_space s :
  forall cur,
    Py.all_chars not_space cur = true ->
    Forall (fun t => Py.all_chars not_space t = true) (Py.split_ws s cur).
Proof.
  induction s as [| a s IH]; intros cur Hcur; cbn [Py.split_ws].
  - destruct cur; [constructor | constructor; [exact Hcur | constructor]].
  - destruct (Py.isspace a) eqn:Ea.
    + destruct cur; [now apply IH |].
      constructor; [exact Hcur | now apply IH].
    + apply IH. rewrite all_chars_app, Hcur. cbn [Py.all_chars].
      unfold not_space at 1. now rewrite Ea.
Qed.

Lemma rstrip_no_space t : Py.all_chars not_space t = true -> Py.rstrip t = t.
Proof.
  induction t as [| a t IH]; cbn [Py.all_chars Py.rstrip]; [reflexivity |].
  intros H. apply andb_true_iff in H. destruct H as [Ha Ht].
  rewrite (IH Ht). unfold not_space in Ha. apply negb_true_iff in Ha.
  rewrite Ha. now destruct t.
Qed.

Lemma lstrip_no_space t : Py.all_chars not_space t = true -> Py.lstrip t = t.
Proof.
  destruct t as [| a t]; cbn [Py.all_chars Py.lstrip]; [reflexivity |].
  intros H. apply andb_true_iff in H. destruct H as [Ha _].
  unfold not_space in Ha. apply negb_true_iff in Ha. now rewrite Ha.
Qed.

Lemma strip_no_space t : Py.all_chars not_space t = true -> Py.strip t = t.
Proof.
  intros H. unfold Py.strip. now rewrite (lstrip_no_space t H), rstrip_no_space.
Qed.

(** [split] reads a run of non-space characters into the current token. *)
Lemma split_ws_token t :
  forall rest cur,
    Py.all_chars not_space t = true ->
    Py.split_ws (t ++ rest) cur = Py.split_ws rest (cur ++ t).
Proof.
  induction t as [| a t IH]; intros rest cur H; cbn [append Py.split_ws].
  - now rewrite append_empty_r.
  - cbn [Py.all_chars] in H. apply andb_true_iff in H. destruct H as [Ha Ht].
    unfold not_space in Ha. apply negb_true_iff in Ha. rewrite Ha.
    rewrite (IH rest _ Ht), append_assoc. reflexivity.
Qed.

(** Two tokens and one blank. *)
Lemma split_two_tokens t1 t2 :
  Py.all_chars not_space t1 = true -> Py.all_chars not_space t2 = true ->
  t1 <> EmptyString -> t2 <> EmptyString ->
  Py.split (t1 ++ " " ++ t2) = [t1; t2].
Proof.
  intros H1 H2 N1 N2. unfold Py.split.
  rewrite split_ws_token by exact H1. cbn [append Py.split_ws].
  change (Py.isspace " ") with true. cbv iota.
  destruct t1 as [| a1 t1]; [contradiction |]. f_equal.
  rewrite <- (append_empty_r t2) at 1.
  rewrite split_ws_token by exact H2. cbn [append Py.split_ws].
  destruct t2; [contradiction | reflexivity].
Qed.

(** A text that starts and ends with a token is left as it is by
    [strip]. *)
Lemma rstrip_app_token x t :
  Py.all_chars not_space t = true -> t <> EmptyString ->
  Py.rstrip (x ++ t) = x ++ t.
Proof.
  intros Ht Nt. induction x as [| a x IH]; cbn [append Py.rstrip].
  - now apply rstrip_no_space.
  - rewrite IH. destruct (x ++ t) eqn:E; [| reflexivity].
    destruct x; cbn [append] in E; [contradiction | discriminate].
Qed.

Lemma strip_between_tokens t1 x t2 :
  Py.all_chars not_space t1 = true -> Py.all_chars not_space t2 = true ->
  t1 <> EmptyString -> t2 <> EmptyString ->
  Py.strip (t1 ++ x ++ t2) = t1 ++ x ++ t2.
Proof.
  intros H1 H2 N1 N2. unfold Py.strip.
  destruct t1 as [| a t1]; [contradiction |].
  cbn [Py.all_chars] in H1. apply andb_true_iff in H1. destruct H1 as [Ha _].
  unfold not_space in Ha. apply negb_true_iff in Ha.
  cbn [append Py.lstrip]. rewrite Ha.
  change (String a (t1 ++ x ++ t2)) with (String a t1 ++ x ++ t2).
  rewrite <- append_assoc. now apply rstrip_app_token.
Qed.

Lemma address_str_all_chars (f : ascii -> bool) (a : Z) :
  (forall o, 0 <= o < 256 -> Py.all_chars f (Py.str o) = true) ->
  f "."%char = true ->
  Py.all_chars f (address_str a) = true.
Proof.
  intros Hoct Hdot.
  unfold address_str, _string_from_ip_int, Py.join.
  pose proof (to_bytes4_range a) as Hr. unfold to_bytes4 in *.
  cbn [map String.concat].
  inversion_clear Hr as [| ? ? R1 Hr1]. inversion_clear Hr1 as [| ? ? R2 Hr2].
  inversion_clear Hr2 as [| ? ? R3 Hr3]. inversion_clear Hr3 as [| ? ? R4 _].
  rewrite !all_chars_app, !Hoct by assumption.
  cbn [Py.all_chars]. now rewrite Hdot.
Qed.

Lemma address_str_no_space (a : Z) : Py.all_chars not_space (address_str a) = true.
Proof.
  apply address_str_all_chars; [| reflexivity].
  intros o Ho. apply (octet_text o Ho).
Qed.

Lemma address_str_nonempty (a : Z) : address_str a <> EmptyString.
Proof.
  intros E. pose proof (address_str_has_dot a) as H. rewrite E in H. discriminate.
Qed.

(* ================================================================== *)
(** ** Reading addresses and masks *)
(* ================================================================== *)

Lemma digit_value_range (a : ascii) :
  Py.is_ascii_digit a = true -> 0 <= Py.digit_value a <= 9.
Proof.
  unfold Py.is_ascii_digit, Py.digit_value. intros H.
  apply andb_true_iff in H. destruct H as [H1 H2].
  apply N.leb_le in H1, H2. lia.
Qed.

Lemma decimal_value_nonneg (s : string) :
  forall acc, Py.all_chars Py.is_ascii_digit s = true -> 0 <= acc ->
              0 <= Py.decimal_value s acc.
Proof.
  induction s as [| a s IH]; intros acc H Hacc; cbn [Py.decimal_value]; [exact Hacc |].
  cbn [Py.all_chars] in H. apply andb_true_iff in H. destruct H as [Ha Hs].
  apply IH; [exact Hs |]. pose proof (digit_value_range a Ha). lia.
Qed.

Lemma parse_octet_range (s : string) (o : Z) :
  _parse_octet s = Ok o -> 0 <= o <= 255.
Proof.
  unfold _parse_octet. destruct s as [| a s]; [discriminate |].
  destruct (Py.isascii_isdigit (String a s)) eqn:Ed; cbn [negb]; [| discriminate].
  destruct (3 <? String.length (String a s))%nat; [discriminate |].
  destruct (negb (String.eqb (String a s) "0") && Ascii.eqb a "0"); [discriminate |].
  unfold Py.int_of_digits.
  destruct (Py.max_str_digits <? String.length (String a s))%nat; [discriminate |].
  cbn [bind].
  destruct (Z.gtb_spec (Py.decimal_value (String a s) 0) 255) as [| Hle];
    [discriminate |].
  intros [= <-]. split; [| assumption].
  apply (decimal_value_nonneg (String a s) 0); [exact Ed | lia].
Qed.

(** A text that reads as an address holds a dot and denotes a 32-bit
    value. *)
Lemma ip_int_from_string_range (s : string) (w : Z) :
  _ip_int_from_string s = Ok w ->
  0 <= w <= _ALL_ONES /\ Py.contains "." s = true.
Proof.
  unfold _ip_int_from_string. destruct s as [| a s]; [discriminate |].
  destruct (Py.contains "." (String a s)) eqn:Edot.
  2:{ rewrite (split_on_absent _ _ Edot). discriminate. }
  destruct (Py.split_on "." (String a s)) as [| s1 [| s2 [| s3 [| s4 [| s5 l]]]]];
    try discriminate.
  cbn [List.length Nat.eqb negb mapM].
  destruct (_parse_octet s1) as [o1 | |] eqn:E1; try discriminate.
  destruct (_parse_octet s2) as [o2 | |] eqn:E2; try discriminate.
  destruct (_parse_octet s3) as [o3 | |] eqn:E3; try discriminate.
  destruct (_parse_octet s4) as [o4 | |] eqn:E4; try discriminate.
  cbn [bind]. intros H. inversion H. subst w.
  apply parse_octet_range in E1, E2, E3, E4.
  unfold from_bytes_big, _ALL_ONES, IPV4LENGTH. cbn [fold_left].
  split; [| reflexivity]. change (2 ^ 32 - 1) with 4294967295. lia.
Qed.

Lemma IPv4Address_of_str_range (s : string) (w : Z) :
  IPv4Address_of_str s = Ok w ->
  0 <= w <= _ALL_ONES /\ _ip_int_from_string s = Ok w /\ Py.contains "." s = true.
Proof.
  unfold IPv4Address_of_str. destruct (Py.contains "/" s); [discriminate |].
  intros H. destruct (ip_int_from_string_range s w H). auto.
Qed.

(** On 32-bit values, subtracting from all-ones is the exclusive or with
    all-ones. *)
Lemma all_ones_minus (w : Z) :
  0 <= w <= _ALL_ONES -> 0xFFFFFFFF - w = Z.lxor 0xFFFFFFFF w.
Proof.
  intros Hw. unfold _ALL_ONES, IPV4LENGTH in Hw.
  change 0xFFFFFFFF with (Z.ones 32).
  destruct (Z.eq_dec w 0) as [-> | Hnz]; [reflexivity |].
  assert (Hlog : Z.log2 w < 32) by (apply Z.log2_lt_pow2; lia).
  rewrite Z.sub_nocarry_ldiff by (apply Z.ldiff_ones_r_low; lia).
  rewrite Z.ldiff_ones_l_low by lia. apply Z.lxor_comm.
Qed.

Lemma lxor_all_ones_range (w : Z) :
  0 <= w <= _ALL_ONES -> 0 <= Z.lxor 0xFFFFFFFF w <= _ALL_ONES.
Proof.
  intros Hw. rewrite <- all_ones_minus by exact Hw.
  unfold _ALL_ONES, IPV4LENGTH in *. lia.
Qed.

Lemma prefix_from_ip_int_no_fuel (w : Z) : _prefix_from_ip_int w <> OutOfFuel.
Proof.
  unfold _prefix_from_ip_int.
  destruct (negb _); discriminate.
Qed.

(** A text with a dot is not a prefix length. *)
Lemma prefix_string_dotted (s : string) :
  Py.contains "." s = true -> _prefix_from_prefix_string s = ValueError.
Proof.
  intros H. unfold _prefix_from_prefix_string, Py.isascii_isdigit.
  rewrite (all_chars_contains Py.is_ascii_digit "." s) by (reflexivity || exact H).
  now destruct s.
Qed.

(** The mask a dotted text of value [w] stands for. *)
Lemma make_netmask_of_dotted (s : string) (w : Z) :
  _ip_int_from_string s = Ok w ->
  _make_netmask_of_str s
  = (p <- prefix_of_mask_value w ;;
     netmask <- IPv4Address_of_int (_ip_int_from_prefix p) ;;
     Ok (netmask, p)).
Proof.
  intros H. destruct (ip_int_from_string_range s w H) as [_ Hdot].
  unfold _make_netmask_of_str, _prefix_from_ip_string.
  rewrite (prefix_string_dotted s Hdot), H. reflexivity.
Qed.

(** A value that is not a run of ones followed by zeroes stands for the
    same prefix length as a hostmask as its complement does as a mask. *)
Lemma prefix_of_complement (w : Z) :
  0 <= w <= _ALL_ONES ->
  _prefix_from_ip_int w = ValueError ->
  prefix_of_mask_value (Z.lxor 0xFFFFFFFF w) = prefix_of_mask_value w.
Proof.
  intros Hw Hnot. unfold prefix_of_mask_value. rewrite Hnot.
  change _ALL_ONES with 0xFFFFFFFF.
  rewrite (Z.lxor_comm 0xFFFFFFFF w), Z.lxor_assoc, Z.lxor_nilpotent, Z.lxor_0_r.
  rewrite Hnot. cbn [try_except].
  pose proof (prefix_from_ip_int_no_fuel (Z.lxor w 0xFFFFFFFF)) as Hf.
  destruct (_prefix_from_ip_int (Z.lxor w 0xFFFFFFFF)); [reflexivity.. | congruence].
Qed.

(* ================================================================== *)
(** ** [parse_input] *)
(* ================================================================== *)

(** [parse_input] on a text of two tokens and no slash: the two attempts
    of lines 49-61. *)
Lemma parse_input_two_tokens (input_str ip mask : string) :
  input_str <> EmptyString ->
  Py.contains "/" (Py.strip input_str) = false ->
  Py.split (Py.strip input_str) = [ip; mask] ->
  Py.contains "/" ip = false /\ Py.contains "/" mask = false
  /\ parse_input input_str
     = try_except
         (try_except
            (net <- IPv4Network_of_str (ip ++ "/" ++ mask) false ;; Ok (Some net))
            (try_except
               (wildcard <- IPv4Address_of_str mask ;;
                subnet_mask <- IPv4Address_of_int (0xFFFFFFFF - wildcard) ;;
                net <- IPv4Network_of_str (ip ++ "/" ++ address_str subnet_mask) false ;;
                Ok (Some net))
               (Ok None)))
         (Ok None).
Proof.
  intros Hne Hslash Hsplit.
  assert (Hsp : Forall (fun t => Py.all_chars not_space t = true) [ip; mask]).
  { rewrite <- Hsplit. now apply split_ws_no_space. }
  assert (Hsl : Forall (fun t => Py.all_chars (not_char "/") t = true) [ip; mask]).
  { rewrite <- Hsplit. apply split_ws_all_chars; [| reflexivity].
    now apply contains_not_char. }
  inversion_clear Hsp as [| ? ? Hip Hsp']. inversion_clear Hsp' as [| ? ? Hmask _].
  inversion_clear Hsl as [| ? ? Sip Hsl']. inversion_clear Hsl' as [| ? ? Smask _].
  apply contains_not_char in Sip, Smask.
  split; [exact Sip |]. split; [exact Smask |].
  unfold parse_input. destruct input_str as [| c s]; [contradiction |].
  rewrite Hslash, Hsplit, (strip_no_space ip Hip), (strip_no_space mask Hmask).
  reflexivity.
Qed.

Lemma parse_input_slash (input_str : string) :
  input_str <> EmptyString ->
  Py.contains "/" (Py.strip input_str) = true ->
  parse_input input_str = to_option (IPv4Network_of_str (Py.strip input_str) false).
Proof.
  intros Hne Hslash. unfold parse_input, to_option.
  destruct input_str as [| c s]; [contradiction |]. now rewrite Hslash.
Qed.

(** A dotted mask whose value is not a run of ones followed by zeroes
    gives the same network as the text of its complement. *)
Lemma network_of_complement_mask (ip mask : string) (w : Z) :
  Py.contains "/" ip = false -> Py.contains "/" mask = false ->
  IPv4Address_of_str mask = Ok w ->
  _prefix_from_ip_int w = ValueError ->
  IPv4Network_of_str (ip ++ "/" ++ mask) false
  = IPv4Network_of_str (ip ++ "/" ++ address_str (Z.lxor 0xFFFFFFFF w)) false.
Proof.
  intros Hip Hmask Hw Hnot.
  destruct (IPv4Address_of_str_range mask w Hw) as (Hr & Hs & _).
  pose proof (lxor_all_ones_range w Hr) as Hr'.
  rewrite !IPv4Network_of_str_slash by (assumption || apply address_str_no_slash).
  rewrite (make_netmask_of_dotted mask w Hs).
  rewrite (make_netmask_of_dotted _ _ (ip_int_from_string_address_str _ Hr')).
  now rewrite prefix_of_complement.
Qed.

(** C6. On a text of two tokens: when the constructor refuses the second
    token as a mask, [parse_input] reads it as a wildcard mask, a dotted
    32-bit value [w], and returns what the constructor makes of the first
    token with the mask [0xFFFFFFFF xor w] ([None] when either step
    fails); and whenever the second token is a dotted value [w] that is
    not a run of ones followed by zeroes, the result is what the
    constructor makes of the first token with the mask
    [0xFFFFFFFF xor w]. The texts [10.10.10.1 0.0.0.3] and
    [10.10.10.1 255.255.255.252] both give 10.10.10.0/30. *)
Theorem C6_wildcard_mask :
  (forall input_str ip mask,
     input_str <> EmptyString ->
     Py.contains "/" (Py.strip input_str) = false ->
     Py.split (Py.strip input_str) = [ip; mask] ->
     (IPv4Network_of_str (ip ++ "/" ++ mask) false = ValueError ->
      parse_input input_str
      = to_option (w <- IPv4Address_of_str mask ;;
                   IPv4Network_of_str
                     (ip ++ "/" ++ address_str (Z.lxor 0xFFFFFFFF w)) false))
     /\ (forall w,
           IPv4Address_of_str mask = Ok w ->
           _prefix_from_ip_int w = ValueError ->
           parse_input input_str
           = to_option (IPv4Network_of_str
                          (ip ++ "/" ++ address_str (Z.lxor 0xFFFFFFFF w)) false)))
  /\ parse_input "10.10.10.1 0.0.0.3" = Ok (Some net_10_10_10_0_30)
  /\ parse_input "10.10.10.1 255.255.255.252" = Ok (Some net_10_10_10_0_30).
Proof.
  split; [| split; vm_compute; reflexivity].
  intros input_str ip mask Hne Hslash Hsplit.
  destruct (parse_input_two_tokens input_str ip mask Hne Hslash Hsplit)
    as (Hip & Hmask & ->).
  assert (Hfallback : forall w,
             IPv4Address_of_str mask = Ok w ->
             (wildcard <- IPv4Address_of_str mask ;;
              subnet_mask <- IPv4Address_of_int (0xFFFFFFFF - wildcard) ;;
              net <- IPv4Network_of_str (ip ++ "/" ++ address_str subnet_mask) false ;;
              Ok (Some net))
             = (net <- IPv4Network_of_str
                         (ip ++ "/" ++ address_str (Z.lxor 0xFFFFFFFF w)) false ;;
                Ok (Some net))).
  { intros w Hw. destruct (IPv4Address_of_str_range mask w Hw) as (Hr & _).
    rewrite Hw. cbn [bind]. rewrite all_ones_minus by exact Hr.
    now rewrite IPv4Address_of_int_ok by (apply lxor_all_ones_range, Hr). }
  split.
  - intros Hfail. rewrite Hfail. cbn [bind try_except]. unfold to_option.
    destruct (IPv4Address_of_str mask) as [w | |] eqn:Hw; [| reflexivity..].
    rewrite (Hfallback w eq_refl). cbn [bind].
    destruct (IPv4Network_of_str
                (ip ++ "/" ++ address_str (Z.lxor 0xFFFFFFFF w)) false);
      reflexivity.
  - intros w Hw Hnot. rewrite (Hfallback w Hw).
    rewrite (network_of_complement_mask ip mask w Hip Hmask Hw Hnot).
    unfold to_option.
    destruct (IPv4Network_of_str
                (ip ++ "/" ++ address_str (Z.lxor 0xFFFFFFFF w)) false);
      reflexivity.
Qed.

Lemma C6_witness :
  parse_input "10.10.10.1 0.0.0.3"
  = to_option (IPv4Network_of_str "10.10.10.1/255.255.255.252" false).
Proof.
  destruct C6_wildcard_mask as [Hgeneral _].
  destruct (Hgeneral "10.10.10.1 0.0.0.3" "10.10.10.1" "0.0.0.3") as [_ Hvalue].
  - discriminate.
  - vm_compute. reflexivity.
  - vm_compute. reflexivity.
  - apply (Hvalue 3); vm_compute; reflexivity.
Defined.

Lemma bit_length_nonneg (n : Z) : 0 <= Py.bit_length n.
Proof.
  unfold Py.bit_length. destruct (Z.abs n =? 0); [lia |].
  pose proof (Z.log2_nonneg (Z.abs n)). lia.
Qed.

Lemma prefix_from_ip_int_range (v p : Z) :
  _prefix_from_ip_int v = Ok p -> 0 <= p <= 32.
Proof.
  unfold _prefix_from_ip_int, _max_prefixlen, IPV4LENGTH.
  assert (Htz : 0 <= _count_righthand_zero_bits v 32 <= 32).
  { unfold _count_righthand_zero_bits. destruct (v =? 0); [lia |].
    pose proof (bit_length_nonneg (Z.land (Z.lnot v) (v - 1))). lia. }
  set (tz := _count_righthand_zero_bits v 32) in *. clearbody tz.
  destruct (negb _); [discriminate |]. intros H.
  assert (E : p = 32 - tz) by congruence. lia.
Qed.

Lemma prefix_of_mask_value_cases (w : Z) :
  (exists p, prefix_of_mask_value w = Ok p /\ 0 <= p <= 32)
  \/ (prefix_of_mask_value w = ValueError /\ _prefix_from_ip_int w = ValueError).
Proof.
  unfold prefix_of_mask_value.
  pose proof (prefix_from_ip_int_no_fuel w) as Hf.
  pose proof (prefix_from_ip_int_no_fuel (Z.lxor w _ALL_ONES)) as Hf'.
  destruct (_prefix_from_ip_int w) as [p | |] eqn:Hp; cbn [try_except];
    [left; exists p; split; [reflexivity | now apply prefix_from_ip_int_range in Hp]
    | | congruence].
  destruct (_prefix_from_ip_int (Z.lxor w _ALL_ONES)) as [p | |] eqn:Hp';
    [left; exists p; split; [reflexivity | now apply prefix_from_ip_int_range in Hp']
    | right; split; reflexivity | congruence].
Qed.

Lemma parse_octet_no_fuel (s : string) : _parse_octet s <> OutOfFuel.
Proof.
  unfold _parse_octet, Py.int_of_digits. destruct s as [| a s]; [discriminate |].
  destruct (negb _); [discriminate |].
  destruct (3 <? _)%nat; [discriminate |].
  destruct (negb _ && _); [discriminate |].
  destruct (Py.max_str_digits <? _)%nat; [discriminate |]. cbn [bind].
  destruct (_ >? 255); discriminate.
Qed.

Lemma mapM_no_fuel {A B : Type} (f : A -> result B) (l : list A) :
  (forall x, f x <> OutOfFuel) -> mapM f l <> OutOfFuel.
Proof.
  intros Hf. induction l as [| a l IH]; cbn [mapM]; [discriminate |].
  specialize (Hf a). destruct (f a); cbn [bind]; try congruence.
  destruct (mapM f l); cbn [bind]; congruence.
Qed.

Lemma IPv4Address_of_str_no_fuel (s : string) : IPv4Address_of_str s <> OutOfFuel.
Proof.
  unfold IPv4Address_of_str, _ip_int_from_string.
  destruct (Py.contains "/" s); [discriminate |].
  destruct s as [| a s]; [discriminate |].
  destruct (negb _); [discriminate |].
  pose proof (mapM_no_fuel _parse_octet (Py.split_on "." (String a s))
                parse_octet_no_fuel) as H.
  destruct (mapM _parse_octet _); cbn [bind]; congruence.
Qed.

(** The fallback of [parse_input] never yields a network: a second token
    the constructor refuses, read as a wildcard mask, has a complement
    the constructor refuses as well. *)
Lemma wildcard_fallback_fails (input_str ip mask : string) :
  input_str <> EmptyString ->
  Py.contains "/" (Py.strip input_str) = false ->
  Py.split (Py.strip input_str) = [ip; mask] ->
  IPv4Network_of_str (ip ++ "/" ++ mask) false = ValueError ->
  parse_input input_str = Ok None.
Proof.
  intros Hne Hslash Hsplit Hfail.
  destruct (parse_input_two_tokens input_str ip mask Hne Hslash Hsplit)
    as (Hip & Hmask & ->).
  rewrite Hfail. cbn [bind try_except].
  pose proof (IPv4Address_of_str_no_fuel mask) as Hnf.
  destruct (IPv4Address_of_str mask) as [w | |] eqn:Hw;
    [| reflexivity | congruence]. clear Hnf.
  destruct (IPv4Address_of_str_range mask w Hw) as (Hr & Hs & _).
  pose proof (lxor_all_ones_range w Hr) as Hr'.
  cbn [bind]. rewrite all_ones_minus by exact Hr.
  rewrite IPv4Address_of_int_ok by exact Hr'. cbn [bind].
  rewrite IPv4Network_of_str_slash in Hfail by assumption.
  rewrite IPv4Network_of_str_slash by (assumption || apply address_str_no_slash).
  destruct (IPv4Address_of_str ip) as [a | |] eqn:Ha; [| reflexivity | discriminate].
  destruct (IPv4Address_of_str_range ip a Ha) as (Har & _).
  cbn [bind] in Hfail |- *.
  rewrite (make_netmask_of_dotted mask w Hs) in Hfail.
  rewrite (make_netmask_of_dotted _ _ (ip_int_from_string_address_str _ Hr')).
  destruct (prefix_of_mask_value_cases w) as [(p & Hp & Hpr) | [Hp Hnot]].
  - exfalso. rewrite Hp in Hfail. cbn [bind] in Hfail.
    rewrite IPv4Address_of_int_ok in Hfail by (apply mask_range, Hpr).
    cbn [bind] in Hfail. rewrite network_init_lax in Hfail by assumption.
    discriminate.
  - rewrite prefix_of_complement, Hp by assumption. reflexivity.
Qed.

Lemma make_netmask_of_hostmask_text (p : Z) :
  1 <= p <= 31 ->
  _make_netmask_of_str (address_str (2 ^ (32 - p) - 1))
  = Ok (_ip_int_from_prefix p, p).
Proof.
  intros Hp. apply returns_mask_true.
  apply (range_forallb hostmask_text_ok 1 32); [vm_compute; reflexivity | lia].
Qed.

(** On a text of two tokens, what the constructor makes of [ip/mask] is
    the result, before any fallback. *)
Lemma parse_input_first_attempt (input_str ip mask : string) (net : IPv4Network) :
  input_str <> EmptyString ->
  Py.contains "/" (Py.strip input_str) = false ->
  Py.split (Py.strip input_str) = [ip; mask] ->
  IPv4Network_of_str (ip ++ "/" ++ mask) false = Ok net ->
  parse_input input_str = Ok (Some net).
Proof.
  intros Hne Hslash Hsplit Hok.
  destruct (parse_input_two_tokens input_str ip mask Hne Hslash Hsplit)
    as (_ & _ & ->).
  now rewrite Hok.
Qed.

(** C10. In the mask position [parse_input] takes more than a dotted
    subnet mask. After a blank, a prefix length: [10.0.0.1 24] gives
    10.0.0.0/24, and so does the constructor on [10.0.0.1/24], the first
    attempt; for every address [a] and every prefix length [p] the text
    [a p] gives the network of [a] of prefix length [p]. After a slash, a
    hostmask: [192.168.1.1/0.0.0.255] gives 192.168.1.0/24; for every
    address [a] and every prefix length [p] from 1 to 31 the text of [a],
    a slash and the dotted hostmask of [p] gives the network of [a] of
    prefix length [p]. *)
Theorem C10_mask_forms :
  (parse_input "10.0.0.1 24" = Ok (Some (mkNetwork 167772160 4294967040 24))
   /\ IPv4Network_of_str "10.0.0.1/24" false
      = Ok (mkNetwork 167772160 4294967040 24))
  /\ parse_input "192.168.1.1/0.0.0.255" = Ok (Some net_192_168_1_0_24)
  /\ (forall a p,
        0 <= a <= _ALL_ONES -> 0 <= p <= 32 ->
        IPv4Network_of_str (address_str a ++ "/" ++ Py.str p) false
        = Ok (network_of a p)
        /\ parse_input (address_str a ++ " " ++ Py.str p)
           = Ok (Some (network_of a p)))
  /\ (forall a p,
        0 <= a <= _ALL_ONES -> 1 <= p <= 31 ->
        parse_input (address_str a ++ "/" ++ address_str (2 ^ (32 - p) - 1))
        = Ok (Some (network_of a p))).
Proof.
  split; [split; vm_compute; reflexivity |].
  split; [vm_compute; reflexivity |].
  split.
  - intros a p Ha Hp.
    pose proof (IPv4Network_of_str_cidr a p Ha Hp) as Hcidr.
    split; [exact Hcidr |].
    destruct (octet_text p ltac:(lia)) as (_ & Hpslash & Hpspace & _ & Hpne).
    pose proof (address_str_no_space a) as Haspace.
    pose proof (address_str_nonempty a) as Hane.
    assert (Hstrip : Py.strip (address_str a ++ " " ++ Py.str p)
                     = address_str a ++ " " ++ Py.str p)
      by (now apply strip_between_tokens).
    apply (parse_input_first_attempt _ (address_str a) (Py.str p)).
    + destruct (address_str a); [contradiction | discriminate].
    + rewrite Hstrip, !contains_app, address_str_no_slash, Hpslash. reflexivity.
    + rewrite Hstrip. now apply split_two_tokens.
    + exact Hcidr.
  - intros a p Ha Hp.
    set (hm := 2 ^ (32 - p) - 1).
    pose proof (address_str_no_space a) as Haspace.
    pose proof (address_str_nonempty a) as Hane.
    assert (Hstrip : Py.strip (address_str a ++ "/" ++ address_str hm)
                     = address_str a ++ "/" ++ address_str hm).
    { apply strip_between_tokens; auto using address_str_no_space,
                                             address_str_nonempty. }
    rewrite parse_input_slash.
    + rewrite Hstrip, IPv4Network_of_str_slash by apply address_str_no_slash.
      rewrite IPv4Address_of_str_address_str by exact Ha.
      unfold hm. rewrite make_netmask_of_hostmask_text by exact Hp.
      cbn [bind]. rewrite network_init_lax by lia. reflexivity.
    + destruct (address_str a); [contradiction | discriminate].
    + rewrite Hstrip, !contains_app. cbn [Py.contains Ascii.eqb Bool.eqb orb].
      apply orb_true_r.
Qed.

Lemma C10_witness :
  parse_input (address_str 167772161 ++ " " ++ Py.str 24)
  = Ok (Some (network_of 167772161 24)).
Proof.
  destruct C10_mask_forms as (_ & _ & Hprefix & _).
  apply (Hprefix 167772161 24); unfold _ALL_ONES, IPV4LENGTH; lia.
Defined.

(* ================================================================== *)
(** ** A worked example *)
(* ================================================================== *)

(** C8. The text [192.168.1.10/24] parses to 192.168.1.0/24, and
    [format_ipcalc] reports for it the network address 192.168.1.0, the
    broadcast 192.168.1.255, 254 usable hosts from 192.168.1.1 to
    192.168.1.254, class C, type Private, and the reverse-DNS name
    [0.1.168.192.in-addr.arpa], which is the four bytes of the network
    address reversed, joined by dots and followed by [.in-addr.arpa]. *)
Theorem C8_example_192_168_1_10_24 :
  exists net info,
    parse_input "192.168.1.10/24" = Ok (Some net)
    /\ format_ipcalc (Some net) None = Ok (Some info)
    /\ net = net_192_168_1_0_24
    /\ Info.network info = "192.168.1.0"
    /\ Info.broadcast info = "192.168.1.255"
    /\ Info.hosts_usable info = "254"
    /\ Info.host_min info = "192.168.1.1"
    /\ Info.host_max info = "192.168.1.254"
    /\ In (Entry.mk "192.168.1.0" "192.168.1.1 - 192.168.1.254" "192.168.1.255"
                    true 1 1)
          (Info.all_nets info)
    /\ Info.ip_class info = "C"
    /\ Info.ip_type info = "Private"
    /\ Info.in_addr info = "0.1.168.192.in-addr.arpa"
    /\ Info.in_addr info
       = Py.join "." (map Py.str (rev (packed (network_address net))))
         ++ ".in-addr.arpa"
    /\ index_post "192.168.1.10/24" "" = Ok (Some info, None).
Proof.
  eexists. eexists.
  split; [vm_compute; reflexivity |].
  split; [vm_compute; reflexivity |].
  repeat split; try (vm_compute; reflexivity).
  vm_compute. right. left. reflexivity.
Qed.

(* ================================================================== *)
(** ** Every parsed network is well-formed *)
(* ================================================================== *)

Lemma prefix_from_prefix_string_range (s : string) (q : Z) :
  _prefix_from_prefix_string s = Ok q -> 0 <= q <= 32.
Proof.
  unfold _prefix_from_prefix_string, _max_prefixlen, IPV4LENGTH.
  destruct (negb (Py.isascii_isdigit s)); [discriminate |].
  destruct (Py.int_of_digits s) as [v | |]; cbn [bind]; try discriminate.
  destruct ((0 <=? v) && (v <=? 32)) eqn:Er; cbn [negb]; [| discriminate].
  intros H. assert (E : q = v) by congruence. subst q.
  apply andb_true_iff in Er. destruct Er as [H1 H2].
  apply Z.leb_le in H1, H2. lia.
Qed.

Lemma prefix_from_ip_string_range (s : string) (q : Z) :
  _prefix_from_ip_string s = Ok q -> 0 <= q <= 32.
Proof.
  unfold _prefix_from_ip_string.
  destruct (_ip_int_from_string s) as [w | |]; cbn [bind]; try discriminate.
  destruct (_prefix_from_ip_int w) as [q' | |] eqn:E; cbn [try_except].
  - apply prefix_from_ip_int_range in E. intros H.
    assert (q = q') by congruence. lia.
  - apply prefix_from_ip_int_range.
  - discriminate.
Qed.

Lemma make_netmask_of_str_sound (s : string) (nm p : Z) :
  _make_netmask_of_str s = Ok (nm, p) ->
  0 <= p <= 32 /\ nm = _ip_int_from_prefix p.
Proof.
  unfold _make_netmask_of_str. intros H.
  assert (Hp : forall q,
             try_except (_prefix_from_prefix_string s) (_prefix_from_ip_string s)
             = Ok q -> 0 <= q <= 32).
  { intros q Hq.
    destruct (_prefix_from_prefix_string s) as [q' | |] eqn:E;
      cbn [try_except] in Hq.
    - apply prefix_from_prefix_string_range in E.
      assert (q = q') by congruence. lia.
    - now apply prefix_from_ip_string_range in Hq.
    - discriminate. }
  destruct (try_except (_prefix_from_prefix_string s) (_prefix_from_ip_string s))
    as [q | |]; cbn [bind] in H; try discriminate.
  specialize (Hp q eq_refl).
  rewrite IPv4Address_of_int_ok in H by (apply mask_range, Hp).
  cbn [bind] in H.
  assert (E : nm = _ip_int_from_prefix q /\ p = q) by (split; congruence).
  destruct E as [-> ->]. auto.
Qed.

Lemma network_init_sound (a p : Z) (strict : bool) (net : IPv4Network) :
  0 <= a <= _ALL_ONES -> 0 <= p <= 32 ->
  network_init a (_ip_int_from_prefix p, p) strict = Ok net ->
  net = network_of a p.
Proof.
  intros Ha Hp. unfold network_init, network_of.
  destruct (Z.eqb_spec (Z.land a (_ip_int_from_prefix p)) a) as [E | E];
    cbn [negb].
  - intros H. rewrite E. congruence.
  - destruct strict; [discriminate |].
    rewrite IPv4Address_of_int_ok
      by (pose proof (land_mask_range a p Ha Hp); lia).
    cbn [bind]. congruence.
Qed.

Lemma IPv4Network_of_str_wf (s : string) (strict : bool) (net : IPv4Network) :
  IPv4Network_of_str s strict = Ok net -> wf_network net.
Proof.
  unfold IPv4Network_of_str. intros H.
  destruct (_split_addr_prefix s) as [[addr mask] | |]; cbn [bind] in H;
    try discriminate.
  destruct (IPv4Address_of_str addr) as [a | |] eqn:Ea; cbn [bind] in H;
    try discriminate.
  destruct (IPv4Address_of_str_range addr a Ea) as (Ha & _).
  destruct mask as [mask_str |].
  - destruct (_make_netmask_of_str mask_str) as [[nm p] | |] eqn:Em;
      cbn [bind] in H; try discriminate.
    destruct (make_netmask_of_str_sound mask_str nm p Em) as [Hp ->].
    rewrite (network_init_sound a p strict net Ha Hp H).
    now apply network_of_wf.
  - change _max_prefixlen with 32 in H.
    rewrite make_netmask_of_int_ok in H by lia. cbn [bind] in H.
    rewrite (network_init_sound a 32 strict net Ha ltac:(lia) H).
    apply network_of_wf; [exact Ha | lia].
Qed.

(** Whatever [parse_input] returns is a well-formed network: the
    theorems on well-formed networks hold for every parsed input. *)
Lemma parse_input_wf (input_str : string) (net : IPv4Network) :
  parse_input input_str = Ok (Some net) -> wf_network net.
Proof.
  assert (Hone : forall s strict,
             try_except (n <- IPv4Network_of_str s strict ;; Ok (Some n)) (Ok None)
             = Ok (Some net) -> wf_network net).
  { intros s strict H.
    destruct (IPv4Network_of_str s strict) as [n | |] eqn:E;
      cbn [bind try_except] in H; try discriminate.
    assert (net = n) by congruence. subst n.
    exact (IPv4Network_of_str_wf s strict net E). }
  unfold parse_input. destruct input_str as [| c s]; [discriminate |].
  destruct (Py.contains "/" (Py.strip (String c s))); [apply Hone |].
  destruct (Py.split (Py.strip (String c s))) as [| p0 [| p1 [| p2 l]]];
    try apply Hone.
  intros H.
  destruct (IPv4Network_of_str (Py.strip p0 ++ "/" ++ Py.strip p1) false)
    as [n | |] eqn:E1; cbn [bind try_except] in H.
  - assert (net = n) by congruence. subst n.
    exact (IPv4Network_of_str_wf _ _ net E1).
  - destruct (IPv4Address_of_str (Py.strip p1)) as [w | |]; cbn [bind try_except] in H;
      try discriminate.
    destruct (IPv4Address_of_int (0xFFFFFFFF - w)) as [m | |];
      cbn [bind try_except] in H; try discriminate.
    destruct (IPv4Network_of_str (Py.strip p0 ++ "/" ++ address_str m) false)
      as [n | |] eqn:E2; cbn [bind try_except] in H; try discriminate.
    assert (net = n) by congruence. subst n.
    exact (IPv4Network_of_str_wf _ _ net E2).
  - discriminate.
Qed.

(* ================================================================== *)
(** ** [parse_input]: blank input, surrounding space, bare addresses *)
(* ================================================================== *)

Lemma lstrip_all_space (s : string) :
  Py.all_chars Py.isspace s = true -> Py.lstrip s = EmptyString.
Proof.
  induction s as [| a s IH]; cbn [Py.all_chars Py.lstrip]; [reflexivity |].
  intros H. apply andb_true_iff in H. destruct H as [Ha Hs]. now rewrite Ha, IH.
Qed.

(** X1. A text of white space only, the empty text included, is not a
    network: [parse_input] returns [None]. *)
Theorem X1_parse_input_blank (input_str : string) :
  Py.all_chars Py.isspace input_str = true -> parse_input input_str = Ok None.
Proof.
  intros H. unfold parse_input. destruct input_str as [| c s]; [reflexivity |].
  unfold Py.strip. rewrite (lstrip_all_space _ H). reflexivity.
Qed.

Lemma X1_witness : parse_input "   " = Ok None.
Proof. apply X1_parse_input_blank. vm_compute. reflexivity. Defined.

Lemma rstrip_cons (a : ascii) (s : string) :
  Py.rstrip (String a s)
  = match Py.rstrip s with
    | EmptyString => if Py.isspace a then EmptyString else String a EmptyString
    | r => String a r
    end.
Proof. reflexivity. Qed.

Lemma rstrip_idempotent (s : string) : Py.rstrip (Py.rstrip s) = Py.rstrip s.
Proof.
  induction s as [| a s IH]; [reflexivity |].
  rewrite (rstrip_cons a s).
  destruct (Py.rstrip s) as [| b r] eqn:E.
  - destruct (Py.isspace a) eqn:Ea; [reflexivity |].
    rewrite rstrip_cons. cbn [Py.rstrip]. now rewrite Ea.
  - rewrite rstrip_cons, IH. reflexivity.
Qed.

(** What is left of a text that starts with a non-space character starts
    with that character. *)
Lemma rstrip_head (a : ascii) (s : string) :
  Py.isspace a = false -> exists r, Py.rstrip (String a s) = String a r.
Proof.
  intros Ha. cbn [Py.rstrip]. rewrite Ha.
  destruct (Py.rstrip s); eexists; reflexivity.
Qed.

Lemma lstrip_head (s : string) :
  Py.lstrip s = EmptyString
  \/ exists a r, Py.lstrip s = String a r /\ Py.isspace a = false.
Proof.
  induction s as [| a s IH]; cbn [Py.lstrip]; [now left |].
  destruct (Py.isspace a) eqn:Ea; [exact IH |].
  right. now exists a, s.
Qed.

Lemma strip_idempotent (s : string) : Py.strip (Py.strip s) = Py.strip s.
Proof.
  unfold Py.strip. destruct (lstrip_head s) as [-> | (a & r & -> & Ha)];
    [reflexivity |].
  destruct (rstrip_head a r Ha) as [r' E]. rewrite E.
  cbn [Py.lstrip]. rewrite Ha, <- E. apply rstrip_idempotent.
Qed.

(** X2. White space around the input is of no consequence: a text and
    the text stripped parse alike. *)
Theorem X2_parse_input_strip (input_str : string) :
  parse_input (Py.strip input_str) = parse_input input_str.
Proof.
  destruct input_str as [| c s]; [reflexivity |].
  destruct (Py.strip (String c s)) as [| c' s'] eqn:E.
  - unfold parse_input. rewrite E. reflexivity.
  - unfold parse_input. rewrite <- E, strip_idempotent. reflexivity.
Qed.

Lemma split_one_token (t : string) :
  Py.all_chars not_space t = true -> t <> EmptyString -> Py.split t = [t].
Proof.
  intros H N. unfold Py.split. rewrite <- (append_empty_r t) at 1.
  rewrite split_ws_token by exact H. cbn [append Py.split_ws].
  destruct t; [contradiction | reflexivity].
Qed.

Lemma land_all_ones (a : Z) :
  0 <= a <= _ALL_ONES -> Z.land a (_ip_int_from_prefix 32) = a.
Proof.
  intros Ha. rewrite land_mask_mod by lia.
  change (2 ^ (32 - 32)) with 1. rewrite Z.mod_1_r. lia.
Qed.

(** X3. A bare address is the network of that one host: for every 32-bit
    address, its dotted text parses to the address itself with prefix
    length 32. *)
Theorem X3_parse_input_bare_address (a : Z) :
  0 <= a <= _ALL_ONES ->
  parse_input (address_str a) = Ok (Some (mkNetwork a (_ip_int_from_prefix 32) 32)).
Proof.
  intros Ha.
  pose proof (address_str_no_space a) as Hsp.
  pose proof (address_str_nonempty a) as Hne.
  unfold parse_input. destruct (address_str a) as [| c s] eqn:E; [contradiction |].
  rewrite (strip_no_space _ Hsp), (split_one_token _ Hsp Hne), <- E.
  rewrite address_str_no_slash.
  change "/32" with ("/" ++ Py.str 32).
  rewrite IPv4Network_of_str_cidr by lia. cbn [bind try_except].
  unfold network_of. now rewrite land_all_ones.
Qed.

Lemma X3_witness :
  parse_input (address_str 16909060) = Ok (Some (mkNetwork 16909060 4294967295 32)).
Proof.
  apply (X3_parse_input_bare_address 16909060).
  unfold _ALL_ONES, IPV4LENGTH. lia.
Defined.

(* ================================================================== *)
(** ** [parse_input]: what it refuses, and that it never raises *)
(* ================================================================== *)

Lemma all_chars_impl (f g : ascii -> bool) (s : string) :
  (forall c, f c = true -> g c = true) ->
  Py.all_chars f s = true -> Py.all_chars g s = true.
Proof.
  intros Hfg. induction s as [| a s IH]; cbn [Py.all_chars]; [reflexivity |].
  intros H. apply andb_true_iff in H. destruct H as [Ha Hs].
  now rewrite (Hfg a Ha), IH.
Qed.

(** A text whose pieces between separators satisfy [f] satisfies [f], if
    the separator does. *)
Lemma split_on_all_chars (f : ascii -> bool) (c : ascii) (s : string) :
  f c = true ->
  Forall (fun t => Py.all_chars f t = true) (Py.split_on c s) ->
  Py.all_chars f s = true.
Proof.
  intros Hc. induction s as [| a s IH]; cbn [Py.split_on Py.all_chars];
    [reflexivity |].
  destruct (Ascii.eqb_spec a c) as [-> | Hne].
  - intros H. inversion_clear H as [| ? ? _ Hrest]. now rewrite Hc, IH.
  - destruct (Py.split_on c s) as [| h t].
    + intros H. inversion_clear H as [| ? ? Hh _].
      cbn [Py.all_chars] in Hh. apply andb_true_iff in Hh. destruct Hh as [Ha _].
      rewrite Ha. apply IH. constructor.
    + intros H. inversion_clear H as [| ? ? Hh Hrest].
      cbn [Py.all_chars] in Hh. apply andb_true_iff in Hh. destruct Hh as [Ha Hh].
      rewrite Ha. apply IH. now constructor.
Qed.

Lemma parse_octet_digits (t : string) (o : Z) :
  _parse_octet t = Ok o -> Py.all_chars Py.is_ascii_digit t = true.
Proof.
  unfold _parse_octet. destruct t as [| a t]; [discriminate |].
  destruct (Py.isascii_isdigit (String a t)) eqn:Ed; cbn [negb]; [| discriminate].
  intros _. exact Ed.
Qed.

Lemma mapM_Forall {A B : Type} (f : A -> result B) (l : list A) (l' : list B) :
  mapM f l = Ok l' -> Forall (fun x => exists y, f x = Ok y) l.
Proof.
  revert l'. induction l as [| a l IH]; intros l' H; [constructor |].
  cbn [mapM] in H. destruct (f a) as [b | |] eqn:Ea; cbn [bind] in H;
    try discriminate.
  destruct (mapM f l) as [bs | |]; cbn [bind] in H; try discriminate.
  constructor; [now exists b | now apply (IH bs)].
Qed.

(** A text that reads as an address holds digits and dots only. *)
Lemma ip_int_from_string_chars (s : string) (w : Z) :
  _ip_int_from_string s = Ok w -> Py.all_chars digit_or_dot s = true.
Proof.
  unfold _ip_int_from_string. destruct s as [| a s]; [discriminate |].
  destruct (negb _); [discriminate |].
  destruct (mapM _parse_octet (Py.split_on "." (String a s))) as [bytes | |] eqn:E;
    cbn [bind]; try discriminate.
  intros _. apply (split_on_all_chars digit_or_dot "."); [reflexivity |].
  apply mapM_Forall in E. eapply Forall_impl; [| exact E].
  intros t [o Ho]. apply parse_octet_digits in Ho.
  apply (all_chars_impl Py.is_ascii_digit); [| exact Ho].
  intros c Hc. unfold digit_or_dot. now rewrite Hc.
Qed.

Lemma digit_or_dot_not_space (c : ascii) :
  digit_or_dot c = true -> not_space c = true.
Proof.
  destruct c as [[] [] [] [] [] [] [] []]; vm_compute; congruence.
Qed.

Lemma split_no_space_short (t : string) :
  Py.all_chars not_space t = true -> (List.length (Py.split t) <= 1)%nat.
Proof.
  intros H. unfold Py.split. rewrite <- (append_empty_r t) at 1.
  rewrite split_ws_token by exact H. cbn [append Py.split_ws].
  destruct t; cbn [List.length]; lia.
Qed.

(** X4. A text of three or more tokens and no slash is not a network:
    [parse_input] returns [None]. *)
Theorem X4_parse_input_three_tokens (input_str : string) :
  Py.contains "/" (Py.strip input_str) = false ->
  (3 <= List.length (Py.split (Py.strip input_str)))%nat ->
  parse_input input_str = Ok None.
Proof.
  intros Hslash Hlen. unfold parse_input.
  destruct input_str as [| c s]; [reflexivity |].
  rewrite Hslash.
  assert (Hspace : Py.all_chars not_space (Py.strip (String c s)) <> true).
  { intros H. apply split_no_space_short in H. lia. }
  destruct (Py.split (Py.strip (String c s))) as [| p0 [| p1 [| p2 l]]];
    cbn [List.length] in Hlen; try lia.
  change "/32" with ("/" ++ "32").
  rewrite IPv4Network_of_str_slash by (assumption || reflexivity).
  pose proof (IPv4Address_of_str_no_fuel (Py.strip (String c s))) as Hnf.
  destruct (IPv4Address_of_str (Py.strip (String c s))) as [w | |] eqn:Ew;
    [| reflexivity | congruence].
  exfalso. apply Hspace.
  destruct (IPv4Address_of_str_range _ _ Ew) as (_ & Hparse & _).
  apply ip_int_from_string_chars in Hparse.
  exact (all_chars_impl _ _ _ digit_or_dot_not_space Hparse).
Qed.

Lemma X4_witness : parse_input "10.0.0.1 255.0.0.0 8" = Ok None.
Proof. apply X4_parse_input_three_tokens; vm_compute; [reflexivity | lia]. Defined.

Lemma ip_int_from_string_no_fuel (s : string) : _ip_int_from_string s <> OutOfFuel.
Proof.
  unfold _ip_int_from_string. destruct s as [| a s]; [discriminate |].
  destruct (negb _); [discriminate |].
  pose proof (mapM_no_fuel _parse_octet (Py.split_on "." (String a s))
                parse_octet_no_fuel).
  destruct (mapM _parse_octet _); cbn [bind]; congruence.
Qed.

Lemma prefix_from_prefix_string_no_fuel (s : string) :
  _prefix_from_prefix_string s <> OutOfFuel.
Proof.
  unfold _prefix_from_prefix_string, Py.int_of_digits.
  destruct (negb (Py.isascii_isdigit s)); [discriminate |].
  destruct (Py.max_str_digits <? _)%nat; [discriminate |]. cbn [bind].
  destruct (negb _); discriminate.
Qed.

Lemma prefix_from_ip_string_no_fuel (s : string) :
  _prefix_from_ip_string s <> OutOfFuel.
Proof.
  unfold _prefix_from_ip_string.
  pose proof (ip_int_from_string_no_fuel s).
  destruct (_ip_int_from_string s) as [w | |]; cbn [bind]; try congruence.
  pose proof (prefix_from_ip_int_no_fuel w).
  pose proof (prefix_from_ip_int_no_fuel (Z.lxor w _ALL_ONES)).
  destruct (_prefix_from_ip_int w); cbn [try_except]; congruence.
Qed.

Lemma make_netmask_of_str_no_fuel (s : string) : _make_netmask_of_str s <> OutOfFuel.
Proof.
  unfold _make_netmask_of_str.
  pose proof (prefix_from_prefix_string_no_fuel s).
  pose proof (prefix_from_ip_string_no_fuel s).
  assert (Hend : forall q : Z,
             (netmask <- IPv4Address_of_int (_ip_int_from_prefix q) ;; Ok (netmask, q))
             <> OutOfFuel).
  { intros q. unfold IPv4Address_of_int.
    destruct (_ <? 0); [discriminate |]. destruct (_ >? _ALL_ONES); discriminate. }
  destruct (_prefix_from_prefix_string s); cbn [try_except bind];
    [apply Hend | | congruence].
  destruct (_prefix_from_ip_string s); cbn [bind];
    [apply Hend | discriminate | congruence].
Qed.

Lemma network_init_no_fuel (a : Z) (m : Z * Z) (strict : bool) :
  network_init a m strict <> OutOfFuel.
Proof.
  unfold network_init, IPv4Address_of_int. destruct m as [nm p].
  destruct (negb _); [| discriminate]. destruct strict; [discriminate |].
  destruct (_ <? 0); [discriminate |]. destruct (_ >? _ALL_ONES); discriminate.
Qed.

Lemma IPv4Network_of_str_no_fuel (s : string) (strict : bool) :
  IPv4Network_of_str s strict <> OutOfFuel.
Proof.
  unfold IPv4Network_of_str, _split_addr_prefix, _split_optional_netmask.
  destruct (2 <? _)%nat; cbn [bind]; [discriminate |].
  destruct (Py.split_on "/" s) as [| p0 [| p1 [| p2 l]]]; cbn [bind];
    try discriminate.
  - pose proof (IPv4Address_of_str_no_fuel p0).
    destruct (IPv4Address_of_str p0); cbn [bind]; try congruence.
    unfold _make_netmask_of_int, IPv4Address_of_int.
    destruct (negb _); cbn [bind]; [discriminate |].
    destruct (_ <? 0); cbn [bind]; [discriminate |].
    destruct (_ >? _ALL_ONES); cbn [bind]; [discriminate |].
    apply network_init_no_fuel.
  - pose proof (IPv4Address_of_str_no_fuel p0).
    destruct (IPv4Address_of_str p0); cbn [bind]; try congruence.
    pose proof (make_netmask_of_str_no_fuel p1).
    destruct (_make_netmask_of_str p1); cbn [bind]; try congruence.
    apply network_init_no_fuel.
Qed.

Lemma attempt_returns (s : string) (h : result (option IPv4Network)) :
  (exists r, h = Ok r) ->
  exists r, try_except (net <- IPv4Network_of_str s false ;; Ok (Some net)) h = Ok r.
Proof.
  intros [r Hr]. pose proof (IPv4Network_of_str_no_fuel s false).
  destruct (IPv4Network_of_str s false); cbn [bind try_except];
    [eexists; reflexivity | exists r; exact Hr | congruence].
Qed.

(** [parse_input] returns on every text: a network or [None]. *)
Lemma parse_input_returns (input_str : string) :
  exists r, parse_input input_str = Ok r.
Proof.
  unfold parse_input. destruct input_str as [| c s]; [now exists None |].
  assert (Hnone : exists r : option IPv4Network, Ok None = Ok r) by now exists None.
  destruct (Py.contains "/" (Py.strip (String c s))); [now apply attempt_returns |].
  destruct (Py.split (Py.strip (String c s))) as [| p0 [| p1 [| p2 l]]];
    try (now apply attempt_returns).
  assert (Hinner : exists r,
             try_except
               (try_except
                  (net <- IPv4Network_of_str (Py.strip p0 ++ "/" ++ Py.strip p1) false ;;
                   Ok (Some net))
                  (try_except
                     (wildcard <- IPv4Address_of_str (Py.strip p1) ;;
                      subnet_mask <- IPv4Address_of_int (0xFFFFFFFF - wildcard) ;;
                      net <- IPv4Network_of_str
                               (Py.strip p0 ++ "/" ++ address_str subnet_mask) false ;;
                      Ok (Some net))
                     (Ok None)))
               (Ok None) = Ok r); [| exact Hinner].
  pose proof (IPv4Network_of_str_no_fuel (Py.strip p0 ++ "/" ++ Py.strip p1) false).
  destruct (IPv4Network_of_str (Py.strip p0 ++ "/" ++ Py.strip p1) false);
    cbn [bind try_except]; [eexists; reflexivity | | congruence].
  pose proof (IPv4Address_of_str_no_fuel (Py.strip p1)).
  destruct (IPv4Address_of_str (Py.strip p1)) as [w | |]; cbn [bind try_except];
    [| now exists None | congruence].
  unfold IPv4Address_of_int.
  destruct (_ <? 0); cbn [bind try_except]; [now exists None |].
  destruct (_ >? _ALL_ONES); cbn [bind try_except]; [now exists None |].
  match goal with
  | |- context [IPv4Network_of_str ?t false] =>
      pose proof (IPv4Network_of_str_no_fuel t false);
      destruct (IPv4Network_of_str t false); cbn [bind try_except];
      [eexists; reflexivity | now exists None | congruence]
  end.
Qed.

(** X5. The POST handler never raises: whatever the two form fields
    hold, either the text parses and the template receives a result and
    no error, or it does not and the template receives the error message
    and no result. *)
Theorem X5_index_post_total (cidr page : string) :
  (exists net info,
     parse_input cidr = Ok (Some net)
     /\ format_ipcalc (Some net) (Some page) = Ok (Some info)
     /\ index_post cidr page = Ok (Some info, None))
  \/ (parse_input cidr = Ok None
      /\ index_post cidr page
         = Ok (None, Some "Invalid IP address or subnet mask.")).
Proof.
  unfold index_post. destruct (parse_input_returns cidr) as [[net |] Hr].
  - left. pose proof (parse_input_wf cidr net Hr) as Hwf.
    destruct (format_ipcalc_fields net (Some page) Hwf) as (info & _ & Hinfo & _).
    exists net, info. rewrite Hr. cbn [bind]. rewrite Hinfo. auto.
  - right. rewrite Hr. auto.
Qed.

(* ================================================================== *)
(** ** The texts [format_ipcalc] reports, read back by [parse_input] *)
(* ================================================================== *)

(** The text fields of the result of [format_ipcalc] on a well-formed
    network. *)
Lemma format_ipcalc_texts (net : IPv4Network) (requested_page : option string) :
  wf_network net ->
  let parent := network_of (network_address net) (parent_prefix (prefixlen net)) in
  exists info,
    format_ipcalc (Some net) requested_page = Ok (Some info)
    /\ Info.network info = address_str (network_address net)
    /\ Info.cidr_full info = network_str net
    /\ Info.netmask info = address_str (netmask net)
    /\ Info.wildcard info = address_str (hostmask net)
    /\ Info.broadcast info = address_str (broadcast_address net)
    /\ Info.in_addr info
       = Py.join "." (map Py.str (rev (packed (network_address net))))
         ++ ".in-addr.arpa"
    /\ Info.binary_mask info = Py.join "." (map Py.format_08b (packed (netmask net)))
    /\ Info.binary_id info
       = Py.join "." (map Py.format_08b (packed (network_address net)))
    /\ Info.hosts_usable info = Py.format_comma (Z.max 0 (num_addresses net - 2))
    /\ Info.parent_desc info
       = (if prefixlen parent <? prefixlen net
          then describe (total_subnets_spec net parent) net parent
          else describe 1 net net).
Proof.
  intros Hwf parent.
  destruct (format_ipcalc_listing net requested_page Hwf) as (center & _ & Hst).
  fold parent in Hst. unfold format_ipcalc.
  rewrite get_host_range_wf by exact Hwf.
  destruct (host_range_spec net) as [lo hi] eqn:Ehr. cbn [fst snd] in Hst.
  cbn [bind].
  rewrite IPv4Address_of_int_ok by (apply wildcard_range; exact Hwf).
  cbn [bind].
  rewrite get_parent_network_wf by exact Hwf. cbn [bind]. fold parent.
  rewrite Hst. cbn [bind].
  eexists. split; [reflexivity |].
  cbn [Info.network Info.cidr_full Info.netmask Info.wildcard Info.broadcast
       Info.in_addr Info.binary_mask Info.binary_id Info.hosts_usable
       Info.parent_desc].
  repeat (split; [reflexivity |]).
  destruct (prefixlen parent <? prefixlen net); reflexivity.
Qed.

Lemma network_str_parts (net : IPv4Network) :
  wf_network net ->
  Py.all_chars not_space (Py.str (prefixlen net)) = true
  /\ Py.str (prefixlen net) <> EmptyString
  /\ Py.contains "/" (Py.str (prefixlen net)) = false.
Proof.
  intros (Hp & _).
  destruct (octet_text (prefixlen net) ltac:(lia)) as (_ & H1 & H2 & _ & H3). auto.
Qed.

Lemma parse_input_cidr (a p : Z) :
  0 <= a <= _ALL_ONES -> 0 <= p <= 32 ->
  parse_input (address_str a ++ "/" ++ Py.str p) = Ok (Some (network_of a p)).
Proof.
  intros Ha Hp.
  destruct (octet_text p ltac:(lia)) as (_ & Hpslash & Hpspace & _ & Hpne).
  assert (Hstrip : Py.strip (address_str a ++ "/" ++ Py.str p)
                   = address_str a ++ "/" ++ Py.str p).
  { apply strip_between_tokens;
      auto using address_str_no_space, address_str_nonempty. }
  rewrite parse_input_slash.
  - rewrite Hstrip, IPv4Network_of_str_cidr by assumption. reflexivity.
  - pose proof (address_str_nonempty a).
    destruct (address_str a); [contradiction | discriminate].
  - rewrite Hstrip, !contains_app. cbn [Py.contains Ascii.eqb Bool.eqb orb].
    apply orb_true_r.
Qed.

(** X6. The CIDR text [format_ipcalc] reports for a network parses back
    to that network. *)
Theorem X6_cidr_round_trip (net : IPv4Network) (requested_page : option string) :
  wf_network net ->
  exists info,
    format_ipcalc (Some net) requested_page = Ok (Some info)
    /\ parse_input (Info.cidr_full info) = Ok (Some net).
Proof.
  intros Hwf.
  destruct (format_ipcalc_texts net requested_page Hwf)
    as (info & Hinfo & _ & Hcidr & _).
  exists info. split; [exact Hinfo |].
  pose proof Hwf as (Hp & _ & Ha & _).
  rewrite Hcidr. unfold network_str. rewrite parse_input_cidr by assumption.
  now rewrite <- wf_network_of.
Qed.

Lemma X6_witness :
  exists info,
    format_ipcalc (Some net_10_10_10_0_30) None = Ok (Some info)
    /\ parse_input (Info.cidr_full info) = Ok (Some net_10_10_10_0_30).
Proof.
  apply (X6_cidr_round_trip net_10_10_10_0_30 None).
  unfold net_10_10_10_0_30. solve_wf.
Defined.

Lemma make_netmask_of_netmask_text (p : Z) :
  0 <= p <= 32 ->
  _make_netmask_of_str (address_str (_ip_int_from_prefix p))
  = Ok (_ip_int_from_prefix p, p).
Proof.
  intros Hp. apply returns_mask_true.
  apply (range_forallb netmask_text_ok 0 33); [vm_compute; reflexivity | lia].
Qed.

(** [parse_input] on an address, a blank and a dotted mask. *)
Lemma parse_input_address_mask (a m : Z) :
  parse_input (address_str a ++ " " ++ address_str m)
  = try_except
      (try_except
         (net <- IPv4Network_of_str (address_str a ++ "/" ++ address_str m) false ;;
          Ok (Some net))
         (try_except
            (wildcard <- IPv4Address_of_str (address_str m) ;;
             subnet_mask <- IPv4Address_of_int (0xFFFFFFFF - wildcard) ;;
             net <- IPv4Network_of_str
                      (address_str a ++ "/" ++ address_str subnet_mask) false ;;
             Ok (Some net))
            (Ok None)))
      (Ok None).
Proof.
  assert (Hstrip : Py.strip (address_str a ++ " " ++ address_str m)
                   = address_str a ++ " " ++ address_str m).
  { apply strip_between_tokens;
      auto using address_str_no_space, address_str_nonempty. }
  apply (parse_input_two_tokens _ (address_str a) (address_str m)).
  - pose proof (address_str_nonempty a).
    destruct (address_str a); [contradiction | discriminate].
  - rewrite Hstrip, !contains_app, !address_str_no_slash. reflexivity.
  - rewrite Hstrip.
    apply split_two_tokens; auto using address_str_no_space, address_str_nonempty.
Qed.

(** X7. The network address and the subnet mask [format_ipcalc] reports,
    put side by side, parse back to the network. *)
Theorem X7_netmask_round_trip (net : IPv4Network) (requested_page : option string) :
  wf_network net ->
  exists info,
    format_ipcalc (Some net) requested_page = Ok (Some info)
    /\ parse_input (Info.network info ++ " " ++ Info.netmask info) = Ok (Some net).
Proof.
  intros Hwf.
  destruct (format_ipcalc_texts net requested_page Hwf)
    as (info & Hinfo & Hnet & _ & Hmask & _).
  exists info. split; [exact Hinfo |].
  pose proof Hwf as (Hp & Hm & Ha & _).
  rewrite Hnet, Hmask, Hm, parse_input_address_mask.
  rewrite IPv4Network_of_str_slash by apply address_str_no_slash.
  rewrite IPv4Address_of_str_address_str, make_netmask_of_netmask_text by assumption.
  cbn [bind]. rewrite network_init_lax by assumption. cbn [bind try_except].
  now rewrite <- wf_network_of.
Qed.

Lemma X7_witness :
  exists info,
    format_ipcalc (Some net_10_10_10_0_30) None = Ok (Some info)
    /\ parse_input (Info.network info ++ " " ++ Info.netmask info)
       = Ok (Some net_10_10_10_0_30).
Proof.
  apply (X7_netmask_round_trip net_10_10_10_0_30 None).
  unfold net_10_10_10_0_30. solve_wf.
Defined.

(** X8. The network address and the wildcard mask [format_ipcalc]
    reports, put side by side, parse back to the network for the prefix
    lengths 1 to 31. At the two ends the wildcard text is read as a
    subnet mask: that of a /32, [0.0.0.0], gives the network 0.0.0.0/0,
    and that of the /0, [255.255.255.255], gives 0.0.0.0/32. *)
Theorem X8_wildcard_round_trip (net : IPv4Network) (requested_page : option string) :
  wf_network net ->
  exists info,
    format_ipcalc (Some net) requested_page = Ok (Some info)
    /\ (1 <= prefixlen net <= 31 ->
        parse_input (Info.network info ++ " " ++ Info.wildcard info)
        = Ok (Some net))
    /\ (prefixlen net = 32 ->
        Info.wildcard info = "0.0.0.0"
        /\ parse_input (Info.network info ++ " " ++ Info.wildcard info)
           = Ok (Some (mkNetwork 0 0 0)))
    /\ (prefixlen net = 0 ->
        Info.wildcard info = "255.255.255.255"
        /\ parse_input (Info.network info ++ " " ++ Info.wildcard info)
           = Ok (Some (mkNetwork 0 4294967295 32))).
Proof.
  intros Hwf.
  destruct (format_ipcalc_texts net requested_page Hwf)
    as (info & Hinfo & Hnet & _ & _ & Hwild & _).
  exists info. split; [exact Hinfo |].
  pose proof Hwf as (Hp & Hm & Ha & Hal).
  rewrite Hnet, Hwild, (wf_hostmask net Hwf).
  split; [| split]; intros Hcase.
  - rewrite parse_input_address_mask.
    rewrite IPv4Network_of_str_slash by apply address_str_no_slash.
    rewrite IPv4Address_of_str_address_str, make_netmask_of_hostmask_text
      by assumption.
    cbn [bind]. rewrite network_init_lax by assumption. cbn [bind try_except].
    now rewrite <- wf_network_of.
  - rewrite Hcase. change (address_str (2 ^ (32 - 32) - 1)) with "0.0.0.0".
    split; [reflexivity |].
    change "0.0.0.0" with (address_str (_ip_int_from_prefix 0)).
    rewrite parse_input_address_mask.
    rewrite IPv4Network_of_str_slash by apply address_str_no_slash.
    rewrite IPv4Address_of_str_address_str, make_netmask_of_netmask_text by lia.
    cbn [bind]. rewrite network_init_lax by lia. cbn [bind try_except].
    unfold network_of. change (_ip_int_from_prefix 0) with 0.
    now rewrite Z.land_0_r.
  - rewrite Hcase. change (address_str (2 ^ (32 - 0) - 1)) with "255.255.255.255".
    split; [reflexivity |].
    assert (Hzero : network_address net = 0).
    { rewrite Hm, Hcase in Hal. change (_ip_int_from_prefix 0) with 0 in Hal.
      now rewrite Z.land_0_r in Hal. }
    rewrite Hzero. vm_compute. reflexivity.
Qed.

Lemma X8_witness :
  exists info,
    format_ipcalc (Some (mkNetwork 16909060 4294967295 32)) None = Ok (Some info)
    /\ parse_input (Info.network info ++ " " ++ Info.wildcard info)
       = Ok (Some (mkNetwork 0 0 0)).
Proof.
  assert (Hwf : wf_network (mkNetwork 16909060 4294967295 32)) by solve_wf.
  destruct (X8_wildcard_round_trip (mkNetwork 16909060 4294967295 32) None Hwf)
    as (info & Hinfo & _ & H32 & _).
  exists info. split; [exact Hinfo |]. now apply H32.
Defined.

(* ================================================================== *)
(** ** The subject among its siblings *)
(* ================================================================== *)

Lemma parent_prefix_le (p : Z) : 8 <= p -> 0 <= parent_prefix p <= p.
Proof.
  intros H. unfold parent_prefix.
  destruct (Z.gtb_spec p 24); [lia |]. destruct (Z.gtb_spec p 16); lia.
Qed.

(** The index of the subject: below the sibling count, and the sibling of
    that index is the subject. *)
Lemma current_index_facts (net : IPv4Network) (q : Z) :
  wf_network net -> 0 <= q <= prefixlen net ->
  let parent := network_of (network_address net) q in
  0 <= current_index_spec net parent < 2 ^ (prefixlen net - q)
  /\ network_address parent
     + current_index_spec net parent * 2 ^ (32 - prefixlen net)
     = network_address net.
Proof.
  intros Hwf Hq parent. pose proof (wf_aligned net Hwf) as Hal.
  destruct Hwf as (Hp & _ & Ha & _).
  unfold current_index_spec, parent, network_of. cbn [network_address].
  rewrite land_mask_mod by lia.
  set (p := prefixlen net) in *. set (a := network_address net) in *.
  assert (Hsplit : 2 ^ (32 - q) = 2 ^ (32 - p) * 2 ^ (p - q)).
  { rewrite <- Z.pow_add_r by lia. f_equal. lia. }
  pose proof (pow2_pos (32 - p) ltac:(lia)) as HS.
  pose proof (pow2_pos (p - q) ltac:(lia)) as HT.
  rewrite Hsplit.
  set (S := 2 ^ (32 - p)) in *. set (T := 2 ^ (p - q)) in *.
  apply Z.mod_divide in Hal; [| lia]. destruct Hal as [m Hm].
  replace (a - (a - a mod (S * T))) with (a mod (S * T)) by lia.
  rewrite Hm, (Z.mul_comm m S), Z.mul_mod_distr_l by lia.
  rewrite (Z.mul_comm S (m mod T)), Z.div_mul by lia.
  pose proof (Z.mod_pos_bound m T HT). split; [lia |].
  pose proof (Z.div_mod m T ltac:(lia)). nia.
Qed.

Lemma sibling_current (net : IPv4Network) (q : Z) :
  wf_network net -> 0 <= q <= prefixlen net ->
  let parent := network_of (network_address net) q in
  sibling net parent (current_index_spec net parent) = net.
Proof.
  intros Hwf Hq parent.
  destruct (current_index_facts net q Hwf Hq) as [_ E]. fold parent in E.
  unfold sibling. rewrite E. now destruct net.
Qed.

(** The centre of the window is a page of the list. *)
Lemma center_in_range (net : IPv4Network) (requested_page : option string) (center : Z) :
  wf_network net -> 8 < prefixlen net ->
  let parent := network_of (network_address net) (parent_prefix (prefixlen net)) in
  center_page requested_page (total_pages_spec net parent)
                             (current_index_spec net parent) = Ok center ->
  1 <= center <= total_pages_spec net parent.
Proof.
  intros Hwf H8 parent Hc.
  pose proof (parent_prefix_cases (prefixlen net)) as [Hpp _].
  assert (Hlt : prefixlen parent < prefixlen net) by (cbn; lia).
  pose proof (total_subnets_ge_2 net parent Hlt) as Hge.
  pose proof (total_pages_ceil net parent) as Hceil. unfold is_ceil_div in Hceil.
  pose proof (parent_prefix_le (prefixlen net) ltac:(lia)) as Hq.
  destruct (current_index_facts net _ Hwf Hq) as [Hci _]. fold parent in Hci.
  change (2 ^ (prefixlen net - parent_prefix (prefixlen net)))
    with (total_subnets_spec net parent) in Hci.
  assert (Hown : 1 <= current_index_spec net parent / 20 + 1
                 <= total_pages_spec net parent).
  { generalize dependent (current_index_spec net parent). intros ci _ Hci.
    Z.div_mod_to_equations. lia. }
  pose proof (center_page_cases requested_page (total_pages_spec net parent)
                (current_index_spec net parent)) as Hcases.
  destruct requested_page as [[| c s] |];
    try (rewrite Hc in Hcases; injection Hcases as ->; exact Hown).
  destruct (Py.int (String c s)) as [n | |];
    rewrite Hc in Hcases; injection Hcases as ->; try exact Hown.
  unfold clamp. lia.
Qed.

(** The fields of one result, gathered. *)
Lemma format_ipcalc_gathered (net : IPv4Network) (requested_page : option string) :
  wf_network net -> 8 < prefixlen net ->
  let parent := network_of (network_address net) (parent_prefix (prefixlen net)) in
  exists info center,
    format_ipcalc (Some net) requested_page = Ok (Some info)
    /\ center_page requested_page (total_pages_spec net parent)
                                  (current_index_spec net parent) = Ok center
    /\ 1 <= center <= total_pages_spec net parent
    /\ Info.all_nets info
       = map (sibling_entry net parent) (window_indices net parent center)
    /\ Info.total_pages info = total_pages_spec net parent
    /\ Info.current_page info = center
    /\ Info.total_subnets info = total_subnets_spec net parent
    /\ Info.window_start_page info = window_start_spec center
    /\ Info.window_end_page info = window_end_spec net parent center
    /\ Info.current_index info = current_index_spec net parent
    /\ Info.network info = address_str (network_address net)
    /\ Info.broadcast info = address_str (broadcast_address net)
    /\ Info.host_min info = address_str (fst (host_range_spec net))
    /\ Info.host_max info = address_str (snd (host_range_spec net)).
Proof.
  intros Hwf H8 parent.
  pose proof (parent_prefix_cases (prefixlen net)) as [Hpp _].
  assert (Hlt : prefixlen parent < prefixlen net) by (cbn; lia).
  destruct (format_ipcalc_fields net requested_page Hwf)
    as (info & center & Hinfo & Hc & _ & Hwide & _).
  fold parent in Hc, Hwide.
  destruct (Hwide Hlt) as (Hall & Htp & Hcp & Hts & Hws & Hwe & Hci).
  destruct (format_ipcalc_texts net requested_page Hwf)
    as (info1 & Hinfo1 & Hnet & _ & _ & _ & Hbc & _).
  destruct (format_ipcalc_listing net requested_page Hwf) as (center2 & _ & Hst).
  destruct (format_ipcalc_wf net requested_page _ Hwf Hst)
    as (info2 & Hinfo2 & _ & _ & _ & _ & _ & _ & _ & _ & _ & _ & Hmin & Hmax).
  assert (info1 = info) by congruence. assert (info2 = info) by congruence.
  subst info1 info2.
  exists info, center.
  pose proof (center_in_range net requested_page center Hwf H8 Hc) as Hrange.
  repeat (split; [assumption |]). assumption.
Qed.

(** X9. When no page is requested, the list of a network of prefix
    length above 8 holds the row of the network itself: its own address,
    host range and broadcast, marked current, at its index and on the
    current page. *)
Theorem X9_own_row_listed (net : IPv4Network) (requested_page : option string) :
  wf_network net -> 8 < prefixlen net ->
  requested_page = None \/ requested_page = Some EmptyString ->
  exists info,
    format_ipcalc (Some net) requested_page = Ok (Some info)
    /\ In (Entry.mk (Info.network info)
                    (Info.host_min info ++ " - " ++ Info.host_max info)
                    (Info.broadcast info)
                    true
                    (Info.current_index info)
                    (Info.current_page info))
          (Info.all_nets info).
Proof.
  intros Hwf H8 Habsent.
  destruct (format_ipcalc_gathered net requested_page Hwf H8)
    as (info & center & Hinfo & Hc & Hrange & Hall & Htp & Hcp & Hts & Hws & Hwe
        & Hci & Hnet & Hbc & Hmin & Hmax).
  exists info. split; [exact Hinfo |].
  set (parent := network_of (network_address net) (parent_prefix (prefixlen net))) in *.
  pose proof (parent_prefix_le (prefixlen net) ltac:(lia)) as Hq.
  destruct (current_index_facts net _ Hwf Hq) as [Hbound _]. fold parent in Hbound.
  pose proof (sibling_current net _ Hwf Hq) as Hsib. fold parent in Hsib.
  assert (Hcenter : center = current_index_spec net parent / 20 + 1).
  { destruct Habsent as [-> | ->]; cbn [center_page] in Hc;
      unfold ITEMS_PER_PAGE in Hc; congruence. }
  rewrite Hall, Hnet, Hbc, Hmin, Hmax, Hci, Hcp.
  apply in_map_iff. exists (current_index_spec net parent). split.
  - unfold sibling_entry. rewrite Hsib, !Z.eqb_refl, Hcenter. reflexivity.
  - unfold window_indices. apply range_In.
    pose proof (total_pages_ceil net parent) as Hceil. unfold is_ceil_div in Hceil.
    change (2 ^ (prefixlen net - parent_prefix (prefixlen net)))
      with (total_subnets_spec net parent) in Hbound.
    unfold window_start_spec, window_end_spec. rewrite Hcenter.
    generalize dependent (current_index_spec net parent). intros ci. intros.
    Z.div_mod_to_equations. lia.
Qed.

Lemma X9_witness :
  exists info,
    format_ipcalc (Some net_10_10_10_0_30) None = Ok (Some info)
    /\ In (Entry.mk (Info.network info)
                    (Info.host_min info ++ " - " ++ Info.host_max info)
                    (Info.broadcast info)
                    true
                    (Info.current_index info)
                    (Info.current_page info))
          (Info.all_nets info).
Proof.
  apply (X9_own_row_listed net_10_10_10_0_30 None).
  - unfold net_10_10_10_0_30. solve_wf.
  - cbn. lia.
  - left. reflexivity.
Defined.



(* ================================================================== *)
(** ** The page window and the rows *)
(* ================================================================== *)

(** X11. Whatever page is requested, for a network of prefix length
    above 8 the window is a range of pages of the list around the current
    page, and every row lies on a page of the window, at an index below
    the number of subnets. *)
Theorem X11_window_bounds (net : IPv4Network) (requested_page : option string) :
  wf_network net -> 8 < prefixlen net ->
  exists info,
    format_ipcalc (Some net) requested_page = Ok (Some info)
    /\ 1 <= Info.window_start_page info <= Info.current_page info
    /\ Info.current_page info <= Info.window_end_page info <= Info.total_pages info
    /\ forall e, In e (Info.all_nets info) ->
         0 <= Entry.index e < Info.total_subnets info
         /\ Entry.page e = Entry.index e / 20 + 1
         /\ Info.window_start_page info <= Entry.page e <= Info.window_end_page info.
Proof.
  intros Hwf H8.
  destruct (format_ipcalc_gathered net requested_page Hwf H8)
    as (info & center & Hinfo & Hc & Hrange & Hall & Htp & Hcp & Hts & Hws & Hwe & _).
  exists info. split; [exact Hinfo |].
  rewrite Hall, Htp, Hcp, Hts, Hws, Hwe.
  unfold window_start_spec, window_end_spec.
  split; [lia |]. split; [lia |].
  intros e He. apply in_map_iff in He. destruct He as (i & <- & Hi).
  unfold window_indices, window_start_spec, window_end_spec in Hi.
  apply In_range in Hi.
  cbn [sibling_entry Entry.index Entry.page].
  split; [lia |]. split; [reflexivity |].
  Z.div_mod_to_equations. lia.
Qed.

Lemma X11_witness :
  exists info,
    format_ipcalc (Some net_192_168_1_0_24) (Some "99") = Ok (Some info)
    /\ 1 <= Info.window_start_page info <= Info.current_page info.
Proof.
  assert (Hwf : wf_network net_192_168_1_0_24)
    by (unfold net_192_168_1_0_24; solve_wf).
  destruct (X11_window_bounds net_192_168_1_0_24 (Some "99") Hwf ltac:(cbn; lia))
    as (info & Hinfo & Hstart & _).
  exists info. split; assumption.
Defined.



Lemma nth_error_range (a b : Z) (k : nat) (i : Z) :
  nth_error (Py.range a b) k = Some i -> i = a + Z.of_nat k /\ a <= i < b.
Proof.
  unfold Py.range. rewrite nth_error_map, nth_error_seq.
  destruct (Nat.ltb_spec k (Z.to_nat (b - a))) as [Hk | Hk]; cbn [option_map];
    [| discriminate].
  intros Hi. assert (i = a + Z.of_nat (0 + k)) by congruence. lia.
Qed.

(** X13. Consecutive rows are adjacent subnets: the index of a row is one
    more than that of the row before, and its network address is the
    address after the broadcast address of the row before. *)
Theorem X13_rows_adjacent (net : IPv4Network) (requested_page : option string) :
  wf_network net -> 8 < prefixlen net ->
  exists info,
    format_ipcalc (Some net) requested_page = Ok (Some info)
    /\ forall k e1 e2,
         nth_error (Info.all_nets info) k = Some e1 ->
         nth_error (Info.all_nets info) (S k) = Some e2 ->
         Entry.index e2 = Entry.index e1 + 1
         /\ exists x, Entry.broadcast e1 = address_str x
                      /\ Entry.network e2 = address_str (x + 1).
Proof.
  intros Hwf H8.
  destruct (format_ipcalc_gathered net requested_page Hwf H8)
    as (info & center & Hinfo & _ & _ & Hall & _).
  exists info. split; [exact Hinfo |].
  set (parent := network_of (network_address net) (parent_prefix (prefixlen net))) in *.
  pose proof (parent_prefix_le (prefixlen net) ltac:(lia)) as Hq.
  intros k e1 e2 H1 H2. rewrite Hall, nth_error_map in H1, H2.
  destruct (nth_error (window_indices net parent center) k) as [i |] eqn:E1;
    [| discriminate].
  destruct (nth_error (window_indices net parent center) (S k)) as [j |] eqn:E2;
    [| discriminate].
  cbn [option_map] in H1, H2.
  assert (Hi : In i (window_indices net parent center))
    by (eapply nth_error_In; exact E1).
  apply window_indices_bounds in Hi. unfold total_subnets_spec in Hi.
  unfold window_indices in E1, E2.
  apply nth_error_range in E1, E2. destruct E1 as [E1 _], E2 as [E2 _].
  assert (Hj : j = i + 1) by lia. subst j.
  assert (e1 = sibling_entry net parent i) by congruence.
  assert (e2 = sibling_entry net parent (i + 1)) by congruence. subst e1 e2.
  destruct (sibling_entry_fields net parent i Hwf (parent_wf net Hwf)
              ltac:(cbn; lia) Hi) as (_ & _ & _ & Hbc & _).
  split; [reflexivity |].
  eexists. split; [exact Hbc |].
  cbn [sibling_entry Entry.network sibling network_address]. f_equal. lia.
Qed.

Lemma X13_witness :
  exists info,
    format_ipcalc (Some net_10_10_10_0_30) None = Ok (Some info)
    /\ forall k e1 e2,
         nth_error (Info.all_nets info) k = Some e1 ->
         nth_error (Info.all_nets info) (S k) = Some e2 ->
         Entry.index e2 = Entry.index e1 + 1
         /\ exists x, Entry.broadcast e1 = address_str x
                      /\ Entry.network e2 = address_str (x + 1).
Proof.
  apply (X13_rows_adjacent net_10_10_10_0_30 None).
  - unfold net_10_10_10_0_30. solve_wf.
  - cbn. lia.
Defined.

(* ================================================================== *)
(** ** Usable hosts *)
(* ================================================================== *)

(** X14. The number of usable hosts agrees with the host range up to
    prefix length 30: the range lies strictly between the network address
    and the broadcast address and holds as many addresses as the count
    says. At prefix lengths 31 and 32 the count is 0, while both ends of
    the range show the network address. *)
Theorem X14_hosts_and_range (net : IPv4Network) (requested_page : option string) :
  wf_network net ->
  exists info lo hi,
    format_ipcalc (Some net) requested_page = Ok (Some info)
    /\ get_host_range net = Ok (lo, hi)
    /\ Info.host_min info = address_str lo
    /\ Info.host_max info = address_str hi
    /\ (prefixlen net <= 30 ->
        network_address net < lo /\ lo <= hi /\ hi < broadcast_address net
        /\ Info.hosts_usable info = Py.format_comma (hi - lo + 1))
    /\ (31 <= prefixlen net ->
        lo = network_address net /\ hi = network_address net
        /\ Info.hosts_usable info = "0").
Proof.
  intros Hwf.
  destruct (format_ipcalc_listing net requested_page Hwf) as (center & _ & Hst).
  destruct (format_ipcalc_wf net requested_page _ Hwf Hst)
    as (info & Hinfo & _ & _ & _ & _ & _ & _ & _ & _ & _ & Hhosts & Hmin & Hmax).
  exists info, (fst (host_range_spec net)), (snd (host_range_spec net)).
  split; [exact Hinfo |].
  split; [rewrite get_host_range_wf by exact Hwf; now destruct (host_range_spec net) |].
  split; [exact Hmin |]. split; [exact Hmax |].
  pose proof (num_addresses_small net Hwf) as Hsmall.
  pose proof (wf_num_addresses net Hwf) as Hnum.
  pose proof Hwf as (Hp & _).
  rewrite Hhosts. unfold host_range_spec.
  destruct (Z.gtb_spec (num_addresses net) 2) as [Hgt | Hle]; cbn [fst snd].
  - split; [| lia]. intros _. unfold num_addresses in *.
    repeat (split; [lia |]). f_equal. lia.
  - split; [lia |]. intros _. split; [reflexivity |]. split; [reflexivity |].
    assert (Hcases : prefixlen net = 31 \/ prefixlen net = 32) by lia.
    rewrite Hnum. destruct Hcases as [-> | ->]; reflexivity.
Qed.

Lemma X14_witness :
  exists info lo hi,
    format_ipcalc (Some (mkNetwork 16909060 4294967295 32)) None = Ok (Some info)
    /\ get_host_range (mkNetwork 16909060 4294967295 32) = Ok (lo, hi)
    /\ Info.hosts_usable info = "0".
Proof.
  assert (Hwf : wf_network (mkNetwork 16909060 4294967295 32)) by solve_wf.
  destruct (X14_hosts_and_range (mkNetwork 16909060 4294967295 32) None Hwf)
    as (info & lo & hi & Hinfo & Hrange & _ & _ & _ & Hedge).
  exists info, lo, hi. split; [exact Hinfo |]. split; [exact Hrange |].
  apply Hedge. cbn. lia.
Defined.

(* ================================================================== *)
(** ** The wildcard pattern and the description *)
(* ================================================================== *)

Lemma address_str_split (a : Z) :
  Py.split_on "." (address_str a) = map Py.str (to_bytes4 a).
Proof.
  unfold address_str, _string_from_ip_int, Py.join.
  pose proof (to_bytes4_range a) as Hr. unfold to_bytes4 in *.
  cbn [map String.concat].
  inversion_clear Hr as [| ? ? R1 Hr1]. inversion_clear Hr1 as [| ? ? R2 Hr2].
  inversion_clear Hr2 as [| ? ? R3 Hr3]. inversion_clear Hr3 as [| ? ? R4 _].
  match goal with
  | |- Py.split_on _ (?s1 ++ "." ++ ?s2 ++ "." ++ ?s3 ++ "." ++ ?s4) = _ =>
      change (s1 ++ "." ++ s2 ++ "." ++ s3 ++ "." ++ s4)
        with (s1 ++ String "." (s2 ++ String "." (s3 ++ String "." s4)))
  end.
  rewrite !split_on_app, split_on_absent;
    first [reflexivity | apply (octet_text _ R1) | apply (octet_text _ R2)
          | apply (octet_text _ R3) | apply (octet_text _ R4)].
Qed.

Lemma wildcard_network_pattern (net : IPv4Network) :
  wf_network net ->
  let octet := fun i => Py.str (nth i (packed (network_address net)) 0) in
  let p := prefixlen net in
  wildcard_network net
  = Py.join "." [ if 8 <=? p then octet 0%nat else "*";
                  if 16 <=? p then octet 1%nat else "*";
                  if 24 <=? p then octet 2%nat else "*";
                  if 32 <=? p then octet 3%nat else "*" ].
Proof.
  intros (Hp & Hm & _) octet p. unfold wildcard_network.
  rewrite !address_str_split, Hm. fold p.
  assert (Hok : mask_octets_ok p = true)
    by (apply (range_forallb mask_octets_ok 0 33); [vm_compute; reflexivity | lia]).
  unfold mask_octets_ok in Hok.
  unfold octet, packed. unfold to_bytes4 at 1 3 4 5 6.
  destruct (map Py.str (to_bytes4 (_ip_int_from_prefix p)))
    as [| m0 [| m1 [| m2 [| m3 [| m4 l]]]]]; cbn [map] in Hok; try discriminate.
  apply andb_true_iff in Hok. destruct Hok as [Hok H3].
  apply andb_true_iff in Hok. destruct Hok as [Hok H2].
  apply andb_true_iff in Hok. destruct Hok as [H0 H1].
  apply Bool.eqb_prop in H0, H1, H2, H3.
  cbn [map combine nth]. now rewrite H0, H1, H2, H3.
Qed.

(** X15. [wildcard_network] shows a byte of the network address where
    the prefix covers the whole byte and a star elsewhere, also for a
    byte the prefix covers in part. *)
Theorem X15_wildcard_network (net : IPv4Network) :
  wf_network net ->
  let octet := fun i => Py.str (nth i (packed (network_address net)) 0) in
  let p := prefixlen net in
  wildcard_network net
  = Py.join "." [ if 8 <=? p then octet 0%nat else "*";
                  if 16 <=? p then octet 1%nat else "*";
                  if 24 <=? p then octet 2%nat else "*";
                  if 32 <=? p then octet 3%nat else "*" ].
Proof. exact (wildcard_network_pattern net). Qed.

Lemma X15_witness : wildcard_network (mkNetwork 168427520 4294963200 20) = "10.10.*.*".
Proof.
  assert (Hwf : wf_network (mkNetwork 168427520 4294963200 20)) by solve_wf.
  rewrite (X15_wildcard_network _ Hwf). vm_compute. reflexivity.
Defined.

(** The bytes of an address that a class boundary keeps. *)
Lemma parent_octets (a : Z) :
  0 <= a <= _ALL_ONES ->
  (nth 0 (to_bytes4 (Z.land a (_ip_int_from_prefix 8))) 0 = nth 0 (to_bytes4 a) 0)
  /\ (nth 0 (to_bytes4 (Z.land a (_ip_int_from_prefix 16))) 0 = nth 0 (to_bytes4 a) 0
      /\ nth 1 (to_bytes4 (Z.land a (_ip_int_from_prefix 16))) 0
         = nth 1 (to_bytes4 a) 0)
  /\ (nth 0 (to_bytes4 (Z.land a (_ip_int_from_prefix 24))) 0 = nth 0 (to_bytes4 a) 0
      /\ nth 1 (to_bytes4 (Z.land a (_ip_int_from_prefix 24))) 0
         = nth 1 (to_bytes4 a) 0
      /\ nth 2 (to_bytes4 (Z.land a (_ip_int_from_prefix 24))) 0
         = nth 2 (to_bytes4 a) 0).
Proof.
  intros Ha. rewrite !land_mask by lia.
  unfold to_bytes4. cbn [nth]. rewrite !Z.shiftr_div_pow2 by lia.
  unfold _ALL_ONES, IPV4LENGTH in Ha. change (2 ^ 32 - 1) with 4294967295 in Ha.
  change (2 ^ (32 - 8)) with 16777216. change (2 ^ (32 - 16)) with 65536.
  change (2 ^ (32 - 24)) with 256. change (2 ^ 24) with 16777216.
  change (2 ^ 16) with 65536. change (2 ^ 8) with 256.
  repeat split; Z.div_mod_to_equations; lia.
Qed.

(** X16. The description of the list. Above prefix length 8 it counts
    the subnets and names the parent by the bytes of the network address
    that the class boundary keeps, stars after them; at prefix length 8
    or below it names the network alone. *)
Theorem X16_parent_desc (net : IPv4Network) (requested_page : option string) :
  wf_network net ->
  let octet := fun i => Py.str (nth i (packed (network_address net)) 0) in
  let p := prefixlen net in
  exists info,
    format_ipcalc (Some net) requested_page = Ok (Some info)
    /\ (8 < p ->
        Info.parent_desc info
        = "All " ++ Py.format_comma (Info.total_subnets info)
          ++ " Possible /" ++ Py.str p ++ " Networks in "
          ++ Py.join "." [ octet 0%nat;
                           if 16 <? p then octet 1%nat else "*";
                           if 24 <? p then octet 2%nat else "*";
                           "*" ])
    /\ (p <= 8 -> Info.parent_desc info = "Network: " ++ Info.cidr_full info).
Proof.
  intros Hwf octet p.
  destruct (format_ipcalc_texts net requested_page Hwf)
    as (info & Hinfo & _ & Hcidr & _ & _ & _ & _ & _ & _ & _ & Hdesc).
  exists info. split; [exact Hinfo |].
  pose proof (parent_prefix_cases (prefixlen net)) as [Hpp H16].
  set (parent := network_of (network_address net) (parent_prefix (prefixlen net))) in *.
  pose proof Hwf as (Hp & _ & Ha & _).
  split.
  - intros H8. unfold p in H8.
    destruct (format_ipcalc_gathered net requested_page Hwf H8)
      as (info' & center & Hinfo' & _ & _ & _ & _ & _ & Hts & _).
    assert (info' = info) by congruence. subst info'.
    fold parent in Hts.
    assert (Hlt : prefixlen parent < prefixlen net) by (cbn; lia).
    pose proof (total_subnets_ge_2 net parent Hlt) as Hge.
    rewrite Hdesc, Hts.
    destruct (Z.ltb_spec (prefixlen parent) (prefixlen net)); [| lia].
    unfold describe.
    destruct (Z.gtb_spec (total_subnets_spec net parent) 1); [| lia].
    rewrite (wildcard_network_pattern parent (parent_wf net Hwf)).
    destruct (parent_octets (network_address net) Ha) as (O8 & (O16a & O16b) & (O24a & O24b & O24c)).
    unfold octet, p, packed, parent, parent_prefix.
    cbn [network_of network_address prefixlen].
    destruct (Z.gtb_spec (prefixlen net) 24) as [G24 | G24].
    + destruct (Z.ltb_spec 16 (prefixlen net)); [| lia].
      destruct (Z.ltb_spec 24 (prefixlen net)); [| lia].
      cbn [Z.leb Z.compare Pos.compare Pos.compare_cont].
      now rewrite O24a, O24b, O24c.
    + destruct (Z.gtb_spec (prefixlen net) 16) as [G16 | G16].
      * destruct (Z.ltb_spec 16 (prefixlen net)); [| lia].
        destruct (Z.ltb_spec 24 (prefixlen net)); [lia |].
        cbn [Z.leb Z.compare Pos.compare Pos.compare_cont].
        now rewrite O16a, O16b.
      * destruct (Z.ltb_spec 16 (prefixlen net)); [lia |].
        destruct (Z.ltb_spec 24 (prefixlen net)); [lia |].
        cbn [Z.leb Z.compare Pos.compare Pos.compare_cont].
        now rewrite O8.
  - intros H8. unfold p in H8. rewrite Hdesc, Hcidr.
    assert (Hge : prefixlen net <= prefixlen parent) by (cbn; lia).
    destruct (Z.ltb_spec (prefixlen parent) (prefixlen net)); [lia |].
    reflexivity.
Qed.

Lemma X16_witness :
  exists info,
    format_ipcalc (Some net_10_10_10_0_30) None = Ok (Some info)
    /\ Info.parent_desc info = "All 64 Possible /30 Networks in 10.10.10.*".
Proof.
  assert (Hwf : wf_network net_10_10_10_0_30) by (unfold net_10_10_10_0_30; solve_wf).
  destruct (X16_parent_desc net_10_10_10_0_30 None Hwf) as (info & Hinfo & Hwide & _).
  exists info. split; [exact Hinfo |].
  rewrite Hwide by (cbn; lia).
  assert (E : format_ipcalc (Some net_10_10_10_0_30) None = Ok (Some info))
    by exact Hinfo.
  vm_compute in E. injection E as <-. vm_compute. reflexivity.
Defined.

(* ================================================================== *)
(** ** Reverse DNS name and binary texts *)
(* ================================================================== *)

(** X17. The reverse-DNS name is made of the dotted parts of the network
    address text in reverse order, then [.in-addr.arpa]. *)
Theorem X17_in_addr_reverses_network (net : IPv4Network)
                                     (requested_page : option string) :
  wf_network net ->
  exists info,
    format_ipcalc (Some net) requested_page = Ok (Some info)
    /\ Info.in_addr info
       = Py.join "." (rev (Py.split_on "." (Info.network info))) ++ ".in-addr.arpa".
Proof.
  intros Hwf.
  destruct (format_ipcalc_texts net requested_page Hwf)
    as (info & Hinfo & Hnet & _ & _ & _ & _ & Hin & _).
  exists info. split; [exact Hinfo |].
  rewrite Hin, Hnet, address_str_split, map_rev. reflexivity.
Qed.

Lemma X17_witness :
  exists info,
    format_ipcalc (Some net_10_10_10_0_30) None = Ok (Some info)
    /\ Info.in_addr info
       = Py.join "." (rev (Py.split_on "." (Info.network info))) ++ ".in-addr.arpa".
Proof.
  apply (X17_in_addr_reverses_network net_10_10_10_0_30 None).
  unfold net_10_10_10_0_30. solve_wf.
Defined.

(** X18. The binary subnet mask, its dots left out, is the prefix length
    in ones followed by zeroes up to 32 digits. *)
Theorem X18_binary_mask_ones (net : IPv4Network) (requested_page : option string) :
  wf_network net ->
  exists info,
    format_ipcalc (Some net) requested_page = Ok (Some info)
    /\ without_dots (Info.binary_mask info)
       = repeat_char "1" (Z.to_nat (prefixlen net))
         ++ repeat_char "0" (Z.to_nat (32 - prefixlen net)).
Proof.
  intros Hwf.
  destruct (format_ipcalc_texts net requested_page Hwf)
    as (info & Hinfo & _ & _ & _ & _ & _ & _ & Hbin & _).
  exists info. split; [exact Hinfo |].
  destruct Hwf as (Hp & Hm & _). rewrite Hbin, Hm.
  apply String.eqb_eq.
  apply (range_forallb binary_mask_ok 0 33); [vm_compute; reflexivity | lia].
Qed.

Lemma X18_witness :
  exists info,
    format_ipcalc (Some net_10_10_10_0_30) None = Ok (Some info)
    /\ without_dots (Info.binary_mask info)
       = repeat_char "1" 30 ++ repeat_char "0" 2.
Proof.
  apply (X18_binary_mask_ones net_10_10_10_0_30 None).
  unfold net_10_10_10_0_30. solve_wf.
Defined.

Lemma byte_bits (b : Z) :
  0 <= b < 256 ->
  bits_value (Py.format_08b b) 0 = b
  /\ String.length (Py.format_08b b) = 8%nat
  /\ Py.contains "." (Py.format_08b b) = false.
Proof.
  intros Hb.
  assert (H : byte_bits_ok b = true)
    by (apply (range_forallb byte_bits_ok 0 256); [vm_compute; reflexivity | lia]).
  unfold byte_bits_ok in H.
  apply andb_true_iff in H. destruct H as [H H3].
  apply andb_true_iff in H. destruct H as [H1 H2].
  apply Z.eqb_eq in H1. apply Nat.eqb_eq in H2. apply negb_true_iff in H3. auto.
Qed.

Lemma without_dots_app (s1 s2 : string) :
  without_dots (s1 ++ s2) = without_dots s1 ++ without_dots s2.
Proof.
  induction s1 as [| a s1 IH]; cbn [append without_dots]; [reflexivity |].
  destruct (Ascii.eqb a "."); cbn [append]; now rewrite IH.
Qed.

Lemma without_dots_absent (s : string) :
  Py.contains "." s = false -> without_dots s = s.
Proof.
  induction s as [| a s IH]; cbn [Py.contains without_dots]; [reflexivity |].
  intros H. apply orb_false_iff in H. destruct H as [Ha Hs].
  now rewrite Ha, IH.
Qed.

Lemma bits_value_app (s1 s2 : string) :
  forall acc, bits_value (s1 ++ s2) acc = bits_value s2 (bits_value s1 acc).
Proof.
  induction s1 as [| a s1 IH]; intros acc; cbn [append bits_value];
    [reflexivity | apply IH].
Qed.

(** Eight binary digits after an accumulator. *)
Lemma bits_value_shift (s : string) :
  forall acc, bits_value s acc = acc * 2 ^ Z.of_nat (String.length s) + bits_value s 0.
Proof.
  induction s as [| a s IH]; intros acc; cbn [bits_value String.length].
  - cbn. lia.
  - rewrite IH, (IH (2 * 0 + _)).
    rewrite Nat2Z.inj_succ, Z.pow_succ_r by lia. ring.
Qed.

(** X19. The binary ID, its dots left out and read as a binary number,
    is the network address. *)
Theorem X19_binary_id_value (net : IPv4Network) (requested_page : option string) :
  wf_network net ->
  exists info,
    format_ipcalc (Some net) requested_page = Ok (Some info)
    /\ bits_value (without_dots (Info.binary_id info)) 0 = network_address net.
Proof.
  intros Hwf.
  destruct (format_ipcalc_texts net requested_page Hwf)
    as (info & Hinfo & _ & _ & _ & _ & _ & _ & _ & Hbin & _).
  exists info. split; [exact Hinfo |].
  destruct Hwf as (_ & _ & Ha & _). rewrite Hbin.
  rewrite <- (from_to_bytes (network_address net) Ha) at 2.
  unfold packed, Py.join.
  pose proof (to_bytes4_range (network_address net)) as Hr. unfold to_bytes4 in *.
  inversion_clear Hr as [| ? ? R1 Hr1]. inversion_clear Hr1 as [| ? ? R2 Hr2].
  inversion_clear Hr2 as [| ? ? R3 Hr3]. inversion_clear Hr3 as [| ? ? R4 _].
  destruct (byte_bits _ R1) as (V1 & L1 & D1). destruct (byte_bits _ R2) as (V2 & L2 & D2).
  destruct (byte_bits _ R3) as (V3 & L3 & D3). destruct (byte_bits _ R4) as (V4 & L4 & D4).
  cbn [map String.concat].
  rewrite !without_dots_app.
  change (without_dots ".") with EmptyString. cbn [append].
  rewrite !without_dots_absent by assumption.
  rewrite !bits_value_app.
  rewrite (bits_value_shift (Py.format_08b (network_address net mod 256))).
  rewrite (bits_value_shift (Py.format_08b (Z.shiftr (network_address net) 8 mod 256))).
  rewrite (bits_value_shift (Py.format_08b (Z.shiftr (network_address net) 16 mod 256))).
  rewrite L2, L3, L4, V1, V2, V3, V4.
  unfold from_bytes_big. cbn [fold_left]. change (2 ^ Z.of_nat 8) with 256. lia.
Qed.

Lemma X19_witness :
  exists info,
    format_ipcalc (Some net_10_10_10_0_30) None = Ok (Some info)
    /\ bits_value (without_dots (Info.binary_id info)) 0 = 168430080.
Proof.
  apply (X19_binary_id_value net_10_10_10_0_30 None).
  unfold net_10_10_10_0_30. solve_wf.
Defined.

(* ================================================================== *)
(** ** Parents of parents *)
(* ================================================================== *)

Lemma parent_prefix_thrice (p : Z) :
  parent_prefix (parent_prefix (parent_prefix p)) = 8
  /\ parent_prefix (parent_prefix p) <= parent_prefix p
  /\ 8 <= parent_prefix (parent_prefix p).
Proof.
  assert (H : parent_prefix p = 24 \/ parent_prefix p = 16 \/ parent_prefix p = 8).
  { unfold parent_prefix. destruct (p >? 24); [auto |]. destruct (p >? 16); auto. }
  destruct H as [-> | [-> | ->]]; vm_compute; repeat split; congruence.
Qed.

(** X20. Taking the parent three times always ends at the /8 around the
    network address, and that /8 is its own parent: the chain of parents
    of a network stops there. *)
Theorem X20_parent_chain (net : IPv4Network) :
  wf_network net ->
  exists p1 p2 p3,
    get_parent_network net = Ok p1
    /\ get_parent_network p1 = Ok p2
    /\ get_parent_network p2 = Ok p3
    /\ p3 = network_of (network_address net) 8
    /\ get_parent_network p3 = Ok p3.
Proof.
  intros Hwf. pose proof Hwf as (Hp & _ & Ha & _).
  pose proof (parent_wf net Hwf) as Hwf1.
  pose proof (parent_wf _ Hwf1) as Hwf2.
  pose proof (parent_wf _ Hwf2) as Hwf3.
  pose proof (parent_wf _ Hwf3) as Hwf4.
  destruct (parent_prefix_thrice (prefixlen net)) as (E3 & Hle & Hge).
  do 3 eexists.
  split; [apply get_parent_network_wf, Hwf |].
  split; [apply get_parent_network_wf, Hwf1 |].
  split; [apply get_parent_network_wf, Hwf2 |].
  cbn [network_of network_address prefixlen] in *.
  assert (Hq1 : 0 <= parent_prefix (prefixlen net) <= 32).
  { unfold parent_prefix. destruct (prefixlen net >? 24); [lia |].
    destruct (prefixlen net >? 16); lia. }
  rewrite E3.
  assert (Echain : Z.land (Z.land (network_address net)
                             (_ip_int_from_prefix (parent_prefix (prefixlen net))))
                     (_ip_int_from_prefix (parent_prefix (parent_prefix (prefixlen net))))
                   = Z.land (network_address net)
                       (_ip_int_from_prefix
                          (parent_prefix (parent_prefix (prefixlen net)))))
    by (apply land_mask_mask; lia).
  assert (Elast : network_of
                    (Z.land (Z.land (network_address net)
                               (_ip_int_from_prefix (parent_prefix (prefixlen net))))
                       (_ip_int_from_prefix
                          (parent_prefix (parent_prefix (prefixlen net))))) 8
                  = network_of (network_address net) 8).
  { unfold network_of. rewrite Echain, land_mask_mask by lia. reflexivity. }
  split; [exact Elast |].
  rewrite Elast.
  rewrite (get_parent_network_wf _ (network_of_wf _ 8 Ha ltac:(lia))).
  cbn [network_of network_address prefixlen]. change (parent_prefix 8) with 8.
  unfold network_of. now rewrite land_mask_idem by lia.
Qed.

Lemma X20_witness :
  exists p1 p2 p3,
    get_parent_network net_10_10_10_0_30 = Ok p1
    /\ get_parent_network p1 = Ok p2
    /\ get_parent_network p2 = Ok p3
    /\ p3 = network_of (network_address net_10_10_10_0_30) 8
    /\ get_parent_network p3 = Ok p3.
Proof.
  apply (X20_parent_chain net_10_10_10_0_30).
  unfold net_10_10_10_0_30. solve_wf.
Defined.

(* ================================================================== *)
(** ** Class and type *)
(* ================================================================== *)

Lemma format_ipcalc_class (net : IPv4Network) (requested_page : option string) :
  wf_network net ->
  exists info,
    format_ipcalc (Some net) requested_page = Ok (Some info)
    /\ Info.ip_type info = (if is_private net then "Private" else "Public")
    /\ Info.ip_class info
       = (let first_octet := nth 0 (packed (network_address net)) 0 in
          if first_octet <=? 127 then "A"
          else if first_octet <=? 191 then "B"
          else if first_octet <=? 223 then "C"
          else if first_octet <=? 239 then "D" else "E").
Proof.
  intros Hwf.
  destruct (format_ipcalc_listing net requested_page Hwf) as (center & _ & Hst).
  unfold format_ipcalc.
  rewrite get_host_range_wf by exact Hwf.
  destruct (host_range_spec net) as [lo hi] eqn:Ehr. cbn [fst snd] in Hst.
  cbn [bind].
  rewrite IPv4Address_of_int_ok by (apply wildcard_range; exact Hwf).
  cbn [bind].
  rewrite get_parent_network_wf by exact Hwf. cbn [bind].
  rewrite Hst. cbn [bind].
  eexists. split; [reflexivity |].
  cbn [Info.ip_type Info.ip_class]. split; reflexivity.
Qed.

(** X21. The class letter goes by the value of the network address:
    A below 128.0.0.0, B below 192.0.0.0, C below 224.0.0.0, D below
    240.0.0.0, E from there on. *)
Theorem X21_class_by_address (net : IPv4Network) (requested_page : option string) :
  wf_network net ->
  exists info,
    format_ipcalc (Some net) requested_page = Ok (Some info)
    /\ Info.ip_class info = class_of_address (network_address net).
Proof.
  intros Hwf.
  destruct (format_ipcalc_class net requested_page Hwf) as (info & Hinfo & _ & Hclass).
  exists info. split; [exact Hinfo |].
  destruct Hwf as (_ & _ & Ha & _).
  destruct (first_octet_value (network_address net) Ha) as [Hfirst Hrange].
  rewrite Hclass. cbv zeta. rewrite Hfirst. unfold class_of_address.
  set (a := network_address net) in *.
  unfold _ALL_ONES, IPV4LENGTH in Ha. change (2 ^ 32 - 1) with 4294967295 in Ha.
  change (2 ^ 24) with 16777216 in *.
  repeat match goal with
         | |- context [?x <=? ?y] => destruct (Z.leb_spec x y)
         | |- context [?x <? ?y] => destruct (Z.ltb_spec x y)
         end; try reflexivity; exfalso; Z.div_mod_to_equations; lia.
Qed.

Lemma X21_witness :
  exists info,
    format_ipcalc (Some net_192_168_1_0_24) None = Ok (Some info)
    /\ Info.ip_class info = class_of_address 3232235776.
Proof.
  apply (X21_class_by_address net_192_168_1_0_24 None).
  unfold net_192_168_1_0_24. solve_wf.
Defined.

(** The addresses of a network are those from its base to its base plus
    its size. *)
Lemma network_contains_range (base q x : Z) :
  0 <= q <= 32 -> 0 <= x <= _ALL_ONES ->
  base mod 2 ^ (32 - q) = 0 ->
  network_contains (mkNetwork base (_ip_int_from_prefix q) q) x
  = (base <=? x) && (x <? base + 2 ^ (32 - q)).
Proof.
  intros Hq Hx Hal. unfold network_contains. cbn [network_address netmask].
  rewrite land_mask by assumption.
  pose proof (pow2_pos (32 - q) ltac:(lia)) as Hpos.
  apply Z.mod_divide in Hal; [| lia]. destruct Hal as [m Hm].
  set (k := 2 ^ (32 - q)) in *.
  pose proof (Z.div_mod x k ltac:(lia)) as Hdm.
  pose proof (Z.mod_pos_bound x k Hpos) as Hmb.
  destruct (Z.eqb_spec (k * (x / k)) base) as [E | E];
    destruct (Z.leb_spec base x); destruct (Z.ltb_spec x (base + k));
    cbn [andb]; try reflexivity; exfalso; try nia.
  apply E. assert (x / k = m) by nia. nia.
Qed.

(** An address between the ends of one of the three blocks is in the
    block, and is neither of the two excepted addresses. *)
Lemma rfc1918_contains (priv : IPv4Network) (x : Z) :
  In priv rfc1918 ->
  network_address priv <= x <= broadcast_address priv ->
  network_contains priv x = true
  /\ forallb (fun network => negb (network_contains network x))
             _private_networks_exceptions = true.
Proof.
  intros Hin Hx.
  assert (Hcases : (priv = constant_network 10 0 0 0 8
                    /\ 167772160 <= x <= 184549375)
                   \/ (priv = constant_network 172 16 0 0 12
                       /\ 2886729728 <= x <= 2887778303)
                   \/ (priv = constant_network 192 168 0 0 16
                       /\ 3232235520 <= x <= 3232301055)).
  { unfold rfc1918 in Hin. cbn [In] in Hin.
    destruct Hin as [<- | [<- | [<- | []]]]; [left | right; left | right; right];
      (split; [reflexivity | exact Hx]). }
  assert (Hrange : 0 <= x <= _ALL_ONES).
  { unfold _ALL_ONES, IPV4LENGTH. change (2 ^ 32 - 1) with 4294967295.
    destruct Hcases as [[_ H] | [[_ H] | [_ H]]]; lia. }
  unfold _private_networks_exceptions. cbn [forallb].
  unfold constant_network at 1 2.
  rewrite !network_contains_range by (lia || assumption || reflexivity).
  change (from_bytes_big [192; 0; 0; 9]) with 3221225481.
  change (from_bytes_big [192; 0; 0; 10]) with 3221225482.
  change (2 ^ (32 - 32)) with 1.
  destruct Hcases as [[-> H] | [[-> H] | [-> H]]]; unfold constant_network;
    rewrite network_contains_range by (lia || assumption || reflexivity).
  - change (from_bytes_big [10; 0; 0; 0]) with 167772160.
    change (2 ^ (32 - 8)) with 16777216.
    repeat match goal with
           | |- context [?a <=? ?b] => destruct (Z.leb_spec a b)
           | |- context [?a <? ?b] => destruct (Z.ltb_spec a b)
           end; cbn [andb negb]; try (split; reflexivity); exfalso; lia.
  - change (from_bytes_big [172; 16; 0; 0]) with 2886729728.
    change (2 ^ (32 - 12)) with 1048576.
    repeat match goal with
           | |- context [?a <=? ?b] => destruct (Z.leb_spec a b)
           | |- context [?a <? ?b] => destruct (Z.ltb_spec a b)
           end; cbn [andb negb]; try (split; reflexivity); exfalso; lia.
  - change (from_bytes_big [192; 168; 0; 0]) with 3232235520.
    change (2 ^ (32 - 16)) with 65536.
    repeat match goal with
           | |- context [?a <=? ?b] => destruct (Z.leb_spec a b)
           | |- context [?a <? ?b] => destruct (Z.ltb_spec a b)
           end; cbn [andb negb]; try (split; reflexivity); exfalso; lia.
Qed.

(** X22. A network that lies within 10.0.0.0/8, 172.16.0.0/12 or
    192.168.0.0/16 is reported as Private. *)
Theorem X22_rfc1918_private (net priv : IPv4Network) (requested_page : option string) :
  wf_network net -> In priv rfc1918 -> within net priv ->
  exists info,
    format_ipcalc (Some net) requested_page = Ok (Some info)
    /\ Info.ip_type info = "Private".
Proof.
  intros Hwf Hin [Hlo Hhi].
  destruct (format_ipcalc_class net requested_page Hwf) as (info & Hinfo & Htype & _).
  exists info. split; [exact Hinfo |].
  pose proof (wf_broadcast_range net Hwf) as [Hb _].
  destruct (rfc1918_contains priv (network_address net) Hin ltac:(lia)) as [Ca Ea].
  destruct (rfc1918_contains priv (broadcast_address net) Hin ltac:(lia)) as [Cb Eb].
  assert (Hpriv : is_private net = true).
  { unfold is_private. apply andb_true_iff. split.
    - apply existsb_exists. exists priv. split; [| now rewrite Ca, Cb].
      unfold rfc1918 in Hin. cbn [In] in Hin. unfold _private_networks. cbn [In].
      intuition auto.
    - cbn [forallb _private_networks_exceptions] in Ea, Eb |- *.
      apply andb_true_iff in Ea, Eb. destruct Ea as [Ea1 Ea], Eb as [Eb1 Eb].
      apply andb_true_iff in Ea, Eb. destruct Ea as [Ea2 _], Eb as [Eb2 _].
      now rewrite Ea1, Ea2, Eb1, Eb2. }
  now rewrite Htype, Hpriv.
Qed.

Lemma X22_witness :
  exists info,
    format_ipcalc (Some net_10_10_10_0_30) None = Ok (Some info)
    /\ Info.ip_type info = "Private".
Proof.
  apply (X22_rfc1918_private net_10_10_10_0_30 (constant_network 10 0 0 0 8) None).
  - unfold net_10_10_10_0_30. solve_wf.
  - left. reflexivity.
  - unfold within. vm_compute. split; discriminate.
Defined.

(* ================================================================== *)
(** ** Two facts on [parse_input], for every text *)
(* ================================================================== *)

(** X23. Whatever network [parse_input] returns is well formed: a prefix
    length from 0 to 32, the netmask of that prefix length, and a 32-bit
    network address with no host bit set. *)
Theorem X23_parsed_network_well_formed (input_str : string) (net : IPv4Network) :
  parse_input input_str = Ok (Some net) ->
  0 <= prefixlen net <= 32
  /\ netmask net = _ip_int_from_prefix (prefixlen net)
  /\ 0 <= network_address net <= _ALL_ONES
  /\ Z.land (network_address net) (netmask net) = network_address net.
Proof. exact (parse_input_wf input_str net). Qed.

Lemma X23_witness :
  0 <= prefixlen net_192_168_1_0_24 <= 32
  /\ netmask net_192_168_1_0_24 = _ip_int_from_prefix (prefixlen net_192_168_1_0_24)
  /\ 0 <= network_address net_192_168_1_0_24 <= _ALL_ONES
  /\ Z.land (network_address net_192_168_1_0_24) (netmask net_192_168_1_0_24)
     = network_address net_192_168_1_0_24.
Proof.
  apply (X23_parsed_network_well_formed "192.168.1.10/24").
  vm_compute. reflexivity.
Defined.

(** X24. The wildcard fallback never yields a network: on a text of two
    tokens, when the constructor refuses the second token as a mask,
    [parse_input] returns [None]. *)
Theorem X24_wildcard_fallback_dead (input_str ip mask : string) :
  input_str <> EmptyString ->
  Py.contains "/" (Py.strip input_str) = false ->
  Py.split (Py.strip input_str) = [ip; mask] ->
  IPv4Network_of_str (ip ++ "/" ++ mask) false = ValueError ->
  parse_input input_str = Ok None.
Proof. exact (wildcard_fallback_fails input_str ip mask). Qed.

Lemma X24_witness : parse_input "10.10.10.1 0.255.0.255" = Ok None.
Proof.
  apply (X24_wildcard_fallback_dead "10.10.10.1 0.255.0.255" "10.10.10.1" "0.255.0.255").
  - discriminate.
  - vm_compute. reflexivity.
  - vm_compute. reflexivity.
  - vm_compute. reflexivity.
Defined.
